(* ===== verification/_CoqProject ===== *)
-Q . S2P
Prelude.v
PyStr.v
PyValue.v
Fallback.v
Prompt.v
Log.v
ChatHandler.v
Routes.v
Env.v
PyInt.v
Json.v
Wire.v
Startup.v
App.v
Server.v
