(* ===== verification/Prelude.v ===== *)
(** * Verification of the SupplyGuard chat backend (src/app.py)

    ** The program

    src/app.py is a Flask application.  Importing it loads the [.env]
    file into the environment ([load_dotenv], line 9), creates the app
    with CORS (lines 11-12) and builds the LLM client [llm] for DeepSeek
    (lines 14-19).  Its one piece of logic is the view [chat()] of
    [POST /api/v1/chat] (lines 123-187).  The view reads the JSON body
    and answers 400 when [messages] is missing or empty.  Otherwise it
    answers 200, either with the provider's reply ([llm.invoke]) or
    with a canned fallback text chosen by keyword
    ([get_fallback_response], lines 101-113).  The prompt is the
    constant [SYSTEM_PROMPT] (lines 22-89), an optional message naming
    the client's current page, and the last ten entries of the
    conversation.  Any exception in the view is caught once
    ([except Exception], lines 175-187) and answered with the fallback;
    an exception raised again there escapes to Flask.  The view prints
    four diagnostic lines (138, 162, 167, 176), each opening with an
    emoji, and start-up prints a two-line banner (191-192), also with
    emoji; a console whose encoding cannot encode them makes [print]
    raise [UnicodeEncodeError].  Two more routes render
    templates ([/] and [/demo], lines 115-121).  The view's answers are
    dicts that [jsonify] writes as JSON text.  [python app.py] starts
    werkzeug's threaded development server on every interface, on the
    port of [PORT], in debug mode (lines 189-193): an exception that
    escapes a view is answered by werkzeug's debugger.

    ** The development, file by file (in dependency order)

    - Prelude.v (this file):
      - the scope [py_scope] with [+:+] (Python's [+] on [str]);
      - the hint databases [pyx] (resolve) and [pyx_rw] (rewrite);
      - lemmas on strings, boolean searches and lists;
      - [lastn], the reference definition of "the last n items".
    - PyStr.v, Module [PyStr]: [str.lower] on Latin-1 code points, and
      the substring test [needle in hay] ([py_in]), proved to decide
      the relation [substr].
    - PyValue.v, Module [PyValue]:
      - the values of [request.json] ([pyval]) and the exceptions
        ([exc]);
      - [result], with the bind [x <-? r ;; k] and the tactic [rinv];
      - the Python operations the program uses, each with the
        exception CPython raises: [.get], [x[k]], [x[i:]], [x[:j]],
        [len], [for], [==], [str()];
      - [PyM], a state and exception monad whose state is the trace of
        observable events.
    - Fallback.v, Module [Fallback]:
      - [FALLBACK_RESPONSES] as the association list of the dict
        literal, in insertion order;
      - the guard keywords and [get_fallback_response];
      - the relational specification [fallback_spec].
    - Prompt.v, Module [Prompt]: [SYSTEM_PROMPT]; langchain's message
      classes; [build_chat_messages] (lines 147-160).
    - Log.v, Module [Log]:
      - the observable [event]s (the provider call, the four prints);
      - [render], the line each print writes, and the two banner lines,
        as lists of Unicode code points;
      - the type class [Console] (the code points the encoding of
        stdout encodes), the instance [utf8_console] in scope and the
        consoles [latin1_console], [ascii_console]; [console_print]
        raises [UnicodeEncodeError] on a line it cannot encode.
    - ChatHandler.v, Module [ChatHandler]:
      - [chat_try], [chat_except], [chat] and Flask's handling of an
        escaping exception ([handle_chat]);
      - the API key and the LLM client are parameters;
      - the provider call and the four prints are events of the trace;
        a print is [Log.log]: the line is printed on the console first,
        and the event is recorded only when the print succeeds;
      - the JSON schemas of the answers ([error_schema],
        [success_schema], [fallback_schema]);
      - [chat_contract] is section 4.1 of the spec; [request_trace]
        lists the shapes of a request's events.
    - Routes.v, Module [Routes]:
      - the URL map of the three [@app.route]s, with werkzeug's
        matching (HEAD, OPTIONS, 404, 405, the 308 of slash merging);
      - the page views, whose templates folder is a parameter;
      - the CORS header; [dispatch] is the application answering one
        request.
    - Env.v, Module [Env]: [os.environ] as a stdpp [gmap], [getenv],
      and [load_dotenv] without override.
    - PyInt.v, Module [PyInt]: CPython's [int()] in base 10 on a str,
      an int and a bool.
    - Json.v, Module [Json]: the body of [jsonify] as Flask writes it
      ([flask_json_text]: the standard library's encoder with
      [ensure_ascii] and [sort_keys], indented in debug mode), Python's
      [==] on values ([py_eq]), and [json.loads] ([json_loads]: the
      scanner of [json.decoder]) on the values the model represents.
    - Wire.v, Module [Wire]: the application's JSON answers as bytes, as
      a client decodes them.
    - Startup.v, Module [Startup]: the [__main__] block ([main]): the
      port through [int()], the banner, and [app.run] ([app_run]):
      [socket.getaddrinfo] on the port ([getaddrinfo_port], through a C
      [long] and glibc's C [int], [c_int_of]), then the bind, which the
      operating system allows or not (the parameter [bindable]).
    - App.v, Module [App]:
      - the imports of lines 1-7 against the installed modules
        ([app_imports]), [ChatOpenAI(...)] ([chat_openai]) and the
        module's import ([import_app]);
      - a request to the running application ([serve]), the same under
        werkzeug's debugger ([serve_debug]), and [python app.py]
        ([run]).
    - Server.v, Module [Server]: the threaded server.  [step] is the
      scheduler's relation on the running threads, the interleaved log
      and the answers sent.

    The components interact by calls only: the view reads the
    environment and the client the import left, and its one side
    effects are the provider call and the log lines.  Both blocks of
    the view read [request.json], which Flask parses once and caches:
    the model passes the same [result pyval] to both.

    ** The theorems (claims C1-C32)

    - ChatHandler:
      - the refinement of the contract on well-formed requests (C1);
      - each branch in general form (C2-C5);
      - the shapes of a request's events: at most one provider call,
        none without a key (C14);
      - the status codes (C15);
      - the 500 answers and the [context: null] behaviour the spec
        does not foresee (C16-C18);
      - on a console that cannot encode the prints' emoji, no request
        gets a 200 and the provider is never called (C19);
      - every JSON body has the type the spec's schema gives it (C20).
    - Fallback:
      - the refinement of [fallback_spec] (C6);
      - the redirect branch (C7);
      - the precedence of the keys (C8).
    - Prompt:
      - the system prompt first and at most 12 messages (C10);
      - the window of ten entries (C11);
      - the prompt of well-formed entries (C12);
      - the context message (C13).
    - Wire: every JSON answer of the application decodes to the error
      object, the provider's reply or the fallback, fields sorted (C27).
    - Startup: the port of a [PORT] literal, truncated to 16 bits the
      way glibc's [getaddrinfo] does, negative ports refused (C21); the
      bounds and errors of start-up, a failed bind ending in
      [sys.exit(1)] (C22); on a console that cannot encode the banner's
      emoji, start-up never serves (C9).
    - Routes:
      - POST /api/v1/chat is the chat endpoint (C23);
      - no other request runs the view (C24);
      - 404 (C25) and 405 with [Allow] (C26).
    - App and Env:
      - no credential, no import (C28);
      - the missing-key branch needs [OPENAI_API_KEY] (C29);
      - under [python app.py], a body that is not an object gets the
        debugger's traceback page (C30);
      - a provider call carries the key the view checked (C31);
      - without [langchain.prompts], whose one import is unused, no
        import (C32).
    The library lemmas the claims rest on are theorems too: the
    key-uniqueness invariant of parsed JSON is preserved by every read
    of the view ([PyValue.pyval_ops_wf]); [int()] inverts [str()]
    ([PyInt.py_int_str_roundtrip]); the body of [jsonify(v)] decodes to
    [v] with its dicts sorted ([Json.flask_json_roundtrip]) and is
    printable ASCII ([Json.flask_json_text_ascii]); the threaded
    server's interleaving is sound, its scheduler terminates and every
    request is answered ([Server.server_interleaving_sound],
    [Server.step_terminates], [Server.server_answers_all]).
    Every theorem with a hypothesis has a witness, a [Defined] lemma that
    applies it at a concrete input, among them the examples of section 8
    of the spec.

    ** Bounds and fuel

    Every recursion of the program's model is structural (on strings,
    lists and the nested [pyval]).  The reference decoder [json_loads]
    runs on fuel, the length of its input plus one: every call of the
    scanner consumes a character, and [Json.json_size_encode] proves
    that the encoded text of a value is at least its [json_size], the
    fuel its decoding takes.  The scheduler's termination is
    proved by the measure [weight] (the events and answers left).
    Integers are Python ints, unbounded, modelled as [Z]; the widths
    the port crosses on its way to the socket are written out: CPython's
    C [long] (64 bits, [OverflowError] outside it), glibc's C [int]
    (mod 2^32, read signed) and [htons] (mod 2^16).  The claim on a
    [PORT] literal is stated for the C [int] range, where the first two
    are the identity.

    ** Not modelled

    - The parsing of the [.env] file and its [${VAR}] expansion: the
      parsed lines are an input.
    - CORS preflight headers.
    - Which ports the operating system lets the process bind (a port
      in use, a privileged port): the parameter [bindable] of
      [Startup.app_run].
    - The contents of the templates folder (outside src/): it is a
      parameter.
    - The provider itself: the client's replies are a parameter.
    - The text of [str(error)] in the error line (176): the line is
      modelled up to it, which is enough for its encodability, decided by
      its opening emoji.  Encodings are modelled by the set of code
      points they encode, not by the bytes they write.
    - JSON numbers with a fraction (Python floats) and strings beyond
      the Latin-1 range; [request.json] is therefore an input of the
      view, not the decoder applied to the request's bytes (the decoder
      answers [None] for such texts, where Python parses them).
    - The HTML of templates, error pages and the debugger's page.
    - Library behaviour is modelled as current releases behave
      (werkzeug 2.2 and later, langchain-openai with openai 1.x); the
      sources pin no version.
    - A round trip for [repr] on str: [repr] only reaches the prompt
      through a [currentPage] that is not a str.
    - Flask's reloader (debug mode runs the module a second time in a
      child process); [load_dotenv] is idempotent
      ([Env.load_dotenv_idempotent]), so the child's environment is the
      parent's. *)

From stdpp Require Import base list strings.
From Stdlib Require Import String Ascii ZArith Lia.

(** ** Notation scope of the development *)

Declare Scope py_scope.
Delimit Scope py_scope with py.

(** Python's [+] on [str]. *)
Notation "a +:+ b" := (String.append a%string b%string)
  (at level 60, right associativity) : py_scope.
Open Scope py_scope.

(** [length] is the length of a list; [String.length] is written in
    full. *)
Abbreviation length := List.length (only parsing).

(** ** Hint database shared by all components *)

Create HintDb pyx.
Create Rewrite HintDb pyx_rw.

(** ** Generic lemmas on strings *)

(** stdpp makes [String.append] opaque to [simpl]; these two equations
    are its computation rules. *)
Lemma str_app_cons (c : ascii) (a b : string) : String c a +:+ b = String c (a +:+ b).
Proof. reflexivity. Qed.

Lemma str_app_nil_r (s : string) : s +:+ "" = s.
Proof. induction s as [|c s IH]; [done | by rewrite str_app_cons, IH]. Qed.

Lemma str_app_assoc (a b c : string) : (a +:+ b) +:+ c = a +:+ (b +:+ c).
Proof. induction a as [|x a IH]; [done | by rewrite !str_app_cons, IH]. Qed.

#[export] Hint Rewrite str_app_cons str_app_nil_r str_app_assoc : pyx_rw.

(** ** Generic lemmas on boolean list searches *)

Lemma existsb_false_Forall {A} (f : A -> bool) (l : list A) :
  existsb f l = false <-> Forall (fun x => f x = false) l.
Proof.
  induction l as [|x l IH]; simpl; [split; auto|].
  rewrite orb_false_iff, Forall_cons, IH. done.
Qed.

Lemma existsb_true_Exists {A} (f : A -> bool) (l : list A) :
  existsb f l = true <-> Exists (fun x => f x = true) l.
Proof.
  induction l as [|x l IH]; simpl; [split; [done | inversion 1]|].
  rewrite orb_true_iff, Exists_cons, IH. done.
Qed.

(** ** Generic lemmas on lists *)

(** The last [n] items of a list, in order: the reference definition of
    a window on the end of a list. *)
Definition lastn {A} (n : nat) (l : list A) : list A := reverse (take n (reverse l)).

Lemma lastn_drop {A} (n : nat) (l : list A) : lastn n l = drop (length l - n) l.
Proof. unfold lastn. by rewrite take_reverse, reverse_involutive. Qed.

Lemma drop_map {A B} (f : A -> B) (n : nat) (l : list A) :
  drop n (map f l) = map f (drop n l).
Proof. revert n; induction l as [|x l IH]; intros [|n]; simpl; auto. Qed.

Lemma last_map {A B} (f : A -> B) (l : list A) :
  list.last (map f l) = option_map f (list.last l).
Proof. induction l as [|x [|y l] IH]; simpl in *; auto. Qed.
