(* ===== verification/PyStr.v ===== *)
(** * Python [str] operations used by src/app.py

    A Python [str] is modelled as a Rocq [string] whose characters are
    its code points, restricted to the Latin-1 range (code points below
    256, one [ascii] each).  This file holds the two string operations
    that [get_fallback_response] (src/app.py:101-113) performs:
    - [str.lower] (line 103), as [PyStr.lower];
    - the substring test [keyword in message] (lines 106 and 110),
      CPython's [str.__contains__], as [PyStr.py_in];
    with their specifications: [py_in] decides the substring relation
    [PyStr.substr] (an instance of [Decision]), and [lower] is
    idempotent. *)

From stdpp Require Import base list strings.
From Stdlib Require Import String Ascii ZArith Lia.
From S2P Require Import Prelude.

Module PyStr.

(** ** Operations *)

(** [str.lower] on one code point of the Latin-1 range: the Unicode
    lowercase mapping sends A-Z (65-90) and the Latin-1 capitals
    192-222, except the multiplication sign 215, to the code point 32
    above; every other code point below 256 is its own lowercase form. *)
Definition lower_char (c : ascii) : ascii :=
  let n := nat_of_ascii c in
  if ((65 <=? n) && (n <=? 90)) || ((192 <=? n) && (n <=? 222) && negb (n =? 215))
  then ascii_of_nat (n + 32) else c.

(** [s.lower()]: on the Latin-1 range Python lowercases code point by
    code point. *)
Fixpoint lower (s : string) : string :=
  match s with
  | EmptyString => EmptyString
  | String c s' => String (lower_char c) (lower s')
  end.

(** [hay.startswith(needle)]. *)
Fixpoint startswith (hay needle : string) {struct needle} : bool :=
  match needle, hay with
  | EmptyString, _ => true
  | String c n, String d h => Ascii.eqb c d && startswith h n
  | String _ _, EmptyString => false
  end.

(** [needle in hay] on two [str]s: true when [needle] occurs in [hay] at
    some position (the empty string occurs everywhere). *)
Fixpoint py_in (needle hay : string) : bool :=
  startswith hay needle ||
  match hay with
  | EmptyString => false
  | String _ h => py_in needle h
  end.

(** ** Reference specification of the substring test *)

Definition substr (needle hay : string) : Prop :=
  exists pre suf, hay = pre +:+ needle +:+ suf.

(** ** Properties of [startswith] and [py_in] *)

Lemma startswith_spec (hay needle : string) :
  startswith hay needle = true <-> exists suf, hay = needle +:+ suf.
Proof.
  revert hay; induction needle as [|c n IH]; intros hay.
  - split; [intros _; by exists hay | by intros].
  - destruct hay as [|d h]; simpl.
    + split; [by intros | intros [suf Hs]; discriminate].
    + rewrite andb_true_iff, IH, Ascii.eqb_eq. split.
      * intros [-> [suf ->]]. by exists suf.
      * intros [suf Hs]. rewrite str_app_cons in Hs. injection Hs as -> ->. eauto.
Qed.

Lemma py_in_spec (needle hay : string) :
  py_in needle hay = true <-> substr needle hay.
Proof.
  unfold substr. induction hay as [|d h IH]; simpl; rewrite orb_true_iff, startswith_spec.
  - split.
    + intros [[suf Hs] | H]; [by exists "", suf | discriminate].
    + intros [pre [suf Hs]]. left. destruct pre; [by exists suf | discriminate].
  - rewrite IH. split.
    + intros [[suf Hs] | [pre [suf Hs]]].
      * by exists "", suf.
      * exists (String d pre), suf. by rewrite str_app_cons, <- Hs.
    + intros [[|c pre] [suf Hs]].
      * left. by exists suf.
      * right. rewrite str_app_cons in Hs. injection Hs as -> ->. eauto.
Qed.

#[export] Instance substr_dec (needle hay : string) : Decision (substr needle hay).
Proof.
  destruct (py_in needle hay) eqn:E; [left | right];
    rewrite <- py_in_spec; [done | by rewrite E].
Defined.

(** ** Properties of [lower] *)

Lemma lower_char_idem (c : ascii) : lower_char (lower_char c) = lower_char c.
Proof. destruct c as [[] [] [] [] [] [] [] []]; reflexivity. Qed.

Lemma lower_idem (s : string) : lower (lower s) = lower s.
Proof. induction s as [|c s IH]; simpl; [done | by rewrite lower_char_idem, IH]. Qed.

End PyStr.

#[export] Hint Rewrite PyStr.lower_idem : pyx_rw.
