(* ===== verification/PyValue.v ===== *)
(** * The Python runtime seen by the chat view of src/app.py

    - [pyval]: the Python objects [request.json] can produce (the output
      of [json.loads]): None, bool, int, str, list and dict.  JSON
      numbers with a fraction or exponent (Python floats) are not
      modelled.
    - [exc]: the exception classes the view can raise, and [result], a
      value or a raised exception.
    - The Python operations the view applies to such objects, each with
      the exception CPython raises: [truthy] ([bool(x)] / [not x]),
      [py_get] ([x.get(k, d)]), [getitem_str] ([x['k']]), [getitem_int]
      ([x[i]]), [slice_from] ([x[i:]]), [eq_str] ([x == 'k']) and
      [py_str] ([str(x)], used by f-strings).
    - [PyM]: a state and exception monad whose state is the list of
      observable events so far; an exception keeps the events already
      emitted, as in Python where a side effect is not undone by a
      later [raise].
    The lemmas [norm_index_bounds] and [slice_from_list_length] give the
    bounds of integer indexing and of the slice [l[i:]]; C23 shows that these reads keep the invariant
    [wf_pyval] of parsed JSON (each object has each key once). *)

From stdpp Require Import base list strings.
From Stdlib Require Import String Ascii ZArith Lia DecimalString.
From S2P Require Import Prelude PyStr.

Module PyValue.

Local Set Warnings "-register-all".

(** ** Values and exceptions *)

Inductive pyval : Type :=
| PNone
| PBool (b : bool)
| PInt (z : Z)
| PStr (s : string)
| PList (l : list pyval)
| PDict (d : list (string * pyval)).

Inductive exc : Type :=
| KeyError
| TypeError
| IndexError
| AttributeError
(** Werkzeug's [HTTPException] with its status code: what [request.json]
    raises on a body that is not JSON (400) or not declared as JSON (415) *)
| HTTPException (code : Z)
(** Pydantic's [ValidationError], raised by a langchain message
    constructor on a content that is not a str or a list *)
| ValidationError
(** Any exception raised inside the LLM client by [llm.invoke] (network,
    provider error, malformed reply, message validation) *)
| ProviderError
(** [int(s)] on a str that is not an integer literal *)
| ValueError
(** A port that does not fit a C [long] ([socket.getaddrinfo]) or lies
    outside 0-65535 ([socket.bind]) *)
| OverflowError
(** [sys.exit(code)]: werkzeug's answer to a bind that fails with an
    [OSError] (port in use, permission denied); a [BaseException], never
    caught by the view's [except Exception] *)
| SystemExit (code : Z)
(** Jinja2's [TemplateNotFound], raised by [render_template] *)
| TemplateNotFound
(** Openai's [OpenAIError], raised when the client is built without an
    API key *)
| OpenAIError
(** [print] on a [sys.stdout] whose encoding cannot encode a character
    of the line *)
| UnicodeEncodeError
(** [import m] of a module that cannot be found *)
| ModuleNotFoundError
(** [from m import n] when [m] does not define [n] *)
| ImportError.

#[export] Instance exc_eq_dec : EqDecision exc.
Proof. solve_decision. Defined.

Inductive result (A : Type) : Type :=
| Ok (a : A)
| Raise (e : exc).
Arguments Ok {A} a.
Arguments Raise {A} e.

Definition rbind {A B} (r : result A) (k : A -> result B) : result B :=
  match r with Ok a => k a | Raise e => Raise e end.

Notation "x <-? r ;; k" := (rbind r (fun x => k))
  (at level 100, r at next level, right associativity) : py_scope.

(** The values [json.loads] produces: the keys of every dict are
    distinct ([json.loads] keeps one binding per key), at every depth. *)
Fixpoint wf_pyval (v : pyval) : bool :=
  match v with
  | PList l => forallb wf_pyval l
  | PDict d => bool_decide (NoDup (map fst d)) && forallb (fun kv => wf_pyval kv.2) d
  | _ => true
  end.

(** ** Operations on values *)

(** [bool(x)]: None, False, 0, the empty str, list and dict are false. *)
Definition truthy (v : pyval) : bool :=
  match v with
  | PNone => false
  | PBool b => b
  | PInt z => negb (z =? 0)%Z
  | PStr s => negb (String.eqb s "")
  | PList l => negb (bool_decide (l = []))
  | PDict d => negb (bool_decide (d = []))
  end.

(** Lookup of a str key in a dict (insertion order, first binding). *)
Fixpoint dict_lookup (k : string) (d : list (string * pyval)) : option pyval :=
  match d with
  | [] => None
  | (k', v) :: d' => if String.eqb k k' then Some v else dict_lookup k d'
  end.

(** [x.get(k, default)]: only dicts have [get]. *)
Definition py_get (x : pyval) (k : string) (default : pyval) : result pyval :=
  match x with
  | PDict d => Ok (match dict_lookup k d with Some v => v | None => default end)
  | _ => Raise AttributeError
  end.

(** [x['k']]: a dict looks the key up; a list or str wants an integer
    index; None, bool and int are not subscriptable. *)
Definition getitem_str (x : pyval) (k : string) : result pyval :=
  match x with
  | PDict d => match dict_lookup k d with Some v => Ok v | None => Raise KeyError end
  | _ => Raise TypeError
  end.

(** Normalisation of an integer index [i] of a sequence of length [n]:
    a negative index counts from the end; out of range is [None]. *)
Definition norm_index (n : nat) (i : Z) : option nat :=
  let j := (if (i <? 0)%Z then i + Z.of_nat n else i)%Z in
  if ((0 <=? j) && (j <? Z.of_nat n))%Z then Some (Z.to_nat j) else None.

(** Start position of the slice [x[i:]] of a sequence of length [n]:
    negative starts count from the end and are clamped to 0, large
    starts are clamped to [n]. *)
Definition slice_start (n : nat) (i : Z) : nat :=
  if (i <? 0)%Z then Z.to_nat (Z.max 0 (Z.of_nat n + i)) else Z.to_nat (Z.min i (Z.of_nat n)).

Definition str_chars (s : string) : list ascii := list_ascii_of_string s.

(** [x[i]] with an int [i]: a dict has str keys only, so the lookup of
    an int key raises [KeyError]. *)
Definition getitem_int (x : pyval) (i : Z) : result pyval :=
  match x with
  | PList l =>
      match norm_index (List.length l) i with
      | Some j => match l !! j with Some v => Ok v | None => Raise IndexError end
      | None => Raise IndexError
      end
  | PStr s =>
      match norm_index (String.length s) i with
      | Some j => match String.get j s with
                  | Some c => Ok (PStr (String c EmptyString))
                  | None => Raise IndexError
                  end
      | None => Raise IndexError
      end
  | PDict _ => Raise KeyError
  | _ => Raise TypeError
  end.

(** [x[i:]]: lists and strs are sliced; the other values raise (a dict
    raises [TypeError] for the unhashable slice before Python 3.12 and
    [KeyError] from 3.12 on; the view catches both alike, and never
    slices a dict: [messages[-1]] has raised before). *)
Definition slice_from (x : pyval) (i : Z) : result pyval :=
  match x with
  | PList l => Ok (PList (drop (slice_start (List.length l) i) l))
  | PStr s => Ok (PStr (string_of_list_ascii
                          (drop (slice_start (String.length s) i) (str_chars s))))
  | _ => Raise TypeError
  end.

(** [x[:j]]: the stop is normalised as a start is. *)
Definition slice_to (x : pyval) (j : Z) : result pyval :=
  match x with
  | PList l => Ok (PList (take (slice_start (List.length l) j) l))
  | PStr s => Ok (PStr (string_of_list_ascii
                          (take (slice_start (String.length s) j) (str_chars s))))
  | _ => Raise TypeError
  end.

(** [len(x)]. *)
Definition py_len (x : pyval) : result Z :=
  match x with
  | PList l => Ok (Z.of_nat (List.length l))
  | PStr s => Ok (Z.of_nat (String.length s))
  | PDict d => Ok (Z.of_nat (List.length d))
  | _ => Raise TypeError
  end.

(** [for x in v]: a list yields its items, a str its one-character
    strs, a dict its keys; None, bool and int are not iterable. *)
Definition py_iter (v : pyval) : result (list pyval) :=
  match v with
  | PList l => Ok l
  | PStr s => Ok (map (fun c => PStr (String c EmptyString)) (str_chars s))
  | PDict d => Ok (map (fun kv => PStr kv.1) d)
  | _ => Raise TypeError
  end.

(** [x == 'k'] for a str literal [k]: only an equal str compares equal. *)
Definition eq_str (x : pyval) (k : string) : bool :=
  match x with PStr s => String.eqb s k | _ => false end.

(** ** [str(x)] and [repr(x)] *)

(** [str(n)] of an int: its decimal digits, with a minus sign. *)
Definition str_of_Z (z : Z) : string := NilZero.string_of_int (Z.to_int z).

Definition chr (n : nat) : ascii := ascii_of_nat n.
Definition dquote : ascii := chr 34.
Definition squote : ascii := chr 39.
Definition backslash : ascii := chr 92.

Definition hex_digit (n : nat) : ascii := chr (if n <? 10 then 48 + n else 87 + n).

(** [Py_UNICODE_ISPRINTABLE] on the Latin-1 range: the ASCII graphic
    characters and space, and 161-255 except the soft hyphen 173. *)
Definition printable (c : ascii) : bool :=
  let n := nat_of_ascii c in
  ((32 <=? n) && (n <=? 126)) || ((161 <=? n) && negb (n =? 173)).

(** One code point of [repr(s)] quoted with [q] (CPython's
    [unicode_repr]). *)
Definition escape_char (q c : ascii) : string :=
  let n := nat_of_ascii c in
  if Ascii.eqb c backslash || Ascii.eqb c q then String backslash (String c EmptyString)
  else if n =? 9 then String backslash "t"
  else if n =? 10 then String backslash "n"
  else if n =? 13 then String backslash "r"
  else if printable c then String c EmptyString
  else String backslash (String "x"%char
         (String (hex_digit (n / 16)) (String (hex_digit (n mod 16)) EmptyString))).

Fixpoint escape (q : ascii) (s : string) : string :=
  match s with
  | EmptyString => EmptyString
  | String c s' => escape_char q c +:+ escape q s'
  end.

(** [repr(s)] of a str: single quotes unless [s] holds a single quote
    and no double quote. *)
Definition repr_str (s : string) : string :=
  let q := if PyStr.py_in (String squote EmptyString) s
              && negb (PyStr.py_in (String dquote EmptyString) s)
           then dquote else squote in
  String q (escape q s +:+ String q EmptyString).

Fixpoint repr (v : pyval) : string :=
  match v with
  | PNone => "None"
  | PBool true => "True"
  | PBool false => "False"
  | PInt z => str_of_Z z
  | PStr s => repr_str s
  | PList l => "[" +:+ String.concat ", " (map repr l) +:+ "]"
  | PDict d =>
      "{" +:+ String.concat ", " (map (fun kv => repr_str kv.1 +:+ ": " +:+ repr kv.2) d)
          +:+ "}"
  end.

(** [str(x)]: a str is itself; for the other values [str] is [repr]. *)
Definition py_str (v : pyval) : string :=
  match v with PStr s => s | _ => repr v end.

(** ** The effect monad *)

Definition PyM (E A : Type) : Type := list E -> result A * list E.

Definition ret {E A} (a : A) : PyM E A := fun tr => (Ok a, tr).

Definition bind {E A B} (m : PyM E A) (k : A -> PyM E B) : PyM E B :=
  fun tr => match m tr with
            | (Ok a, tr') => k a tr'
            | (Raise e, tr') => (Raise e, tr')
            end.

Definition lift {E A} (r : result A) : PyM E A := fun tr => (r, tr).

Definition raise {E A} (e : exc) : PyM E A := lift (Raise e).

(** [emit ev] records an observable event. *)
Definition emit {E} (ev : E) : PyM E unit := fun tr => (Ok tt, tr ++ [ev]).

(** [try: m / except Exception: h]: every exception the view can raise
    is an [Exception] ([SystemExit] is raised only at start-up); the
    events of [m] before the raise are kept. *)
Definition try_except {E A} (m : PyM E A) (h : exc -> PyM E A) : PyM E A :=
  fun tr => match m tr with
            | (Raise e, tr') => h e tr'
            | o => o
            end.

Notation "x <- m ;; k" := (bind m (fun x => k))
  (at level 100, m at next level, right associativity) : py_scope.
Notation "x <-! r ;; k" := (bind (lift r) (fun x => k))
  (at level 100, r at next level, right associativity) : py_scope.

(** ** Lemmas on results *)

Lemma length_str_chars (s : string) : length (str_chars s) = String.length s.
Proof. induction s as [|c s IH]; simpl; [done | by f_equal]. Qed.

Lemma str_chars_of_list (l : list ascii) : str_chars (string_of_list_ascii l) = l.
Proof. apply list_ascii_of_string_of_list_ascii. Qed.

(** [s[:j]] with a non-negative stop keeps the first [j] characters. *)
Lemma slice_to_str (s : string) (j : nat) :
  slice_to (PStr s) (Z.of_nat j) = Ok (PStr (string_of_list_ascii (take j (str_chars s)))).
Proof.
  unfold slice_to, slice_start. rewrite <- length_str_chars.
  rewrite (proj2 (Z.ltb_ge _ _)) by lia.
  destruct (decide (j <= length (str_chars s))).
  - by rewrite Z.min_l, Nat2Z.id by lia.
  - by rewrite Z.min_r, Nat2Z.id, !take_ge by lia.
Qed.

Lemma Ok_inj_iff {A} (a b : A) : Ok a = Ok b <-> a = b.
Proof. split; [by intros [= ->] | by intros ->]. Qed.

Lemma rbind_Ok {A B} (r : result A) (k : A -> result B) (b : B) :
  rbind r k = Ok b <-> exists a, r = Ok a /\ k a = Ok b.
Proof. destruct r; simpl; naive_solver. Qed.

Lemma rbind_Raise {A B} (r : result A) (k : A -> result B) (e : exc) :
  rbind r k = Raise e <-> r = Raise e \/ exists a, r = Ok a /\ k a = Raise e.
Proof. destruct r; simpl; naive_solver. Qed.

(** [rinv] takes apart hypotheses [r = Ok b] about a computation in
    the [result] monad: binds into their two steps, [if]s into their
    cases, and drops the impossible cases. *)
Ltac rinv :=
  repeat match goal with
  | H : rbind _ _ = Ok _ |- _ => apply rbind_Ok in H as (? & ? & H)
  | H : Ok _ = Ok _ |- _ => injection H as H; subst
  | H : Raise _ = Ok _ |- _ => discriminate H
  | H : (if ?b then _ else _) = Ok _ |- _ => destruct b eqn:?
  | H : match ?x with _ => _ end = Ok _ |- _ => destruct x eqn:?
  end.

(** ** Lemmas on the operations *)

Lemma py_get_dict (d : list (string * pyval)) (k : string) (default v : pyval) :
  dict_lookup k d = Some v -> py_get (PDict d) k default = Ok v.
Proof. simpl. by intros ->. Qed.

Lemma getitem_str_py_get (x : pyval) (k : string) (v default : pyval) :
  getitem_str x k = Ok v -> py_get x k default = Ok v.
Proof. destruct x; simpl; try discriminate. by destruct (dict_lookup k d); intros [= ->]. Qed.

Lemma truthy_list (l : list pyval) : truthy (PList l) = true <-> l <> [].
Proof. simpl. rewrite negb_true_iff, bool_decide_eq_false. done. Qed.

(** [xs[-1]] is the last item of a list, and [IndexError] on [[]]. *)
(** A list with a last item is truthy. *)
Lemma truthy_last (xs : list pyval) (x : pyval) :
  list.last xs = Some x -> truthy (PList xs) = true.
Proof. intros Hx. apply truthy_list. intros ->. discriminate. Qed.

Lemma getitem_int_last (xs : list pyval) :
  getitem_int (PList xs) (-1) =
  match list.last xs with Some x => Ok x | None => Raise IndexError end.
Proof.
  unfold getitem_int, norm_index. rewrite last_lookup.
  destruct xs as [|x xs]; [done|]. simpl length.
  destruct (Z.ltb_spec (-1) 0); [|lia].
  replace (-1 + Z.of_nat (S (length xs)))%Z with (Z.of_nat (length xs)) by lia.
  destruct (Z.leb_spec 0 (Z.of_nat (length xs))); [|lia].
  destruct (Z.ltb_spec (Z.of_nat (length xs)) (Z.of_nat (S (length xs)))); [|lia].
  simpl. rewrite Nat2Z.id. simpl. by destruct ((x :: xs) !! length xs).
Qed.

Lemma dict_lookup_wf (k : string) (d : list (string * pyval)) (v : pyval) :
  forallb (fun kv => wf_pyval kv.2) d = true -> dict_lookup k d = Some v -> wf_pyval v = true.
Proof.
  induction d as [|[k' v'] d IH]; simpl; [done|].
  rewrite andb_true_iff. intros [Hv Hd]. destruct (String.eqb k k'); [by intros [= <-] | auto].
Qed.

Lemma forallb_wf_lookup (l : list pyval) (j : nat) (v : pyval) :
  forallb wf_pyval l = true -> l !! j = Some v -> wf_pyval v = true.
Proof.
  rewrite forallb_forall. intros Hl Hj. apply Hl. apply list_elem_of_In.
  by eapply list_elem_of_lookup_2.
Qed.

Lemma forallb_wf_drop (l : list pyval) (n : nat) :
  forallb wf_pyval l = true -> forallb wf_pyval (drop n l) = true.
Proof.
  revert n; induction l as [|x l IH]; intros [|n]; simpl; auto.
  rewrite andb_true_iff. intros [_ Hl]. auto.
Qed.

(** ** Theorems *)

(** Python's integer indexing of a sequence of length [n]: an index is
    valid exactly when [-n <= i < n]; a valid index denotes position
    [i], or [i + n] when it is negative. *)
Lemma norm_index_bounds (n : nat) (i : Z) :
  match norm_index n i with
  | Some j => j < n /\ (Z.of_nat j = i \/ Z.of_nat j = i + Z.of_nat n)%Z
  | None => (i < - Z.of_nat n \/ Z.of_nat n <= i)%Z
  end.
Proof.
  unfold norm_index.
  destruct (Z.ltb_spec i 0);
    match goal with
    | |- context [(0 <=? ?j)%Z] =>
        destruct (Z.leb_spec 0 j); destruct (Z.ltb_spec j (Z.of_nat n)); simpl; lia
    end.
Qed.

(** The slice [l[i:]] of a list is a suffix of it; its length is
    [min(len(l), -i)] for a negative start and [max(0, len(l) - i)]
    otherwise. *)
Lemma slice_from_list_length (l : list pyval) (i : Z) :
  exists l', slice_from (PList l) i = Ok (PList l') /\ suffix l' l /\
    Z.of_nat (length l') =
    (if (i <? 0)%Z then Z.min (Z.of_nat (length l)) (- i) else Z.max 0 (Z.of_nat (length l) - i))%Z.
Proof.
  eexists. split; [reflexivity|]. split; [apply suffix_drop|].
  rewrite length_drop. unfold slice_start.
  destruct (Z.ltb_spec i 0); lia.
Qed.

(** The invariant of parsed JSON is preserved: every value the
    view obtains from a well-formed value by [.get] (with a well-formed
    default), subscription, slicing or iteration is well-formed. *)
Theorem pyval_ops_wf (x : pyval) :
  wf_pyval x = true ->
  (forall k default v, wf_pyval default = true -> py_get x k default = Ok v -> wf_pyval v = true) /\
  (forall k v, getitem_str x k = Ok v -> wf_pyval v = true) /\
  (forall i v, getitem_int x i = Ok v -> wf_pyval v = true) /\
  (forall i v, slice_from x i = Ok v -> wf_pyval v = true) /\
  (forall items, py_iter x = Ok items -> Forall (fun v => wf_pyval v = true) items).
Proof.
  intros Hx. simpl in Hx.
  repeat split; intros *; destruct x as [| | |s|l|d]; simpl in Hx |- *; intros; rinv; try done.
  all: try (apply andb_true_iff in Hx as [_ Hx]).
  all: try (by eapply dict_lookup_wf).
  all: try (by eapply forallb_wf_lookup).
  all: try (by apply forallb_wf_drop).
  all: try (by apply Forall_map, Forall_true).
  all: try (apply Forall_forall; intros v Hv; apply forallb_forall with (x := v) in Hx;
            [done | by apply list_elem_of_In]).
  destruct (dict_lookup k d) eqn:Hl; [by eapply dict_lookup_wf | done].
Qed.

(** ** Witnesses *)

Lemma pyval_ops_wf_witness :
  let body := PDict [("messages", PList [PDict [("role", PStr "user"); ("content", PStr "hi")]]);
                     ("context", PDict [("currentPage", PStr "Alerts")])] in
  wf_pyval body = true /\
  (forall k default v, wf_pyval default = true -> py_get body k default = Ok v -> wf_pyval v = true).
Proof.
  intros body. split; [vm_compute; reflexivity|].
  apply (pyval_ops_wf body). vm_compute. reflexivity.
Defined.

End PyValue.

#[export] Hint Resolve PyValue.truthy_last PyValue.py_get_dict PyValue.getitem_str_py_get : pyx.
