(* ===== verification/Fallback.v ===== *)
(** * The keyword fallback: [get_fallback_response] (src/app.py:91-113)

    [FALLBACK_RESPONSES] (lines 92-99) is a Python dict literal; a dict
    iterates in insertion order, so it is modelled as the association
    list of its entries in source order.  [get_fallback_response]
    lower-cases its argument (line 103), answers the redirect sentence
    when none of the ten guard keywords (line 104) occurs (lines
    106-107), else the text of the first table key that occurs (lines
    109-111), else the generic help sentence (line 113).

    The theorems characterise each branch, prove the function equal to a
    relational specification of "first matching key wins" (a
    refinement in both directions), and show that a non-str argument
    raises
    [AttributeError] (the [.lower()] call). *)

From stdpp Require Import base list strings sets.
From Stdlib Require Import String Ascii ZArith Lia.
From S2P Require Import Prelude PyStr PyValue.

Module Fallback.
Import PyValue.

(** ** Data (lines 92-99, 104, 107, 113) *)

Definition FALLBACK_RESPONSES : list (string * string) := [
  ("dashboard", "The dashboard provides a comprehensive overview of your supply chain risks, including total suppliers, active alerts, and risk distribution charts. You can use the time range filter (7d/30d/90d) to view different periods and analyze trends.");
  ("supplier", "In the Suppliers section, you can view all your suppliers with their risk scores, filter by country/category/risk level, and manage page sizes (25/50/100 results). Each supplier has a detailed risk assessment with scores and performance metrics.");
  ("alert", "The Alerts system shows real-time supply chain risks categorized by severity (Critical, High, Medium, Low) and type (Financial Risk, Compliance, Cybersecurity, etc.). You can filter alerts and adjust how many to view per page.");
  ("report", "The Reports section allows you to generate professional PDF reports with templates like Executive Summary, Risk Assessment, and Compliance Audits. You can customize filters and export your supply chain data.");
  ("tariff", "The Tariff Calculator provides real-time import/export tariff calculations using government data. Enter HS codes and select countries to get accurate duty rates and trade information.");
  ("calculator", "The Tariff Calculator provides real-time import/export tariff calculations using government data. Enter HS codes and select countries to get accurate duty rates and trade information.")
]%string.

Definition supply_guard_keywords : list string :=
  ["dashboard"; "supplier"; "alert"; "report"; "risk"; "platform"; "tariff";
   "calculator"; "chart"; "metric"]%string.

Definition REDIRECT_MESSAGE : string :=
  "I can only help with SupplyGuard platform questions. What would you like to know about our dashboard, suppliers, alerts, reports, or other platform features?".

Definition GENERIC_MESSAGE : string :=
  "I'm here to help with SupplyGuard platform features including Dashboard analytics, Suppliers management, Alerts monitoring, Reports generation, and the Tariff Calculator. What specific feature would you like to learn about?".

(** ** Operations *)

(** [any(keyword in message for keyword in supply_guard_keywords)]. *)
Definition any_keyword (message : string) : bool :=
  existsb (fun keyword => PyStr.py_in keyword message) supply_guard_keywords.

(** The loop of lines 109-111: the response of the first entry whose key
    occurs in [message], in iteration order. *)
Fixpoint first_response (message : string) (table : list (string * string)) : option string :=
  match table with
  | [] => None
  | (keyword, response) :: rest =>
      if PyStr.py_in keyword message then Some response else first_response message rest
  end.

(** Lines 104-113 on the lower-cased [message]. *)
Definition fallback_of_lowered (message : string) : string :=
  if negb (any_keyword message) then REDIRECT_MESSAGE
  else match first_response message FALLBACK_RESPONSES with
       | Some response => response
       | None => GENERIC_MESSAGE
       end.

(** [get_fallback_response(user_message)]: [user_message.lower()] raises
    [AttributeError] unless [user_message] is a str. *)
Definition get_fallback_response (user_message : pyval) : result string :=
  match user_message with
  | PStr s => Ok (fallback_of_lowered (PyStr.lower s))
  | _ => Raise AttributeError
  end.

(** ** Abstract specification *)

(** What the function promises about a lower-cased message [m]: the
    redirect sentence when no guard keyword occurs; otherwise the text
    of an entry whose key occurs and no earlier key occurs; otherwise
    (a guard keyword occurs but no table key) the generic sentence. *)
Inductive fallback_spec (m : string) : string -> Prop :=
| spec_redirect :
    Forall (fun kw => ~ PyStr.substr kw m) supply_guard_keywords ->
    fallback_spec m REDIRECT_MESSAGE
| spec_table pre k r post :
    FALLBACK_RESPONSES = pre ++ (k, r) :: post ->
    Forall (fun e => ~ PyStr.substr e.1 m) pre ->
    PyStr.substr k m ->
    fallback_spec m r
| spec_generic :
    Exists (fun kw => PyStr.substr kw m) supply_guard_keywords ->
    Forall (fun e => ~ PyStr.substr e.1 m) FALLBACK_RESPONSES ->
    fallback_spec m GENERIC_MESSAGE.

(** ** Lemmas *)

(** [.lower()] raises on anything but a str. *)
Lemma get_fallback_response_not_str (v : pyval) :
  (forall s, v <> PStr s) -> get_fallback_response v = Raise AttributeError.
Proof. intros Hv. destruct v; try reflexivity. by destruct (Hv s). Qed.

Lemma any_keyword_false (m : string) :
  any_keyword m = false <-> Forall (fun kw => ~ PyStr.substr kw m) supply_guard_keywords.
Proof.
  unfold any_keyword. rewrite existsb_false_Forall.
  apply Forall_iff. intros kw. rewrite <- PyStr.py_in_spec. destruct (PyStr.py_in kw m); naive_solver.
Qed.

Lemma any_keyword_true (m : string) :
  any_keyword m = true <-> Exists (fun kw => PyStr.substr kw m) supply_guard_keywords.
Proof.
  unfold any_keyword. rewrite existsb_true_Exists.
  split; intros H; eapply Exists_impl; try apply H; intros kw; by rewrite PyStr.py_in_spec.
Qed.

Lemma first_response_Some (m r : string) (table : list (string * string)) :
  first_response m table = Some r <->
  exists pre k post, table = pre ++ (k, r) :: post /\
    Forall (fun e => ~ PyStr.substr e.1 m) pre /\ PyStr.substr k m.
Proof.
  induction table as [|[k r'] t IH]; simpl.
  - split; [done|]. intros (pre & k & post & Hl & _). by destruct pre.
  - destruct (PyStr.py_in k m) eqn:Hk.
    + split.
      * intros [= ->]. exists [], k, t. rewrite <- PyStr.py_in_spec. done.
      * intros ([|[k0 r0] pre] & k1 & post & Hl & Hpre & Hs); simpl in Hl.
        { by injection Hl as -> -> ->. }
        injection Hl as -> -> ->. apply Forall_cons in Hpre as [Hn _].
        simpl in Hn. rewrite <- PyStr.py_in_spec in Hn. congruence.
    + rewrite IH. split.
      * intros (pre & k1 & post & -> & Hpre & Hs). exists ((k, r') :: pre), k1, post.
        split; [done|]. split; [|done]. constructor; [|done].
        simpl. rewrite <- PyStr.py_in_spec. by rewrite Hk.
      * intros ([|[k0 r0] pre] & k1 & post & Hl & Hpre & Hs); simpl in Hl.
        { injection Hl as -> -> ->. rewrite <- PyStr.py_in_spec in Hs. congruence. }
        injection Hl as -> -> ->. apply Forall_cons in Hpre as [_ Hpre]. by exists pre, k1, post.
Qed.

Lemma first_response_None (m : string) (table : list (string * string)) :
  first_response m table = None <-> Forall (fun e => ~ PyStr.substr e.1 m) table.
Proof.
  induction table as [|[k r] t IH]; simpl; [split; auto|].
  rewrite Forall_cons, <- IH, <- PyStr.py_in_spec. simpl.
  destruct (PyStr.py_in k m); naive_solver.
Qed.

(** Every key of the table is one of the guard keywords, so a table hit
    always passes the guard of line 106. *)
Lemma table_keys_guarded : Forall (fun e => e.1 ∈ supply_guard_keywords) FALLBACK_RESPONSES.
Proof. repeat constructor. Qed.

Lemma table_entry_guarded (pre post : list (string * string)) (k r : string) :
  FALLBACK_RESPONSES = pre ++ (k, r) :: post -> k ∈ supply_guard_keywords.
Proof.
  intros Hl. pose proof table_keys_guarded as Hg. rewrite Hl in Hg.
  apply Forall_app in Hg as [_ Hg]. by apply Forall_cons in Hg as [Hg _].
Qed.

Lemma spec_table_first (m r : string) :
  (exists pre k post, FALLBACK_RESPONSES = pre ++ (k, r) :: post /\
     Forall (fun e => ~ PyStr.substr e.1 m) pre /\ PyStr.substr k m) ->
  first_response m FALLBACK_RESPONSES = Some r.
Proof. apply first_response_Some. Qed.

(** The implementation meets the specification. *)
Lemma fallback_of_lowered_sound (m : string) : fallback_spec m (fallback_of_lowered m).
Proof.
  unfold fallback_of_lowered. destruct (any_keyword m) eqn:Hany; cbn [negb].
  - destruct (first_response m FALLBACK_RESPONSES) as [r|] eqn:Hfr.
    + apply first_response_Some in Hfr as (pre & k & post & ? & ? & ?).
      by apply (spec_table m pre k r post).
    + apply first_response_None in Hfr. apply any_keyword_true in Hany. by apply spec_generic.
  - apply any_keyword_false in Hany. by apply spec_redirect.
Qed.

(** The specification determines the answer. *)
Lemma fallback_spec_functional (m o1 o2 : string) :
  fallback_spec m o1 -> fallback_spec m o2 -> o1 = o2.
Proof.
  intros H1 H2.
  assert (Hdet : forall o, fallback_spec m o -> o = fallback_of_lowered m).
  { intros o Ho. unfold fallback_of_lowered.
    destruct Ho as [Hno | pre k r post Hl Hpre Hk | Hex Hnone].
    - apply any_keyword_false in Hno. by rewrite Hno.
    - assert (any_keyword m = true) as ->.
      { apply any_keyword_true, Exists_exists. exists k.
        split; [by eapply table_entry_guarded|done]. }
      cbn [negb]. by rewrite (spec_table_first m r) by eauto 10.
    - apply any_keyword_true in Hex. rewrite Hex. cbn [negb].
      by rewrite (proj2 (first_response_None _ _) Hnone). }
  by rewrite (Hdet _ H1), (Hdet _ H2).
Qed.

Lemma fallback_texts_distinct :
  (REDIRECT_MESSAGE ∉ GENERIC_MESSAGE :: map snd FALLBACK_RESPONSES) /\
  (GENERIC_MESSAGE ∉ map snd FALLBACK_RESPONSES).
Proof. split; vm_compute; set_solver. Qed.

Lemma table_entry_response (pre post : list (string * string)) (k r : string) :
  FALLBACK_RESPONSES = pre ++ (k, r) :: post -> r ∈ map snd FALLBACK_RESPONSES.
Proof. intros ->. rewrite map_app. simpl. set_solver. Qed.

Lemma fallback_spec_range (m out : string) :
  fallback_spec m out -> out ∈ REDIRECT_MESSAGE :: GENERIC_MESSAGE :: map snd FALLBACK_RESPONSES.
Proof.
  destruct 1 as [| pre k r post Hl | ]; [set_solver | | set_solver].
  apply table_entry_response in Hl. set_solver.
Qed.

Lemma fallback_of_lowered_iff (m out : string) :
  fallback_of_lowered m = out <-> fallback_spec m out.
Proof.
  split; [intros <-; apply fallback_of_lowered_sound|].
  intros H. eapply fallback_spec_functional; [apply fallback_of_lowered_sound | done].
Qed.

(** ** Theorems *)

(** C6: [get_fallback_response] on a str implements the specification:
    its answer is the one the relational specification assigns to the
    lower-cased message, and only that one. *)
Theorem get_fallback_response_refines (s out : string) :
  get_fallback_response (PStr s) = Ok out <-> fallback_spec (PyStr.lower s) out.
Proof.
  cbn [get_fallback_response]. rewrite <- fallback_of_lowered_iff.
  split; [by intros [= ->] | by intros ->].
Qed.

(** C7: the redirect sentence is answered exactly when none of the ten
    guard keywords occurs in the lower-cased message. *)
Theorem get_fallback_response_redirect (s : string) :
  get_fallback_response (PStr s) = Ok REDIRECT_MESSAGE <->
  Forall (fun kw => ~ PyStr.substr kw (PyStr.lower s)) supply_guard_keywords.
Proof.
  cbn [get_fallback_response]. rewrite Ok_inj_iff, fallback_of_lowered_iff.
  split; [|apply spec_redirect].
  destruct fallback_texts_distinct as [Hr _].
  intros H. inversion H as [| pre k r post Hl | ]; subst; try done.
  all: try (apply table_entry_response in Hl; set_solver).
  all: exfalso; apply Hr; set_solver.
Qed.

(** the generic help sentence is answered exactly when a guard
    keyword occurs but no key of the table does (e.g. "risk",
    "platform", "chart", "metric" alone). *)
Lemma get_fallback_response_generic (s : string) :
  get_fallback_response (PStr s) = Ok GENERIC_MESSAGE <->
  Exists (fun kw => PyStr.substr kw (PyStr.lower s)) supply_guard_keywords /\
  Forall (fun e => ~ PyStr.substr e.1 (PyStr.lower s)) FALLBACK_RESPONSES.
Proof.
  cbn [get_fallback_response]. rewrite Ok_inj_iff, fallback_of_lowered_iff.
  split; [|intros []; by apply spec_generic].
  destruct fallback_texts_distinct as [Hr Hg].
  intros H. inversion H as [Hno | pre k r post Hl | ]; subst; try done.
  all: try (apply table_entry_response in Hl; set_solver).
  all: exfalso; apply Hr; set_solver.
Qed.

(** C8: keyword precedence: when the key of entry [i] of the table
    occurs in the lower-cased message and the keys of the earlier
    entries do not, the answer is the text of entry [i], whatever other
    keys occur later (so "dashboard" wins over "alert"). *)
Theorem get_fallback_response_first_key (s : string) (i : nat) (k r : string) :
  FALLBACK_RESPONSES !! i = Some (k, r) ->
  PyStr.substr k (PyStr.lower s) ->
  (forall j e, j < i -> FALLBACK_RESPONSES !! j = Some e -> ~ PyStr.substr e.1 (PyStr.lower s)) ->
  get_fallback_response (PStr s) = Ok r.
Proof.
  intros Hi Hk Hbefore. cbn [get_fallback_response]. f_equal.
  apply (fallback_of_lowered_iff (PyStr.lower s) r).
  destruct (list_elem_of_split_length _ _ _ Hi) as (pre & post & Hl & Hlen).
  apply (spec_table _ pre k r post Hl); [|done].
  apply Forall_lookup. intros j e Hj.
  apply (Hbefore j); [apply lookup_lt_Some in Hj; lia|].
  rewrite Hl, lookup_app_l; [done|]. by apply lookup_lt_Some in Hj.
Qed.

(** Every answer is one of the seven texts of the source: the
    redirect sentence, the generic sentence or a value of the table. *)
Lemma get_fallback_response_range (v : pyval) (out : string) :
  get_fallback_response v = Ok out ->
  out ∈ REDIRECT_MESSAGE :: GENERIC_MESSAGE :: map snd FALLBACK_RESPONSES.
Proof.
  destruct v; try discriminate. cbn [get_fallback_response]. intros [= <-].
  apply (fallback_spec_range (PyStr.lower s)), fallback_of_lowered_iff. done.
Qed.

(** ** Witnesses *)

Lemma get_fallback_response_first_key_witness :
  exists r, FALLBACK_RESPONSES !! 0 = Some ("dashboard", r) /\
    get_fallback_response (PStr "Where are the Dashboard ALERT settings?") = Ok r.
Proof.
  eexists. split; [reflexivity|].
  apply (get_fallback_response_first_key _ 0 "dashboard"); [reflexivity | | intros; lia].
  apply PyStr.py_in_spec. vm_compute. reflexivity.
Defined.

End Fallback.
