(* ===== verification/Prompt.v ===== *)
(** * Prompt assembly of the chat view (src/app.py:22-89, 147-160)

    [SYSTEM_PROMPT] (lines 22-89) is the constant instruction text, kept
    line by line.  [build_chat_messages] is lines 147-160 of [chat()]:
    the system message, the optional context message built from
    [context['currentPage']] (lines 151-153), then the last ten entries
    of [messages] (line 156), a "user" entry becoming a [HumanMessage]
    and an "assistant" entry a [SystemMessage] (lines 157-160).  The
    langchain message classes are [chat_message]; their constructors
    validate the content (a str, or a list of str and dict items, the
    type of [BaseMessage.content]) and raise [ValidationError] otherwise.

    The theorems: the system prompt always comes first and a prompt has
    at most 12 messages; exactly the last ten entries are replayed, in
    order; the role mapping on well-formed entries (including the
    assistant-to-system asymmetry and the silent drop of other roles);
    and the context message names the current page. *)

From stdpp Require Import base list strings.
From Stdlib Require Import String Ascii ZArith Lia.
From S2P Require Import Prelude PyStr PyValue.

Module Prompt.
Import PyValue.

(** ** The system prompt (lines 22-89) *)

Definition nl : string := String (chr 10) EmptyString.

(** The text of a triple-quoted literal given by its lines: each line
    followed by a line break. *)
Fixpoint unlines (ls : list string) : string :=
  match ls with
  | [] => EmptyString
  | l :: rest => l +:+ nl +:+ unlines rest
  end.

(** The literal opens with a line break right after the quotes, hence
    the first empty line. *)
Definition SYSTEM_PROMPT : string := unlines [
  "";
  "You are the official AI assistant for SupplyGuard, a comprehensive supply chain risk management platform. ";
  "";
  "**IMPORTANT RESTRICTIONS:**";
  "- You can ONLY answer questions about SupplyGuard platform features, functionality, and the data within the system";
  "- You CANNOT provide information about other companies, platforms, or general knowledge outside of SupplyGuard";
  "- If asked about topics outside SupplyGuard, politely redirect to platform-related questions";
  "- You CANNOT access external websites, provide investment advice, or discuss competitors";
  "- You can ONLY reference data that exists within the SupplyGuard platform";
  "";
  "**SupplyGuard Platform Features You Can Help With:**";
  "";
  "1. **Dashboard**: ";
  "   - Real-time metrics showing total suppliers, risk distribution, alerts";
  "   - Risk trends charts and analytics";
  "   - Executive summary cards";
  "   - Time range filters (7d, 30d, 90d)";
  "   - Financial impact dashboard";
  "";
  "2. **Suppliers Management**:";
  "   - Complete supplier database with risk scoring";
  "   - Individual supplier profiles with detailed risk assessments";
  "   - Supplier performance tracking and KPIs";
  "   - Risk categorization (Critical, High, Medium, Low)";
  "   - Supplier filtering and search capabilities";
  "   - Page size controls (25, 50, 100 results per page)";
  "";
  "3. **Alerts System**:";
  "   - Real-time risk alerts for suppliers";
  "   - Critical, high, medium, low priority classifications";
  "   - Alert acknowledgment and resolution tracking";
  "   - Alert categories (Financial Risk, Compliance, Cybersecurity, etc.)";
  "   - Historical alert trends";
  "   - Page size controls for alert viewing";
  "";
  "4. **Reports & Analytics**:";
  "   - Professional PDF report generation";
  "   - Multiple report templates (Executive Summary, Risk Assessment, Compliance Audit)  ";
  "   - Custom report creation with filters";
  "   - Export capabilities";
  "";
  "5. **Tariff Calculator**:";
  "   - Real-time tariff calculations for import/export";
  "   - HS code lookup functionality";
  "   - Multi-country trade calculations";
  "   - Government data integration";
  "";
  "6. **Platform Navigation**:";
  "   - How to use different sections";
  "   - Understanding risk scores and metrics";
  "   - Interpreting charts and analytics";
  "   - Managing user preferences";
  "";
  "**Response Guidelines:**";
  "- Only discuss SupplyGuard features and data";
  ("- If asked about external topics, respond: " +:+ String dquote ("I can only help with SupplyGuard platform questions. What would you like to know about our dashboard, suppliers, alerts, or other platform features?" +:+ String dquote ""));
  "- Provide specific, actionable guidance about platform usage";
  "- Reference actual data when available (current supplier counts, alert numbers, etc.)";
  "- Keep responses concise and focused on platform functionality";
  "";
  "**Forbidden Topics:**";
  "- Other supply chain platforms or competitors";
  "- General business advice unrelated to SupplyGuard";
  "- External company information";
  "- Investment or financial advice";
  "- Topics outside supply chain risk management";
  "- Personal opinions or recommendations beyond platform usage"
]%string.

(** ** Messages (langchain's [SystemMessage] and [HumanMessage]) *)

Inductive chat_message : Type :=
| SystemMessage (content : pyval)
| HumanMessage (content : pyval).

(** The content type of a langchain message: a str, or a list whose
    items are strs or dicts. *)
Definition valid_content (c : pyval) : bool :=
  match c with
  | PStr _ => true
  | PList l => forallb (fun x => match x with PStr _ | PDict _ => true | _ => false end) l
  | _ => false
  end.

Definition mk_system_message (c : pyval) : result chat_message :=
  if valid_content c then Ok (SystemMessage c) else Raise ValidationError.

Definition mk_human_message (c : pyval) : result chat_message :=
  if valid_content c then Ok (HumanMessage c) else Raise ValidationError.

(** ** Prompt assembly (lines 147-160) *)

(** The f-string of line 152. *)
Definition context_message (page : pyval) : string :=
  nl +:+ nl +:+ "The user is currently on the '" +:+ py_str page +:+
  "' page. Provide contextually relevant help for this section.".

(** Lines 151-153: [context.get('currentPage')] raises unless [context]
    is a dict; a truthy page adds one system message. *)
Definition context_messages (context : pyval) : result (list chat_message) :=
  page <-? py_get context "currentPage" PNone ;;
  if truthy page then
    page' <-? getitem_str context "currentPage" ;;
    m <-? mk_system_message (PStr (context_message page')) ;;
    Ok [m]
  else Ok [].

(** Lines 157-160 on one entry [msg]; [msg['role']] is evaluated a second
    time by the [elif]. *)
Definition history_message (msg : pyval) : result (list chat_message) :=
  role <-? getitem_str msg "role" ;;
  if eq_str role "user" then
    content <-? getitem_str msg "content" ;;
    m <-? mk_human_message content ;;
    Ok [m]
  else
    role' <-? getitem_str msg "role" ;;
    if eq_str role' "assistant" then
      content <-? getitem_str msg "content" ;;
      m <-? mk_system_message content ;;
      Ok [m]
    else Ok [].

(** The loop of line 156, in order; the first exception stops it. *)
Fixpoint history_messages (msgs : list pyval) : result (list chat_message) :=
  match msgs with
  | [] => Ok []
  | msg :: rest =>
      h <-? history_message msg ;;
      t <-? history_messages rest ;;
      Ok (h ++ t)
  end.

(** The number of history entries replayed: [messages[-10:]]. *)
Definition HISTORY_WINDOW : Z := 10.

(** Lines 148-160: the [chat_messages] list handed to [llm.invoke]. *)
Definition build_chat_messages (context messages : pyval) : result (list chat_message) :=
  sys <-? mk_system_message (PStr SYSTEM_PROMPT) ;;
  ctx <-? context_messages context ;;
  window <-? slice_from messages (- HISTORY_WINDOW) ;;
  items <-? py_iter window ;;
  hist <-? history_messages items ;;
  Ok (sys :: ctx ++ hist).

(** ** Specification of the replayed history *)

(** A well-formed entry of the request's [messages]: a JSON object with
    a str [role] and a str [content]. *)
Definition client_message (e : string * string) : pyval :=
  PDict [("role", PStr e.1); ("content", PStr e.2)].

(** What such an entry becomes in the prompt (section 4.1, step 4 of the
    spec): a user turn for "user", a system message for "assistant",
    nothing for any other role. *)
Definition role_to_messages (e : string * string) : list chat_message :=
  if String.eqb e.1 "user" then [HumanMessage (PStr e.2)]
  else if String.eqb e.1 "assistant" then [SystemMessage (PStr e.2)]
  else [].

(** ** Lemmas *)

Lemma slice_start_neg (n k : nat) :
  0 < k -> slice_start n (- Z.of_nat k) = n - k.
Proof. intros Hk. unfold slice_start. destruct (Z.ltb_spec (- Z.of_nat k) 0); lia. Qed.

Lemma slice_window (l : list pyval) :
  slice_from (PList l) (- HISTORY_WINDOW) = Ok (PList (drop (length l - 10) l)).
Proof.
  unfold slice_from. change HISTORY_WINDOW with (Z.of_nat 10).
  by rewrite slice_start_neg by lia.
Qed.

Lemma window_items_length (v w : pyval) (items : list pyval) :
  slice_from v (- HISTORY_WINDOW) = Ok w -> py_iter w = Ok items -> length items <= 10.
Proof.
  change HISTORY_WINDOW with (Z.of_nat 10).
  destruct v as [| | |s|l|]; simpl; intros Hs; try discriminate; injection Hs as <-;
    simpl; intros [= <-].
  - rewrite length_map. unfold str_chars. rewrite list_ascii_of_string_of_list_ascii.
    rewrite length_drop, slice_start_neg by lia. fold (str_chars s).
    rewrite length_str_chars. lia.
  - rewrite length_drop, slice_start_neg by lia. lia.
Qed.

Lemma mk_system_message_length (c : pyval) (m : chat_message) (ms : list chat_message) :
  (m' <-? mk_system_message c ;; Ok [m']) = Ok ms -> length ms = 1.
Proof. unfold mk_system_message. intros H. rinv. done. Qed.

Lemma history_message_length (msg : pyval) (hs : list chat_message) :
  history_message msg = Ok hs -> length hs <= 1.
Proof.
  unfold history_message, mk_human_message, mk_system_message.
  intros H. rinv; simpl; lia.
Qed.

Lemma history_messages_length (msgs : list pyval) (hs : list chat_message) :
  history_messages msgs = Ok hs -> length hs <= length msgs.
Proof.
  revert hs; induction msgs as [|m ms IH]; simpl; intros hs.
  - by intros [= <-].
  - destruct (history_message m) as [h|] eqn:Hh; simpl; [|done].
    destruct (history_messages ms) as [t|]; simpl; [|done].
    intros [= <-]. apply history_message_length in Hh.
    specialize (IH t eq_refl). rewrite length_app. lia.
Qed.

Lemma context_messages_length (context : pyval) (ctx : list chat_message) :
  context_messages context = Ok ctx -> length ctx <= 1.
Proof.
  unfold context_messages, mk_system_message.
  intros H. rinv; simpl; lia.
Qed.

Lemma history_message_client (e : string * string) :
  history_message (client_message e) = Ok (role_to_messages e).
Proof.
  destruct e as [r c]. unfold history_message, role_to_messages. simpl.
  destruct (String.eqb r "user"); simpl; [done|].
  by destruct (String.eqb r "assistant").
Qed.

Lemma history_messages_client (l : list (string * string)) :
  history_messages (map client_message l) = Ok (flat_map role_to_messages l).
Proof.
  induction l as [|e l IH]; simpl; [done|].
  by rewrite history_message_client, IH.
Qed.

(** The successful runs of [build_chat_messages], step by step. *)
Lemma build_chat_messages_Ok (context messages : pyval) (out : list chat_message) :
  build_chat_messages context messages = Ok out <->
  exists ctx w items hist,
    context_messages context = Ok ctx /\ slice_from messages (- HISTORY_WINDOW) = Ok w /\
    py_iter w = Ok items /\ history_messages items = Ok hist /\
    out = SystemMessage (PStr SYSTEM_PROMPT) :: ctx ++ hist.
Proof.
  unfold build_chat_messages. cbn [mk_system_message valid_content rbind].
  split.
  - intros H. rinv. eauto 10.
  - intros (ctx & w & items & hist & Hc & Hw & Hi & Hh & ->).
    rewrite Hc; cbn [rbind]. rewrite Hw; cbn [rbind]. rewrite Hi; cbn [rbind].
    by rewrite Hh.
Qed.

Lemma context_messages_dict (d : list (string * pyval)) :
  context_messages (PDict d) =
  Ok (match dict_lookup "currentPage" d with
      | Some v => if truthy v then [SystemMessage (PStr (context_message v))] else []
      | None => []
      end).
Proof.
  unfold context_messages. simpl.
  destruct (dict_lookup "currentPage" d) as [v|]; simpl; [|done].
  by destruct (truthy v).
Qed.

(** The prompt for well-formed entries, in terms of the slice. *)
Lemma build_chat_messages_entries (context : pyval) (ctx : list chat_message)
    (l : list (string * string)) :
  context_messages context = Ok ctx ->
  build_chat_messages context (PList (map client_message l)) =
  Ok (SystemMessage (PStr SYSTEM_PROMPT) :: ctx ++ flat_map role_to_messages (drop (length l - 10) l)).
Proof.
  intros Hc. unfold build_chat_messages. cbn [mk_system_message valid_content rbind].
  rewrite Hc. cbn [rbind]. rewrite slice_window. simpl.
  rewrite length_map, drop_map, history_messages_client. done.
Qed.

(** ** Theorems *)

(** C10: every prompt starts with the system prompt of lines 22-89 and
    holds at most 12 messages: the system prompt, at most one context
    message and at most ten history messages. *)
Theorem build_chat_messages_shape (context messages : pyval) (out : list chat_message) :
  build_chat_messages context messages = Ok out ->
  out !! 0 = Some (SystemMessage (PStr SYSTEM_PROMPT)) /\ length out <= 12.
Proof.
  rewrite build_chat_messages_Ok.
  intros (ctx & w & items & hist & Hc & Hw & Hi & Hh & ->). split; [done|].
  apply context_messages_length in Hc. apply history_messages_length in Hh.
  pose proof (window_items_length _ _ _ Hw Hi). simpl. rewrite length_app. lia.
Qed.

(** C11: history windowing: on a list of entries, exactly the last ten
    (all of them when there are fewer) are replayed, in their order. *)
Theorem build_chat_messages_window (context : pyval) (l : list pyval) :
  build_chat_messages context (PList l) =
  (ctx <-? context_messages context ;;
   hist <-? history_messages (drop (length l - 10) l) ;;
   Ok (SystemMessage (PStr SYSTEM_PROMPT) :: ctx ++ hist)).
Proof.
  unfold build_chat_messages. cbn [mk_system_message valid_content rbind].
  destruct (context_messages context); cbn [rbind]; [|done].
  rewrite slice_window. done.
Qed.

(** C12: the prompt of well-formed entries is the specification's:
    the system prompt, the context message, then the role mapping of
    the last ten entries ([lastn], the reference window defined by
    reversal, agrees with Python's negative slice): "user" entries
    become user turns, "assistant" entries become system messages,
    other roles are dropped. *)
Theorem build_chat_messages_client (context : pyval) (ctx : list chat_message)
    (l : list (string * string)) :
  context_messages context = Ok ctx ->
  build_chat_messages context (PList (map client_message l)) =
  Ok (SystemMessage (PStr SYSTEM_PROMPT) :: ctx ++ flat_map role_to_messages (lastn 10 l)).
Proof. rewrite lastn_drop. apply build_chat_messages_entries. Qed.

(** C13: with a truthy [context['currentPage']] the second message of
    the prompt is a system message naming that page. *)
Theorem build_chat_messages_context_page (d : list (string * pyval)) (v messages : pyval)
    (out : list chat_message) :
  dict_lookup "currentPage" d = Some v -> truthy v = true ->
  build_chat_messages (PDict d) messages = Ok out ->
  exists txt, out !! 1 = Some (SystemMessage (PStr txt)) /\
    PyStr.substr ("'" +:+ py_str v +:+ "' page") txt.
Proof.
  intros Hv Ht. rewrite build_chat_messages_Ok, context_messages_dict, Hv, Ht.
  intros (ctx & w & items & hist & [= <-] & _ & _ & _ & ->).
  exists (context_message v). split; [done|].
  exists (nl +:+ nl +:+ "The user is currently on the "),
    ". Provide contextually relevant help for this section.".
  unfold context_message, nl. rewrite !str_app_assoc. cbv [String.append]. reflexivity.
Qed.

(** ** Witnesses *)

Lemma build_chat_messages_shape_witness :
  exists out, build_chat_messages (PDict [("currentPage", PStr "Alerts")])
                (PList [client_message ("user", "hi")]) = Ok out /\
    out !! 0 = Some (SystemMessage (PStr SYSTEM_PROMPT)) /\ length out <= 12.
Proof.
  eexists. split; [reflexivity|].
  apply (build_chat_messages_shape (PDict [("currentPage", PStr "Alerts")])
           (PList [client_message ("user", "hi")])). reflexivity.
Defined.

(** Section 8 of the spec: of fifteen entries only the last ten are
    replayed. *)
Lemma build_chat_messages_client_witness :
  build_chat_messages (PDict [])
    (PList (map client_message (map (fun n => ("user", str_of_Z (Z.of_nat n))) (seq 0 15)))) =
  Ok (SystemMessage (PStr SYSTEM_PROMPT) ::
      flat_map role_to_messages (map (fun n => ("user", str_of_Z (Z.of_nat n))) (seq 5 10))).
Proof. rewrite (build_chat_messages_client (PDict []) []); reflexivity. Defined.

(** Section 8 of the spec: a context on the "Alerts" page. *)
Lemma build_chat_messages_context_page_witness :
  exists txt,
    (match build_chat_messages (PDict [("currentPage", PStr "Alerts")])
             (PList [client_message ("user", "hi")]) with
     | Ok out => out | Raise _ => [] end) !! 1 = Some (SystemMessage (PStr txt)) /\
    PyStr.substr ("'" +:+ "Alerts" +:+ "' page") txt.
Proof.
  apply (build_chat_messages_context_page [("currentPage", PStr "Alerts")] (PStr "Alerts")
           (PList [client_message ("user", "hi")])); reflexivity.
Defined.

End Prompt.
