(* ===== verification/Log.v ===== *)
(** * Observable events, the diagnostic lines and the console

    The view's observable effects (src/app.py lines 138-176) are the call
    of the provider and four [print]s; start-up prints two banner lines
    (lines 191-192).  A line of text is the list of its Unicode code
    points ([Z]): every line begins with an emoji, outside the Latin-1
    range of the rest of the development.  [render] gives the text each
    f-string builds from the values it interpolates ([len(messages)],
    [response.content[:100]], [port]); the text of [str(error)] at line
    176 is not modelled.

    [print(line)] writes to [sys.stdout], a text stream that encodes the
    line first and raises [UnicodeEncodeError] (errors='strict') when its
    encoding cannot encode one of the characters; nothing is written
    then.  The console is a type class [Console] giving the code points
    its encoding can encode: [utf8_console], the instance in scope (a
    UTF-8 locale, Python's UTF-8 mode, the Windows console), encodes
    every code point; [latin1_console] and [ascii_console] (stdout
    redirected under cp1252 or [PYTHONIOENCODING=ascii], a C locale
    before Python 3.7) are the consoles that cannot print the emoji. *)

From stdpp Require Import base list strings.
From Stdlib Require Import String Ascii ZArith Lia.
From S2P Require Import Prelude PyValue Prompt.

Module Log.
Import PyValue Prompt.
Local Open Scope Z_scope.

(** ** Events *)

(** The observable effects of a request: a call of the LLM provider
    with its prompt, and the four diagnostic [print]s of the view, each
    with the values its f-string interpolates. *)
Inductive event : Type :=
| Invoke (prompt : list chat_message)
(** Line 138. *)
| LogUnconfigured
(** Line 162, with [len(messages)]. *)
| LogProcessing (n : Z)
(** Line 167, with [response.content[:100]]. *)
| LogGenerated (head : string)
(** Line 176, with the exception. *)
| LogError (error : exc).

(** The prompts sent to the provider, in order. *)
Definition invocations (tr : list event) : list (list chat_message) :=
  omap (fun ev => match ev with Invoke p => Some p | _ => None end) tr.

(** ** Lines of text *)

(** The code points of a (Latin-1) [str]. *)
Definition cps (s : string) : list Z := map (fun c => Z.of_nat (nat_of_ascii c)) (str_chars s).

(** The line each [print] of the view writes; the provider call writes
    nothing. *)
Definition render (ev : event) : list Z :=
  match ev with
  | Invoke _ => []
  | LogUnconfigured =>
      [0x26A0; 0xFE0F] ++ cps " DeepSeek API key not configured - using fallback responses"
  | LogProcessing n =>
      [0x1F916] ++ cps " [ChatAPI] Processing chat request with " ++ cps (str_of_Z n) ++ cps " messages"
  | LogGenerated head =>
      [0x2705] ++ cps " [ChatAPI] Generated response: " ++ cps head ++ cps "..."
  | LogError _ => [0x274C] ++ cps " [ChatAPI] Error: "
  end.

(** Lines 191 and 192. *)
Definition banner_running (port : Z) : list Z :=
  [0x1F680] ++ cps " Server running on http://localhost:" ++ cps (str_of_Z port).

Definition banner_chat (port : Z) : list Z :=
  [0x1F4DD] ++ cps " Chat API available at http://localhost:" ++ cps (str_of_Z port)
  ++ cps "/api/v1/chat".

(** ** The console *)

(** The code points the encoding of [sys.stdout] can encode. *)
Class Console : Type := { encodable : Z -> bool }.

#[export] Instance utf8_console : Console := {| encodable := fun _ => true |}.

Definition latin1_console : Console := {| encodable := fun c => (0 <=? c) && (c <? 256) |}.

Definition ascii_console : Console := {| encodable := fun c => (0 <=? c) && (c <? 128) |}.

(** [print(line)]: the line is encoded before anything is written. *)
Definition console_print `{Console} (line : list Z) : result unit :=
  if forallb encodable line then Ok tt else Raise UnicodeEncodeError.

(** ** Lemmas *)

Lemma console_print_utf8 (line : list Z) : @console_print utf8_console line = Ok tt.
Proof. unfold console_print. cbn [encodable utf8_console]. by induction line. Qed.

(** A line whose first character the console cannot encode is not
    printed. *)
Lemma console_print_head `{Console} (c : Z) (rest : list Z) :
  encodable c = false -> console_print (c :: rest) = Raise UnicodeEncodeError.
Proof. intros Hc. unfold console_print. cbn [forallb]. by rewrite Hc. Qed.

End Log.
