(* ===== verification/ChatHandler.v ===== *)
(** * The chat endpoint [POST /api/v1/chat] (src/app.py:123-187)

    [chat_try] is the [try] block of [chat()] (lines 126-173),
    [chat_except] its [except Exception] block (lines 175-187), and
    [chat] the whole view.  Both blocks read [request.json]; Flask caches
    the parsed body, so both see the same [result pyval] (a parse
    failure raises the same [HTTPException] each time).  The
    configuration is the value of [os.getenv("DEEPSEEK_API_KEY")]; the
    LLM client [llm] is a function from a prompt to its outcome, a reply
    text or a raised exception.  The observable effects are events of
    the trace ([Log.event]): the call [llm.invoke] ([Invoke]) and the
    four diagnostic [print]s (lines 138, 162, 167 and 176), each with
    the values its f-string interpolates.  A print ([log]) writes its
    line to the console in scope ([Log.Console]); when the console's
    encoding cannot encode the line the print raises
    [UnicodeEncodeError] and records nothing.  The theorems without a
    console argument are about the UTF-8 console, where every print
    succeeds.  [handle_chat] runs the view as Flask does: an exception
    that escapes the view becomes an error page, with the code of an
    [HTTPException] and 500 for any other exception.

    The theorems: the handler refines the contract of section 4.1 of the
    spec on well-formed requests, log lines included; each branch
    (missing messages, unconfigured key, provider failure, provider
    success) in general form; the six shapes of a request's events
    ([request_trace]: at most one provider call, none without a key, an
    error line exactly when the [try] block raised); the status codes
    the endpoint can answer; concrete requests showing the 500 answers
    and the [context: null] behaviour; the bound of the reply shown by
    line 167; the types of the JSON bodies ([conforms] to the schemas
    of the spec); and, on a console that cannot print the emoji, no
    answer but 400 and 500. *)

From stdpp Require Import base list strings.
From Stdlib Require Import String Ascii ZArith Lia.
From S2P Require Import Prelude PyStr PyValue Fallback Prompt Log.

Module ChatHandler.
Import PyValue Prompt Fallback Log.

(** ** Requests, responses and events *)

(** The body Flask answers with: a [jsonify]ed value, or the HTML error
    page of an exception that escaped the view. *)
Inductive body : Type :=
| JsonBody (v : pyval)
| ErrorPage.

Record response : Type := mk_response { status : Z; body_of : body }.

(** [jsonify(v)] answers 200; [jsonify(v), code] another status. *)
Definition jsonify (v : pyval) : response := mk_response 200 (JsonBody v).
Definition jsonify_status (v : pyval) (code : Z) : response := mk_response code (JsonBody v).

Definition TIMESTAMP : string := "2024-01-01T00:00:00.000Z".

(** Line 131. *)
Definition error_reply : pyval := PDict [("error", PStr "Messages are required")].

(** Lines 140-145 and 182-187. *)
Definition fallback_reply (response : string) : pyval :=
  PDict [("success", PBool true); ("message", PStr response);
         ("timestamp", PStr TIMESTAMP); ("fallback", PBool true)].

(** Lines 169-173. *)
Definition success_reply (content : string) : pyval :=
  PDict [("success", PBool true); ("message", PStr content); ("timestamp", PStr TIMESTAMP)].

(** [not os.getenv(...)]: an unset or empty variable is falsy. *)
Definition env_truthy (v : option string) : bool :=
  match v with Some s => negb (String.eqb s "") | None => false end.

(** ** The view *)

Section View.

(** The console the view prints to. *)
Context {C : Console}.
(** [os.getenv("DEEPSEEK_API_KEY")] at the time of the request. *)
Variable api_key : option string.
(** The LLM client: the outcome of [llm.invoke] on a prompt. *)
Variable llm : list chat_message -> result string.

(** [print(...)] of a diagnostic line: the line is printed, or the
    print raises and nothing is written. *)
Definition log (ev : event) : PyM event unit :=
  _ <-! console_print (render ev) ;;
  emit ev.

(** [llm.invoke(chat_messages).content] (line 165): the call is made,
    then its outcome is returned or raised. *)
Definition invoke (prompt : list chat_message) : PyM event string :=
  _ <- emit (Invoke prompt) ;;
  lift (llm prompt).

(** Line 134: [messages[-1]['content'] if messages else ""]. *)
Definition last_content (messages : pyval) : result pyval :=
  if truthy messages then
    last <-? getitem_int messages (-1) ;;
    getitem_str last "content"
  else Ok (PStr "").

(** Lines 126-173. *)
Definition chat_try (json : result pyval) : PyM event response :=
  data <-! json ;;
  messages <-! py_get data "messages" (PList []) ;;
  context <-! py_get data "context" (PDict []) ;;
  if negb (truthy messages) then ret (jsonify_status error_reply 400)
  else
    user_message <-! last_content messages ;;
    if negb (env_truthy api_key) then
      _ <- log LogUnconfigured ;;
      response <-! get_fallback_response user_message ;;
      ret (jsonify (fallback_reply response))
    else
      chat_messages <-! build_chat_messages context messages ;;
      n <-! py_len messages ;;
      _ <- log (LogProcessing n) ;;
      content <- invoke chat_messages ;;
      head <-! slice_to (PStr content) 100 ;;
      _ <- log (LogGenerated (py_str head)) ;;
      ret (jsonify (success_reply content)).

(** Line 179: [request.json.get('messages', [{}])[-1].get('content', '')
    if request.json.get('messages') else '']. *)
Definition except_user_message (data : pyval) : result pyval :=
  ms <-? py_get data "messages" PNone ;;
  if truthy ms then
    ms' <-? py_get data "messages" (PList [PDict []]) ;;
    last <-? getitem_int ms' (-1) ;;
    py_get last "content" (PStr "")
  else Ok (PStr "").

(** Lines 175-187, on the exception [error] the [try] block raised. *)
Definition chat_except (json : result pyval) (error : exc) : PyM event response :=
  _ <- log (LogError error) ;;
  data <-! json ;;
  user_message <-! except_user_message data ;;
  response <-! get_fallback_response user_message ;;
  ret (jsonify (fallback_reply response)).

(** The view [chat()]. *)
Definition chat (json : result pyval) : PyM event response :=
  try_except (chat_try json) (chat_except json).

End View.

(** ** Flask's dispatch *)

(** An exception that escapes the view: an [HTTPException] answers its
    own code, any other exception 500 (Internal Server Error). *)
Definition handle_exception (e : exc) : response :=
  match e with
  | HTTPException code => mk_response code ErrorPage
  | _ => mk_response 500 ErrorPage
  end.

(** One request: the response and the provider calls it made. *)
Definition handle_chat `{Console} (api_key : option string) (llm : list chat_message -> result string)
    (json : result pyval) : response * list event :=
  match chat api_key llm json [] with
  | (Ok r, tr) => (r, tr)
  | (Raise e, tr) => (handle_exception e, tr)
  end.

(** ** The contract of the endpoint *)

(** Section 4.1 of the spec, for a request whose [messages] are the
    well-formed entries [l] and whose [context] yields the context
    messages [ctx]: 400 on no messages; without a key, the fallback of
    the last message and no provider call; with a key, exactly one
    provider call with the assembled prompt, answered by the provider's
    text or, when the call fails, by the fallback. *)
Inductive chat_contract (api_key : option string) (llm : list chat_message -> result string)
    (l : list (string * string)) (ctx : list chat_message) : response * list event -> Prop :=
| contract_empty :
    l = [] -> chat_contract api_key llm l ctx (jsonify_status error_reply 400, [])
| contract_unconfigured e r :
    list.last l = Some e -> env_truthy api_key = false ->
    get_fallback_response (PStr e.2) = Ok r ->
    chat_contract api_key llm l ctx (jsonify (fallback_reply r), [LogUnconfigured])
| contract_reply e p c :
    list.last l = Some e -> env_truthy api_key = true ->
    p = SystemMessage (PStr SYSTEM_PROMPT) :: ctx ++ flat_map role_to_messages (lastn 10 l) ->
    llm p = Ok c ->
    chat_contract api_key llm l ctx
      (jsonify (success_reply c),
       [LogProcessing (Z.of_nat (length l)); Invoke p;
        LogGenerated (string_of_list_ascii (take 100 (str_chars c)))])
| contract_failure e p r err :
    list.last l = Some e -> env_truthy api_key = true ->
    p = SystemMessage (PStr SYSTEM_PROMPT) :: ctx ++ flat_map role_to_messages (lastn 10 l) ->
    llm p = Raise err -> get_fallback_response (PStr e.2) = Ok r ->
    chat_contract api_key llm l ctx
      (jsonify (fallback_reply r), [LogProcessing (Z.of_nat (length l)); Invoke p; LogError err]).

(** The traces the [try] block can leave, with its outcome: nothing
    (400, or an exception before line 137), the warning of line 138, or
    the log of line 162 and the provider call, followed by the log of
    line 167 (the first 100 characters of the reply) when the call
    answered. *)
Inductive try_trace (llm : list chat_message -> result string) :
    result response -> list event -> Prop :=
| tt_plain r : try_trace llm r []
| tt_unconfigured r : try_trace llm r [LogUnconfigured]
| tt_reply r n p c :
    llm p = Ok c ->
    try_trace llm (Ok r) [LogProcessing n; Invoke p; LogGenerated (string_of_list_ascii (take 100 (str_chars c)))]
| tt_call_failed e n p : llm p = Raise e -> try_trace llm (Raise e) [LogProcessing n; Invoke p].

(** The traces of a whole request: those of the [try] block, each
    followed by the error log of line 176 when the block raised. *)
Inductive request_trace (llm : list chat_message -> result string) : list event -> Prop :=
| rt_rejected : request_trace llm []
| rt_failed e : request_trace llm [LogError e]
| rt_unconfigured : request_trace llm [LogUnconfigured]
| rt_unconfigured_failed e : request_trace llm [LogUnconfigured; LogError e]
| rt_reply n p c :
    llm p = Ok c ->
    request_trace llm [LogProcessing n; Invoke p; LogGenerated (string_of_list_ascii (take 100 (str_chars c)))]
| rt_call_failed n p e : llm p = Raise e -> request_trace llm [LogProcessing n; Invoke p; LogError e].

(** ** The schema of the JSON bodies *)

(** The types of the fields of a reply. *)
Inductive ftype : Type := FStr | FBool.

Definition field_has_type (v : pyval) (t : ftype) : bool :=
  match v, t with PStr _, FStr | PBool _, FBool => true | _, _ => false end.

(** An object with exactly the keys of [schema], in its order, each
    with a value of its type. *)
Definition conforms (v : pyval) (schema : list (string * ftype)) : Prop :=
  match v with
  | PDict kvs => Forall2 (fun kv f => kv.1 = f.1 /\ field_has_type kv.2 f.2 = true) kvs schema
  | _ => False
  end.

(** Sections 4.1 and 8 of the spec: the error body of a 400, and the
    reply of a 200, with [fallback] when the text is canned. *)
Definition error_schema : list (string * ftype) := [("error", FStr)].
Definition success_schema : list (string * ftype) :=
  [("success", FBool); ("message", FStr); ("timestamp", FStr)].
Definition fallback_schema : list (string * ftype) := success_schema ++ [("fallback", FBool)].

(** ** Lemmas *)

(** On the UTF-8 console every print succeeds and records its event. *)
Lemma bind_log_utf8 {A} (ev : event) (k : unit -> PyM event A) (tr : list event) :
  bind (@log utf8_console ev) k tr = k tt (tr ++ [ev]).
Proof. unfold bind, log. cbn [bind lift]. by rewrite console_print_utf8. Qed.

(** Steps through the monad. *)
Ltac pystep :=
  cbn [bind lift ret emit rbind try_except negb fst snd py_get py_len py_str app];
  repeat (rewrite bind_log_utf8;
          cbn [bind lift ret emit rbind try_except negb fst snd py_get py_len py_str app]).

Lemma handle_chat_unfold (api_key : option string) (llm : list chat_message -> result string)
    (json : result pyval) :
  handle_chat api_key llm json =
  match chat_try api_key llm json [] with
  | (Ok r, tr) => (r, tr)
  | (Raise e, tr) =>
      match chat_except json e tr with
      | (Ok r, tr') => (r, tr')
      | (Raise e', tr') => (handle_exception e', tr')
      end
  end.
Proof.
  unfold handle_chat, chat, try_except.
  by destruct (chat_try api_key llm json []) as [[r|e] tr].
Qed.

Lemma last_content_list (xs : list pyval) (x : pyval) :
  list.last xs = Some x -> last_content (PList xs) = getitem_str x "content".
Proof.
  intros Hx. unfold last_content.
  by rewrite (truthy_last _ _ Hx), getitem_int_last, Hx.
Qed.

Lemma except_user_message_list (d : list (string * pyval)) (xs : list pyval) (x : pyval) :
  dict_lookup "messages" d = Some (PList xs) -> list.last xs = Some x ->
  except_user_message (PDict d) = py_get x "content" (PStr "").
Proof.
  intros Hd Hx. unfold except_user_message. rewrite (py_get_dict _ _ PNone _ Hd), (py_get_dict _ _ (PList [PDict []]) _ Hd).
  pystep.
  rewrite (truthy_last _ _ Hx). pystep. by rewrite getitem_int_last, Hx.
Qed.

Lemma invocations_app (a b : list event) : invocations (a ++ b) = invocations a ++ invocations b.
Proof. apply omap_app. Qed.

(** Line 167 prints the first 100 characters of the reply. *)
Lemma slice_to_100 (c : string) :
  slice_to (PStr c) 100 = Ok (PStr (string_of_list_ascii (take 100 (str_chars c)))).
Proof. exact (slice_to_str c 100). Qed.

(** The [except] block logs the error, then emits nothing more. *)
Lemma chat_except_trace (json : result pyval) (e : exc) (tr : list event) :
  (chat_except json e tr).2 = tr ++ [LogError e].
Proof.
  unfold chat_except. pystep. destruct json as [data|]; pystep; [|done].
  destruct (except_user_message data) as [u|]; pystep; [|done].
  by destruct (get_fallback_response u).
Qed.

(** Apart from the exception of [request.json], the [except] block can
    only raise the exceptions of indexing and of [.lower()], never an
    [HTTPException]. *)
Lemma except_user_message_no_http (data : pyval) (c : Z) :
  except_user_message data <> Raise (HTTPException c).
Proof.
  unfold except_user_message. intros H.
  apply rbind_Raise in H as [H | (ms & Hms & H)]; [by destruct data|].
  destruct (truthy ms); [|discriminate].
  apply rbind_Raise in H as [H | (ms' & Hms' & H)]; [by destruct data|].
  apply rbind_Raise in H as [H | (l & Hl & H)].
  - unfold getitem_int in H. repeat case_match; discriminate.
  - by destruct l.
Qed.

Lemma chat_except_raise (json : result pyval) (e0 : exc) (tr : list event) (e : exc) :
  (chat_except json e0 tr).1 = Raise e -> json = Raise e \/ (forall c, e <> HTTPException c).
Proof.
  unfold chat_except. pystep. destruct json as [data|e']; pystep; [|intros [= ->]; by left].
  right. intros c ->.
  destruct (except_user_message data) as [u|e''] eqn:Hu; pystep.
  - destruct u; discriminate.
  - injection H as ->. by apply (except_user_message_no_http data c).
Qed.

(** Closes a leaf of [chat_try_shape]: the events the [try] block
    appended, their shape, and no provider call without a key. *)
Ltac shape_leaf :=
  rewrite <- ?app_assoc; simpl;
  lazymatch goal with
  | |- exists ext, ?t ++ ?e = ?t ++ ext /\ _ => exists e
  | |- exists ext, ?t = ?t ++ ext /\ _ => exists []; rewrite app_nil_r
  end;
  split; [done | split; [by econstructor | intros; by try congruence]].

(** The [try] block appends one of the traces of [try_trace], and calls
    the provider only when the key is set. *)
Lemma chat_try_shape (api_key : option string) (llm : list chat_message -> result string)
    (json : result pyval) (tr : list event) :
  exists ext, (chat_try api_key llm json tr).2 = tr ++ ext /\
    try_trace llm (chat_try api_key llm json tr).1 ext /\
    (env_truthy api_key = false -> invocations ext = []).
Proof.
  unfold chat_try. destruct json as [data|]; pystep; [|shape_leaf].
  destruct (py_get data "messages" (PList [])) as [messages|]; pystep; [|shape_leaf].
  destruct (py_get data "context" (PDict [])) as [context|]; pystep; [|shape_leaf].
  destruct (truthy messages); pystep; [|shape_leaf].
  destruct (last_content messages) as [u|]; pystep; [|shape_leaf].
  destruct (env_truthy api_key) eqn:Hk; pystep.
  - destruct (build_chat_messages context messages) as [p|]; pystep; [|shape_leaf].
    destruct (py_len messages) as [n|]; pystep; [|shape_leaf].
    unfold invoke. pystep. destruct (llm p) as [c|] eqn:Hl; pystep; [|shape_leaf].
    rewrite slice_to_100. pystep. shape_leaf.
  - destruct (get_fallback_response u); pystep; shape_leaf.
Qed.

(** The [try] block on a dict body whose [messages] is a non-empty list:
    what remains after line 134. *)
Lemma chat_try_step (api_key : option string) (llm : list chat_message -> result string)
    (d : list (string * pyval)) (xs : list pyval) (x context : pyval) (tr : list event) :
  dict_lookup "messages" d = Some (PList xs) -> list.last xs = Some x ->
  py_get (PDict d) "context" (PDict []) = Ok context ->
  chat_try api_key llm (Ok (PDict d)) tr =
  (u <-! getitem_str x "content" ;;
   if negb (env_truthy api_key) then
     _ <- emit LogUnconfigured ;;
     response <-! get_fallback_response u ;;
     ret (jsonify (fallback_reply response))
   else
     chat_messages <-! build_chat_messages context (PList xs) ;;
     _ <- emit (LogProcessing (Z.of_nat (length xs))) ;;
     content <- invoke llm chat_messages ;;
     _ <- emit (LogGenerated (string_of_list_ascii (take 100 (str_chars content)))) ;;
     ret (jsonify (success_reply content))) tr.
Proof.
  intros Hd Hx Hc. unfold chat_try. cbn [bind lift].
  rewrite (py_get_dict _ _ (PList []) _ Hd), Hc. pystep.
  rewrite (truthy_last _ _ Hx). pystep. rewrite (last_content_list _ _ Hx).
  destruct (getitem_str x "content") as [u|]; pystep; [|done].
  destruct (env_truthy api_key); pystep; [|done].
  destruct (build_chat_messages context (PList xs)) as [p|]; pystep; [|done].
  unfold invoke. pystep. destruct (llm p) as [c|]; pystep; [|done].
  rewrite slice_to_100. by pystep.
Qed.

(** The [except] block on the same body, after its error log. *)
Lemma chat_except_step (d : list (string * pyval)) (xs : list pyval) (x : pyval) (e : exc)
    (tr : list event) :
  dict_lookup "messages" d = Some (PList xs) -> list.last xs = Some x ->
  chat_except (Ok (PDict d)) e tr =
  (u <-! py_get x "content" (PStr "") ;;
   response <-! get_fallback_response u ;;
   ret (jsonify (fallback_reply response))) (tr ++ [LogError e]).
Proof. intros Hd Hx. unfold chat_except. pystep. by rewrite (except_user_message_list _ _ _ Hd Hx). Qed.

Lemma client_message_content (e : string * string) :
  getitem_str (client_message e) "content" = Ok (PStr e.2).
Proof. by destruct e. Qed.

Lemma client_message_content_get (e : string * string) :
  py_get (client_message e) "content" (PStr "") = Ok (PStr e.2).
Proof. by destruct e. Qed.

(** The [try] block answers the 400 error, a reply or a fallback, the
    [except] block a fallback. *)
Lemma chat_try_reply (api_key : option string) (llm : list chat_message -> result string)
    (json : result pyval) (tr tr' : list event) (r : response) :
  chat_try api_key llm json tr = (Ok r, tr') ->
  r = jsonify_status error_reply 400 \/ (exists c, r = jsonify (success_reply c)) \/
  (exists m, r = jsonify (fallback_reply m)).
Proof.
  unfold chat_try. destruct json as [data|]; pystep; [|done].
  destruct (py_get data "messages" (PList [])) as [m|]; pystep; [|done].
  destruct (py_get data "context" (PDict [])) as [c|]; pystep; [|done].
  destruct (truthy m); pystep; [|intros [= <- _]; by left].
  destruct (last_content m) as [u|]; pystep; [|done].
  destruct (env_truthy api_key); pystep.
  - destruct (build_chat_messages c m) as [p|]; pystep; [|done].
    destruct (py_len m); pystep; [|done].
    unfold invoke. pystep. destruct (llm p) as [x|]; pystep; [|done].
    rewrite slice_to_100. pystep. intros [= <- _]. right; left. by eexists.
  - destruct (get_fallback_response u); pystep; [|done]. intros [= <- _]. right; right. by eexists.
Qed.

Lemma chat_try_status (api_key : option string) (llm : list chat_message -> result string)
    (json : result pyval) (tr tr' : list event) (r : response) :
  chat_try api_key llm json tr = (Ok r, tr') -> (status r = 200 \/ status r = 400)%Z.
Proof. intros H. apply chat_try_reply in H as [-> | [[c ->] | [m ->]]]; simpl; auto. Qed.

Lemma chat_except_reply (json : result pyval) (e : exc) (tr tr' : list event) (r : response) :
  chat_except json e tr = (Ok r, tr') -> exists m, r = jsonify (fallback_reply m).
Proof.
  unfold chat_except. pystep. destruct json as [data|]; pystep; [|done].
  destruct (except_user_message data) as [u|]; pystep; [|done].
  destruct (get_fallback_response u); pystep; [|done]. intros [= <- _]. by eexists.
Qed.

Lemma chat_except_status (json : result pyval) (e : exc) (tr tr' : list event) (r : response) :
  chat_except json e tr = (Ok r, tr') -> status r = 200%Z.
Proof. by intros [m ->]%chat_except_reply. Qed.

(** On a console that cannot encode the first character of a line, the
    print raises and records nothing. *)
Lemma bind_log_fail `{Console} {A} (ev : event) (c : Z) (rest : list Z)
    (k : unit -> PyM event A) (tr : list event) :
  render ev = c :: rest -> encodable c = false ->
  bind (log ev) k tr = (Raise UnicodeEncodeError, tr).
Proof.
  intros Hr Hc. unfold bind, log. cbn [bind lift]. by rewrite Hr, console_print_head.
Qed.

(** The [except] block on a console without U+274C (line 176) raises
    at its first line. *)
Lemma chat_except_unencodable `{Console} (json : result pyval) (e : exc) (tr : list event) :
  encodable 0x274C = false -> chat_except json e tr = (Raise UnicodeEncodeError, tr).
Proof. intros Hc. unfold chat_except. by erewrite bind_log_fail. Qed.

(** The [try] block on a console without U+26A0 (line 138) and U+1F916
    (line 162) answers 400 or raises, before any event. *)
Lemma chat_try_unencodable `{Console} (api_key : option string)
    (llm : list chat_message -> result string) (json : result pyval) (tr : list event) :
  encodable 0x26A0 = false -> encodable 0x1F916 = false ->
  chat_try api_key llm json tr = (Ok (jsonify_status error_reply 400), tr) \/
  exists e, chat_try api_key llm json tr = (Raise e, tr).
Proof.
  intros H1 H2. unfold chat_try.
  destruct json as [data|]; cbn [bind lift rbind]; [|by right; eexists].
  destruct (py_get data "messages" (PList [])) as [m|]; cbn [bind lift rbind]; [|by right; eexists].
  destruct (py_get data "context" (PDict [])) as [c|]; cbn [bind lift rbind]; [|by right; eexists].
  destruct (truthy m); cbn [negb]; [|by left].
  destruct (last_content m) as [u|]; cbn [bind lift rbind]; [|by right; eexists].
  right. destruct (env_truthy api_key); cbn [negb].
  - destruct (build_chat_messages c m) as [p|]; cbn [bind lift rbind]; [|by eexists].
    destruct (py_len m) as [n|]; cbn [bind lift rbind]; [|by eexists].
    eexists. by erewrite bind_log_fail.
  - eexists. by erewrite bind_log_fail.
Qed.

(** A [try] trace, followed by the error log when the block raised, is
    a trace of a request. *)
Lemma try_trace_request (llm : list chat_message -> result string) (r : result response)
    (ext : list event) :
  try_trace llm r ext ->
  match r with Ok _ => request_trace llm ext | Raise e => request_trace llm (ext ++ [LogError e]) end.
Proof. destruct 1; try destruct r; by econstructor. Qed.

Lemma request_trace_invocations (llm : list chat_message -> result string) (tr : list event) :
  request_trace llm tr -> length (invocations tr) <= 1.
Proof. destruct 1; simpl; lia. Qed.

(** The events of a request, whatever its body: a trace of
    [request_trace], with no provider call when the key is unset. *)
Lemma handle_chat_request_trace (api_key : option string) (llm : list chat_message -> result string)
    (json : result pyval) :
  request_trace llm (handle_chat api_key llm json).2 /\
  (env_truthy api_key = false -> invocations (handle_chat api_key llm json).2 = []).
Proof.
  rewrite handle_chat_unfold.
  destruct (chat_try_shape api_key llm json []) as (ext & Htr & Hsh & Hk).
  destruct (chat_try api_key llm json []) as [[r|e] tr]; simpl in Htr, Hsh; subst tr;
    apply try_trace_request in Hsh; [done|].
  pose proof (chat_except_trace json e ext) as Hx.
  destruct (chat_except json e ext) as [[r'|e'] tr']; simpl in Hx; subst tr';
    split; [done | intros Hf | done | intros Hf];
    cbn [snd]; by rewrite invocations_app, (Hk Hf).
Qed.

(** A body that is not an object raises in both blocks of the view. *)
Lemma handle_chat_not_object (api_key : option string) (llm : list chat_message -> result string)
    (data : pyval) :
  (forall d, data <> PDict d) ->
  handle_chat api_key llm (Ok data) = (mk_response 500 ErrorPage, [LogError AttributeError]).
Proof.
  intros Hnd. rewrite handle_chat_unfold. unfold chat_try, chat_except, except_user_message.
  destruct data; try (by destruct (Hnd d)); reflexivity.
Qed.

(** ** Theorems *)

(** C1: on a well-formed request (a dict whose [messages] are entries
    with a str role and a str content, and whose [context] is a dict or
    absent) the endpoint fulfils the contract of section 4.1, with the
    diagnostic log lines the view prints. *)
Theorem handle_chat_refines (api_key : option string) (llm : list chat_message -> result string)
    (d : list (string * pyval)) (l : list (string * string)) (context : pyval)
    (ctx : list chat_message) :
  py_get (PDict d) "messages" (PList []) = Ok (PList (map client_message l)) ->
  py_get (PDict d) "context" (PDict []) = Ok context ->
  context_messages context = Ok ctx ->
  chat_contract api_key llm l ctx (handle_chat api_key llm (Ok (PDict d))).
Proof.
  intros Hm Hc Hctx. destruct (list.last l) as [e|] eqn:He.
  2:{ apply last_None in He as ->. rewrite handle_chat_unfold. unfold chat_try. cbn [bind lift].
      rewrite Hm, Hc. by apply contract_empty. }
  assert (Hd : dict_lookup "messages" d = Some (PList (map client_message l))).
  { simpl in Hm. destruct (dict_lookup "messages" d) as [v|]; [by injection Hm as ->|].
    destruct l; discriminate. }
  assert (Hx : list.last (map client_message l) = Some (client_message e)) by (by rewrite last_map, He).
  rewrite handle_chat_unfold, (chat_try_step _ _ _ _ _ _ _ Hd Hx Hc), client_message_content.
  pystep. rewrite length_map. destruct (env_truthy api_key) eqn:Hk; pystep.
  - rewrite (build_chat_messages_entries _ _ _ Hctx), <- lastn_drop. pystep. unfold invoke.
    destruct (llm _) as [c|err] eqn:Hl; pystep; [by eapply contract_reply|].
    rewrite (chat_except_step _ _ _ _ _ Hd Hx), client_message_content_get. pystep.
    by eapply contract_failure.
  - by eapply contract_unconfigured.
Qed.

(** C2: a dict body whose [messages] is missing or falsy (absent, null,
    [], "", 0, false or an empty object) is answered 400 with
    {"error": "Messages are required"}, without a provider call and
    without a log line. *)
Theorem chat_messages_required (api_key : option string) (llm : list chat_message -> result string)
    (d : list (string * pyval)) :
  truthy (match dict_lookup "messages" d with Some v => v | None => PList [] end) = false ->
  handle_chat api_key llm (Ok (PDict d)) = (jsonify_status error_reply 400, []).
Proof.
  intros Hf. rewrite handle_chat_unfold. unfold chat_try. pystep.
  by rewrite Hf.
Qed.

(** C3: without an API key, the answer is the fallback of the last
    message's content; the view prints its warning and does not call
    the provider. *)
Theorem chat_unconfigured_fallback (api_key : option string) (llm : list chat_message -> result string)
    (d : list (string * pyval)) (xs : list pyval) (x : pyval) (s : string) :
  env_truthy api_key = false ->
  dict_lookup "messages" d = Some (PList xs) -> list.last xs = Some x ->
  getitem_str x "content" = Ok (PStr s) ->
  handle_chat api_key llm (Ok (PDict d)) =
  (jsonify (fallback_reply (fallback_of_lowered (PyStr.lower s))), [LogUnconfigured]).
Proof.
  intros Hk Hd Hx Hs.
  rewrite handle_chat_unfold, (chat_try_step _ _ _ _ _ _ _ Hd Hx (eq_refl _)).
  by rewrite Hs, Hk.
Qed.

(** C4: with an API key, when the provider call fails (or the prompt
    cannot be assembled), the answer is still a 200 carrying the
    fallback of the last message's content. *)
Theorem chat_provider_failure (api_key : option string) (llm : list chat_message -> result string)
    (d : list (string * pyval)) (xs : list pyval) (x context : pyval) (s : string) :
  env_truthy api_key = true ->
  dict_lookup "messages" d = Some (PList xs) -> list.last xs = Some x ->
  getitem_str x "content" = Ok (PStr s) ->
  py_get (PDict d) "context" (PDict []) = Ok context ->
  (forall p, build_chat_messages context (PList xs) = Ok p -> exists e, llm p = Raise e) ->
  (handle_chat api_key llm (Ok (PDict d))).1 =
  jsonify (fallback_reply (fallback_of_lowered (PyStr.lower s))).
Proof.
  intros Hk Hd Hx Hs Hc Hfail.
  rewrite handle_chat_unfold, (chat_try_step _ _ _ _ _ _ _ Hd Hx Hc), Hs, Hk. pystep.
  assert (Hexc : py_get x "content" (PStr "") = Ok (PStr s)) by eauto with pyx.
  destruct (build_chat_messages context (PList xs)) as [p|e] eqn:Hp; pystep.
  - unfold invoke. destruct (Hfail p eq_refl) as [e ->]. pystep.
    by rewrite (chat_except_step _ _ _ _ _ Hd Hx), Hexc.
  - by rewrite (chat_except_step _ _ _ _ _ Hd Hx), Hexc.
Qed.

(** C5: with an API key and a provider that answers, the reply carries
    the provider's text, after exactly one call with the assembled
    prompt; the view logs the number of all the messages (not of the
    ten sent) before the call and the first 100 characters of the reply
    after it. *)
Theorem chat_provider_success (api_key : option string) (llm : list chat_message -> result string)
    (d : list (string * pyval)) (xs : list pyval) (x c0 context : pyval)
    (p : list chat_message) (reply : string) :
  env_truthy api_key = true ->
  dict_lookup "messages" d = Some (PList xs) -> list.last xs = Some x ->
  getitem_str x "content" = Ok c0 ->
  py_get (PDict d) "context" (PDict []) = Ok context ->
  build_chat_messages context (PList xs) = Ok p -> llm p = Ok reply ->
  handle_chat api_key llm (Ok (PDict d)) =
  (jsonify (success_reply reply),
   [LogProcessing (Z.of_nat (length xs)); Invoke p;
    LogGenerated (string_of_list_ascii (take 100 (str_chars reply)))]).
Proof.
  intros Hk Hd Hx Hs Hc Hp Hl.
  rewrite handle_chat_unfold, (chat_try_step _ _ _ _ _ _ _ Hd Hx Hc), Hs, Hk. pystep.
  rewrite Hp. pystep. unfold invoke. by rewrite Hl.
Qed.

(** C14: the events of any request follow one of six shapes (nothing;
    the error log; the missing-key warning, possibly followed by the
    error log; the processing log, the provider call and then the reply
    log or the error log of that call's exception).  Hence a request
    calls the provider at most once (no retry), never when the API key
    is unset, and logs an error exactly when the [try] block raised. *)
Theorem handle_chat_trace_shape (api_key : option string)
    (llm : list chat_message -> result string) (json : result pyval) :
  request_trace llm (handle_chat api_key llm json).2 /\
  length (invocations (handle_chat api_key llm json).2) <= 1 /\
  (env_truthy api_key = false -> invocations (handle_chat api_key llm json).2 = []).
Proof.
  destruct (handle_chat_request_trace api_key llm json) as [Ht Hk].
  split; [done | split; [by eapply request_trace_invocations | done]].
Qed.

(** C15: the status codes of the endpoint: 200 and 400 from the view,
    500 for an exception that escapes it, and the code of the
    [HTTPException] raised by [request.json] on a body that is not JSON. *)
Theorem handle_chat_status (api_key : option string) (llm : list chat_message -> result string)
    (json : result pyval) :
  let st := status (handle_chat api_key llm json).1 in
  (st = 200 \/ st = 400 \/ st = 500)%Z \/ json = Raise (HTTPException st).
Proof.
  simpl. rewrite handle_chat_unfold.
  destruct (chat_try api_key llm json []) as [[r|e] tr] eqn:Ht.
  - apply chat_try_status in Ht. simpl. lia.
  - destruct (chat_except json e tr) as [[r|e'] tr'] eqn:Hx.
    + apply chat_except_status in Hx. simpl. lia.
    + assert (He : (chat_except json e tr).1 = Raise e') by (by rewrite Hx).
      apply chat_except_raise in He as [-> | Hne]; simpl.
      * destruct e'; simpl; auto.
      * destruct e'; simpl; auto. by destruct (Hne code).
Qed.

(** C16: a JSON body that is not an object (an array, a string, a
    number, true/false or null) is answered 500: [data.get] raises in
    the [try] block and again in the [except] block (lines 127, 179),
    after the error log of the first exception. *)
Theorem handle_chat_body_not_object (api_key : option string)
    (llm : list chat_message -> result string) (data : pyval) :
  (forall d, data <> PDict d) ->
  handle_chat api_key llm (Ok data) = (mk_response 500 ErrorPage, [LogError AttributeError]).
Proof. apply handle_chat_not_object. Qed.

(** C17: without an API key, a last message whose [content] is not a
    str (a number, null, a list, an object) is answered 500:
    [user_message.lower()] raises in [get_fallback_response] in the
    [try] block and again in the [except] block. *)
Theorem handle_chat_content_not_str (api_key : option string)
    (llm : list chat_message -> result string) (d : list (string * pyval))
    (xs : list pyval) (x c : pyval) :
  env_truthy api_key = false ->
  dict_lookup "messages" d = Some (PList xs) -> list.last xs = Some x ->
  getitem_str x "content" = Ok c -> (forall s, c <> PStr s) ->
  handle_chat api_key llm (Ok (PDict d)) =
  (mk_response 500 ErrorPage, [LogUnconfigured; LogError AttributeError]).
Proof.
  intros Hk Hd Hx Hc Hns.
  rewrite handle_chat_unfold, (chat_try_step _ _ _ _ _ _ _ Hd Hx (eq_refl _)), Hc, Hk. pystep.
  rewrite (get_fallback_response_not_str _ Hns). pystep.
  rewrite (chat_except_step _ _ _ _ _ Hd Hx), (getitem_str_py_get _ _ _ _ Hc). pystep.
  by rewrite (get_fallback_response_not_str _ Hns).
Qed.

(** C18: with an API key, a [context] that is present but not an object
    (e.g. null) makes [context.get] raise (line 151): the provider is
    never called and the answer is the fallback, however well the
    provider would have answered. *)
Theorem handle_chat_context_not_object (api_key : option string)
    (llm : list chat_message -> result string) (d : list (string * pyval))
    (xs : list pyval) (x context : pyval) (s : string) :
  env_truthy api_key = true ->
  dict_lookup "messages" d = Some (PList xs) -> list.last xs = Some x ->
  getitem_str x "content" = Ok (PStr s) ->
  dict_lookup "context" d = Some context -> (forall d', context <> PDict d') ->
  handle_chat api_key llm (Ok (PDict d)) =
  (jsonify (fallback_reply (fallback_of_lowered (PyStr.lower s))), [LogError AttributeError]).
Proof.
  intros Hk Hd Hx Hs Hc Hnd.
  assert (Hc' : py_get (PDict d) "context" (PDict []) = Ok context) by eauto with pyx.
  rewrite handle_chat_unfold, (chat_try_step _ _ _ _ _ _ _ Hd Hx Hc'), Hs, Hk. pystep.
  assert (Hb : build_chat_messages context (PList xs) = Raise AttributeError).
  { unfold build_chat_messages, context_messages. destruct context; try (by destruct (Hnd d0)); reflexivity. }
  rewrite Hb. pystep.
  rewrite (chat_except_step _ _ _ _ _ Hd Hx), (getitem_str_py_get _ _ _ _ Hs). reflexivity.
Qed.

(** C19: on a console whose encoding cannot encode the emoji that open
    lines 138, 162 and 176 (U+26A0, U+1F916, U+274C; an ASCII or
    Latin-1 stdout), the endpoint never answers 200: a request is
    answered 400 (messages missing) or 500 (the [print] of the [try]
    block raises, and the [print] of the [except] block raises again),
    the provider is never called and nothing is logged. *)
Theorem handle_chat_unencodable_console (C : Console) (api_key : option string)
    (llm : list chat_message -> result string) (json : result pyval) :
  @encodable C 0x26A0 = false -> @encodable C 0x1F916 = false -> @encodable C 0x274C = false ->
  @handle_chat C api_key llm json = (jsonify_status error_reply 400, []) \/
  @handle_chat C api_key llm json = (mk_response 500 ErrorPage, []).
Proof.
  intros H1 H2 H3. unfold handle_chat, chat, try_except.
  destruct (chat_try_unencodable api_key llm json [] H1 H2) as [-> | [e ->]]; [by left|].
  rewrite chat_except_unencodable by done. by right.
Qed.

(** C20: the JSON bodies the endpoint sends have the types of the spec:
    a 400 carries exactly {"error": str}; a 200 carries exactly
    {"success": bool, "message": str, "timestamp": str}, with
    "fallback": bool after them when the text is canned, and "success"
    is always true.  Every other answer is an error page. *)
Theorem handle_chat_json_schema (api_key : option string)
    (llm : list chat_message -> result string) (json : result pyval) (v : pyval) :
  body_of (handle_chat api_key llm json).1 = JsonBody v ->
  (status (handle_chat api_key llm json).1 = 400%Z /\ conforms v error_schema) \/
  (status (handle_chat api_key llm json).1 = 200%Z /\
   (conforms v success_schema \/ conforms v fallback_schema) /\
   py_get v "success" PNone = Ok (PBool true)).
Proof.
  rewrite handle_chat_unfold.
  destruct (chat_try api_key llm json []) as [[r|e] tr] eqn:Ht.
  - apply chat_try_reply in Ht as [-> | [[c ->] | [m ->]]]; cbn; intros [= <-].
    + left. split; [done|]. by repeat constructor.
    + right. split; [done|]. split; [left; by repeat constructor | done].
    + right. split; [done|]. split; [right; by repeat constructor | done].
  - destruct (chat_except json e tr) as [[r'|e'] tr'] eqn:Hx.
    + apply chat_except_reply in Hx as [m ->]. cbn. intros [= <-].
      right. split; [done|]. split; [right; by repeat constructor | done].
    + by destruct e'.
Qed.

(** the log line 167 of a request shows at most 100 characters,
    and they are the beginning of the provider's reply to the prompt of
    the call the same request made. *)
Lemma handle_chat_log_generated (api_key : option string)
    (llm : list chat_message -> result string) (json : result pyval) (h : string) :
  LogGenerated h ∈ (handle_chat api_key llm json).2 ->
  String.length h <= 100 /\
  exists p c, Invoke p ∈ (handle_chat api_key llm json).2 /\ llm p = Ok c /\
    str_chars c = str_chars h ++ drop 100 (str_chars c).
Proof.
  destruct (handle_chat_request_trace api_key llm json) as [Ht _].
  inversion Ht as [| | | |n p c Hl Htr|]; rewrite <- ?Htr; intros Hin;
    repeat (apply elem_of_cons in Hin as [Hin|Hin]); simplify_eq; try by apply not_elem_of_nil in Hin.
  rewrite <- length_str_chars, (str_chars_of_list (take 100 (str_chars c))), length_take.
  split; [lia|]. exists p, c. split; [apply list_elem_of_In; simpl; tauto | split; [done|]].
  by rewrite take_drop.
Qed.

(** ** Witnesses *)

Lemma handle_chat_refines_witness :
  chat_contract None (fun _ => Ok "ok") [("user", "How do I view tariff rates?")]%string []
    (handle_chat None (fun _ => Ok "ok")
       (Ok (PDict [("messages", PList (map client_message [("user", "How do I view tariff rates?")]%string))]))).
Proof. apply (handle_chat_refines None _ _ _ (PDict [])); reflexivity. Defined.

Lemma chat_messages_required_witness :
  handle_chat (Some "key") (fun _ => Ok "ok") (Ok (PDict [("messages", PList [])])) =
  (jsonify_status error_reply 400, []).
Proof. apply chat_messages_required. reflexivity. Defined.

(** The example of section 8 of the spec: no key, "How do I view tariff
    rates?" is answered with the tariff text. *)
Lemma chat_unconfigured_fallback_witness :
  handle_chat None (fun _ => Ok "ok")
    (Ok (PDict [("messages", PList [client_message ("user", "How do I view tariff rates?")])])) =
  (jsonify (fallback_reply "The Tariff Calculator provides real-time import/export tariff calculations using government data. Enter HS codes and select countries to get accurate duty rates and trade information."), [LogUnconfigured]).
Proof.
  rewrite (chat_unconfigured_fallback None _ _ [client_message ("user", "How do I view tariff rates?")]
             (client_message ("user", "How do I view tariff rates?")) "How do I view tariff rates?");
    reflexivity.
Defined.

Lemma chat_provider_failure_witness :
  (handle_chat (Some "key") (fun _ => Raise ProviderError)
     (Ok (PDict [("messages", PList [client_message ("user", "Show my alerts")])]))).1 =
  jsonify (fallback_reply (fallback_of_lowered (PyStr.lower "Show my alerts"))).
Proof.
  apply (chat_provider_failure _ _ _ [client_message ("user", "Show my alerts")]
           (client_message ("user", "Show my alerts")) (PDict [])); try reflexivity.
  intros p _. exists ProviderError. reflexivity.
Defined.

Lemma chat_provider_success_witness :
  handle_chat (Some "key") (fun _ => Ok "Hello")
    (Ok (PDict [("messages", PList [client_message ("user", "hi")])])) =
  (jsonify (success_reply "Hello"),
   [LogProcessing 1; Invoke [SystemMessage (PStr SYSTEM_PROMPT); HumanMessage (PStr "hi")];
    LogGenerated "Hello"]).
Proof.
  apply (chat_provider_success _ _ _ [client_message ("user", "hi")] (client_message ("user", "hi"))
           (PStr "hi") (PDict [])); reflexivity.
Defined.

Lemma handle_chat_trace_shape_witness :
  invocations (handle_chat None (fun _ => Ok "ok")
     (Ok (PDict [("messages", PList [client_message ("user", "hi")])]))).2 = [].
Proof. apply (proj2 (proj2 (handle_chat_trace_shape None _ _))). reflexivity. Defined.

Lemma handle_chat_body_not_object_witness :
  handle_chat (Some "key") (fun _ => Ok "ok") (Ok (PList [])) =
  (mk_response 500 ErrorPage, [LogError AttributeError]).
Proof. apply handle_chat_body_not_object. intros d. discriminate. Defined.

Lemma handle_chat_content_not_str_witness :
  handle_chat None (fun _ => Ok "ok") (Ok (PDict [("messages", PList [PDict [("content", PInt 5)]])])) =
  (mk_response 500 ErrorPage, [LogUnconfigured; LogError AttributeError]).
Proof.
  apply (handle_chat_content_not_str _ _ _ [PDict [("content", PInt 5)]] (PDict [("content", PInt 5)])
           (PInt 5)); try reflexivity.
  intros s. discriminate.
Defined.

Lemma handle_chat_context_not_object_witness :
  handle_chat (Some "key") (fun _ => Ok "ok")
    (Ok (PDict [("messages", PList [client_message ("user", "hi")]); ("context", PNone)])) =
  (jsonify (fallback_reply (fallback_of_lowered (PyStr.lower "hi"))), [LogError AttributeError]).
Proof.
  apply (handle_chat_context_not_object _ _ _ [client_message ("user", "hi")]
           (client_message ("user", "hi")) PNone); try reflexivity.
  intros d. discriminate.
Defined.

Lemma handle_chat_log_generated_witness :
  LogGenerated "Hello" ∈ (handle_chat (Some "key") (fun _ => Ok "Hello")
     (Ok (PDict [("messages", PList [client_message ("user", "hi")])]))).2 /\
  String.length "Hello" <= 100.
Proof.
  assert (H : LogGenerated "Hello" ∈ (handle_chat (Some "key") (fun _ => Ok "Hello")
     (Ok (PDict [("messages", PList [client_message ("user", "hi")])]))).2)
    by (apply list_elem_of_In; vm_compute; tauto).
  split; [exact H | exact (proj1 (handle_chat_log_generated _ _ _ _ H))].
Defined.

Lemma handle_chat_unencodable_console_witness :
  @handle_chat latin1_console (Some "key") (fun _ => Ok "ok")
    (Ok (PDict [("messages", PList [client_message ("user", "hi")])])) = (jsonify_status error_reply 400, []) \/
  @handle_chat latin1_console (Some "key") (fun _ => Ok "ok")
    (Ok (PDict [("messages", PList [client_message ("user", "hi")])])) = (mk_response 500 ErrorPage, []).
Proof. apply handle_chat_unencodable_console; reflexivity. Defined.

(** The request of section 8 of the spec and its body. *)
Definition tariff_request : result pyval :=
  Ok (PDict [("messages", PList [client_message ("user", "How do I view tariff rates?")])]).

Definition tariff_body : pyval :=
  fallback_reply "The Tariff Calculator provides real-time import/export tariff calculations using government data. Enter HS codes and select countries to get accurate duty rates and trade information.".

Lemma handle_chat_json_schema_witness :
  (status (handle_chat None (fun _ => Ok "ok") tariff_request).1 = 400%Z /\
   conforms tariff_body error_schema) \/
  (status (handle_chat None (fun _ => Ok "ok") tariff_request).1 = 200%Z /\
   (conforms tariff_body success_schema \/ conforms tariff_body fallback_schema) /\
   py_get tariff_body "success" PNone = Ok (PBool true)).
Proof. apply handle_chat_json_schema. reflexivity. Defined.

End ChatHandler.
