(* ===== verification/Routes.v ===== *)
(** * The Flask application: URL map, page views and CORS

    The three [@app.route] decorators of src/app.py (lines 115, 119,
    123) build werkzeug's URL map: [/] and [/demo] accept GET (the
    default), [/api/v1/chat] accepts POST.  werkzeug adds HEAD to a rule
    that accepts GET, and Flask adds OPTIONS to every rule
    ([provide_automatic_options]).  A request is routed as werkzeug's
    matcher (2.2 and later) routes it:
    - a path equal to a rule's path: a method the rule accepts runs the
      view (OPTIONS answers 200 with the [Allow] header and runs no
      view; HEAD runs the GET view), any other method answers 405 with
      the [Allow] header;
    - any other path is matched again with its slashes merged, as
      [re.sub("/{2,}?", "/", path)] merges them (each pair [//], from
      the left, becomes [/]): a match answers the redirect 308 to the
      merged path (405 for a method the rule does not accept), no match
      answers 404;
    - the answer to HEAD is sent without its body (werkzeug's
      [Response.get_app_iter]).
    The page views [index()] and [demo()] (lines 116-121) render a
    template of the [templates] folder, which is outside src/: the
    folder's file names are a parameter, and a missing template raises
    jinja2's [TemplateNotFound] (500).  The chat view is
    [ChatHandler.handle_chat].  [CORS(app)] (line 12) with flask_cors's
    defaults (origins '*', [always_send], no credentials, no
    [send_wildcard]) gives every response, error pages included, the
    header [Access-Control-Allow-Origin]: the request's [Origin] when it
    has one, '*' otherwise.

    The theorems: [POST /api/v1/chat] is the chat endpoint plus the CORS
    header; no other request runs the chat view, calls the provider or
    logs; the 404 and 405 answers; every response carries the CORS
    header; HEAD answers as GET without the body. *)

From stdpp Require Import base list strings.
From Stdlib Require Import String Ascii ZArith Lia.
From S2P Require Import Prelude PyStr PyValue Fallback Prompt Log ChatHandler.

Module Routes.
Import PyStr PyValue Prompt Log ChatHandler.

(** ** HTTP requests and responses *)

Inductive method : Type := GET | HEAD | POST | PUT | DELETE | PATCH | OPTIONS.

#[export] Instance method_eq_dec : EqDecision method.
Proof. solve_decision. Defined.

Inductive endpoint : Type := EIndex | EDemo | EChat.

#[export] Instance endpoint_eq_dec : EqDecision endpoint.
Proof. solve_decision. Defined.

Record rule : Type := mk_rule { rule_path : string; rule_methods : list method; rule_endpoint : endpoint }.

#[export] Instance rule_eq_dec : EqDecision rule.
Proof. solve_decision. Defined.

Record request : Type := mk_request {
  req_method : method;
  req_path : string;
  req_origin : option string;          (** the [Origin] header *)
  req_json : result pyval              (** what [request.json] gives *)
}.

(** The body sent: the view's JSON, a rendered template, werkzeug's
    HTML error page, nothing, the redirect to a location, or the
    traceback page of werkzeug's debugger (debug mode, see
    [App.debugged]). *)
Inductive rbody : Type :=
| RJson (v : pyval)
| RTemplate (name : string)
| RErrorPage
| REmpty
| RRedirect (location : string)
| RDebugger.

Record http_response : Type := mk_http {
  hstatus : Z;
  hbody : rbody;
  hallow : list method;                (** the [Allow] header, [] when absent *)
  hacao : option string                (** [Access-Control-Allow-Origin] *)
}.

(** ** The URL map *)

(** Lines 115, 119 and 123. *)
Definition url_map : list rule :=
  [mk_rule "/" [GET] EIndex; mk_rule "/demo" [GET] EDemo; mk_rule "/api/v1/chat" [POST] EChat].

(** The methods a rule answers: HEAD with GET (werkzeug's [Rule]),
    OPTIONS always (Flask's [add_url_rule]). *)
Definition rule_allowed (r : rule) : list method :=
  let ms := rule_methods r in
  (if bool_decide (GET ∈ ms) && negb (bool_decide (HEAD ∈ ms)) then ms ++ [HEAD] else ms)
  ++ [OPTIONS].

Fixpoint find_rule (path : string) (rs : list rule) : option rule :=
  match rs with
  | [] => None
  | r :: rs' => if String.eqb (rule_path r) path then Some r else find_rule path rs'
  end.

(** [re.sub("/{2,}?", "/", path)]: the lazy quantifier matches two
    slashes, so each pair from the left becomes one slash. *)
Fixpoint merge_pairs (l : list ascii) : list ascii :=
  match l with
  | c :: l' =>
      match l' with
      | d :: l'' =>
          if Ascii.eqb c "/" && Ascii.eqb d "/" then "/"%char :: merge_pairs l''
          else c :: merge_pairs l'
      | [] => [c]
      end
  | [] => []
  end.

Definition merge_slashes (path : string) : string :=
  string_of_list_ascii (merge_pairs (str_chars path)).

(** ** The views *)

Section App.

(** The names of the files of the [templates] folder. *)
Variable templates : list string.
(** The configuration and the client of the chat view. *)
Variable api_key : option string.
Variable llm : list chat_message -> result string.

(** [render_template(name)]. *)
Definition render_template (name : string) : result rbody :=
  if bool_decide (name ∈ templates) then Ok (RTemplate name) else Raise TemplateNotFound.

(** Lines 115-117 and 119-121. *)
Definition index_view : result rbody := render_template "index.html".
Definition demo_view : result rbody := render_template "demo.html".

(** A page view's outcome as Flask answers it. *)
Definition page (r : result rbody) : http_response :=
  match r with
  | Ok b => mk_http 200 b [] None
  | Raise _ => mk_http 500 RErrorPage [] None
  end.

(** The chat endpoint's answer as an HTTP response. *)
Definition of_view (r : response) : http_response :=
  mk_http (status r) (match body_of r with JsonBody v => RJson v | ErrorPage => RErrorPage end) [] None.

Definition run_view (e : endpoint) (req : request) : http_response * list event :=
  match e with
  | EIndex => (page index_view, [])
  | EDemo => (page demo_view, [])
  | EChat => let '(r, tr) := handle_chat api_key llm (req_json req) in (of_view r, tr)
  end.

(** werkzeug's [Response.get_app_iter]: the answer to HEAD has no body. *)
Definition drop_body (r : http_response) : http_response :=
  mk_http (hstatus r) REmpty (hallow r) (hacao r).

Definition not_found : http_response := mk_http 404 RErrorPage [] None.

Definition method_not_allowed (allowed : list method) : http_response :=
  mk_http 405 RErrorPage allowed None.

(** A request whose path is a rule's path. *)
Definition route_rule (r : rule) (req : request) : http_response * list event :=
  let allowed := rule_allowed r in
  if bool_decide (req_method req ∈ allowed) then
    if bool_decide (req_method req = OPTIONS) then (mk_http 200 REmpty allowed None, [])
    else run_view (rule_endpoint r) req
  else (method_not_allowed allowed, []).

(** werkzeug's matcher: the path, then the path with merged slashes. *)
Definition route (req : request) : http_response * list event :=
  match find_rule (req_path req) url_map with
  | Some r => route_rule r req
  | None =>
      let merged := merge_slashes (req_path req) in
      match find_rule merged url_map with
      | Some r =>
          if bool_decide (req_method req ∈ rule_allowed r)
          then (mk_http 308 (RRedirect merged) [] None, [])
          else (method_not_allowed (rule_allowed r), [])
      | None => (not_found, [])
      end
  end.

(** flask_cors's [get_cors_origins] with origins '*': the request's
    origin is echoed, '*' is sent when it has none ([always_send]). *)
Definition cors_origin (origin : option string) : string :=
  match origin with Some o => o | None => "*" end.

(** flask_cors's [after_request] with the defaults of [CORS(app)]. *)
Definition add_cors (origin : option string) (r : http_response) : http_response :=
  mk_http (hstatus r) (hbody r) (hallow r) (Some (cors_origin origin)).

(** The application: one request, its response and its events. *)
Definition dispatch (req : request) : http_response * list event :=
  let '(resp, tr) := route req in
  let resp := add_cors (req_origin req) resp in
  (if bool_decide (req_method req = HEAD) then drop_body resp else resp, tr).

End App.

(** ** Lemmas *)

(** Refutes [H : m ∈ l] for a concrete method and list. *)
Ltac mem_false H := let Hb := fresh in pose proof (bool_decide_pack _ H) as Hb; by vm_compute in Hb.

Lemma find_rule_Some (p : string) (rs : list rule) (r : rule) :
  find_rule p rs = Some r -> r ∈ rs /\ rule_path r = p.
Proof.
  induction rs as [|r' rs IH]; simpl; [done|].
  destruct (String.eqb_spec (rule_path r') p); intros H.
  - injection H as <-. split; [apply elem_of_cons; by left | done].
  - destruct (IH H). split; [apply elem_of_cons; by right | done].
Qed.

Lemma find_rule_None (p : string) (rs : list rule) :
  p ∉ map rule_path rs -> find_rule p rs = None.
Proof.
  induction rs as [|r rs IH]; simpl; [done|]. rewrite elem_of_cons. intros Hn.
  destruct (String.eqb_spec (rule_path r) p); [by destruct Hn; left | auto].
Qed.

Lemma url_map_cases (r : rule) :
  r ∈ url_map ->
  r = mk_rule "/" [GET] EIndex \/ r = mk_rule "/demo" [GET] EDemo \/
  r = mk_rule "/api/v1/chat" [POST] EChat.
Proof.
  intros H. repeat (apply elem_of_cons in H as [->|H]; [tauto|]). by apply elem_of_nil in H.
Qed.

(** The paths of the URL map are distinct: a rule is found by its path. *)
Lemma find_rule_url_map (r : rule) : r ∈ url_map -> find_rule (rule_path r) url_map = Some r.
Proof. intros H. by apply url_map_cases in H as [-> | [-> | ->]]. Qed.

(** Every rule of the map answers HEAD exactly when it answers GET. *)
Lemma rule_allowed_head_get (r : rule) :
  r ∈ url_map -> bool_decide (HEAD ∈ rule_allowed r) = bool_decide (GET ∈ rule_allowed r).
Proof. intros H. by apply url_map_cases in H as [-> | [-> | ->]]. Qed.

(** Merging slashes leaves a path without [//] unchanged. *)
Lemma merge_pairs_id (p : string) : py_in "//" p = false -> merge_pairs (str_chars p) = str_chars p.
Proof.
  induction p as [|c h IH]; [done|]. intros H. cbn [py_in] in H.
  apply orb_false_iff in H as [H1 H2]. specialize (IH H2).
  destruct h as [|d h']; [done|]. unfold str_chars in *. cbn [list_ascii_of_string] in *.
  cbn [startswith] in H1. rewrite andb_true_r in H1. cbn [merge_pairs].
  rewrite (Ascii.eqb_sym c), (Ascii.eqb_sym d), H1. by f_equal.
Qed.

Lemma merge_slashes_id (p : string) : py_in "//" p = false -> merge_slashes p = p.
Proof.
  intros H. unfold merge_slashes. rewrite merge_pairs_id by done.
  apply string_of_list_ascii_of_string.
Qed.

Lemma dispatch_route (templates : list string) (api_key : option string)
    (llm : list chat_message -> result string) (req : request) :
  dispatch templates api_key llm req =
  (let r := add_cors (req_origin req) (route templates api_key llm req).1 in
   if bool_decide (req_method req = HEAD) then drop_body r else r,
   (route templates api_key llm req).2).
Proof. unfold dispatch. by destruct (route templates api_key llm req). Qed.

(** A request leaves no event, or exactly the events of the chat
    endpoint on its body. *)
Lemma dispatch_trace (templates : list string) (api_key : option string)
    (llm : list chat_message -> result string) (req : request) :
  (dispatch templates api_key llm req).2 = [] \/
  (dispatch templates api_key llm req).2 = (handle_chat api_key llm (req_json req)).2.
Proof.
  rewrite dispatch_route. cbn [snd]. unfold route.
  destruct (find_rule (req_path req) url_map) as [r|].
  - unfold route_rule. repeat case_bool_decide; try by left.
    destruct (rule_endpoint r); cbn; try by left.
    right. by destruct (handle_chat api_key llm (req_json req)).
  - destruct (find_rule (merge_slashes (req_path req)) url_map); [case_bool_decide|]; by left.
Qed.

(** The chat endpoint's answer to a POST. *)
Lemma dispatch_chat_view (templates : list string) (api_key : option string)
    (llm : list chat_message -> result string) (o : option string) (json : result pyval) :
  dispatch templates api_key llm (mk_request POST "/api/v1/chat" o json) =
  (add_cors o (of_view (handle_chat api_key llm json).1), (handle_chat api_key llm json).2).
Proof.
  unfold dispatch, route, route_rule. cbn -[handle_chat].
  by destruct (handle_chat api_key llm json).
Qed.

(** ** Theorems *)

(** C23: a POST to [/api/v1/chat] is answered by the chat endpoint,
    with its status, its JSON or error page and its events, and with
    the CORS header of the request's origin. *)
Theorem dispatch_chat (templates : list string) (api_key : option string)
    (llm : list chat_message -> result string) (o : option string) (json : result pyval) :
  dispatch templates api_key llm (mk_request POST "/api/v1/chat" o json) =
  (add_cors o (of_view (handle_chat api_key llm json).1), (handle_chat api_key llm json).2).
Proof. apply dispatch_chat_view. Qed.

(** C24: only a POST to [/api/v1/chat] runs the chat view: every other
    request (the pages, OPTIONS, HEAD, a wrong method, an unknown path,
    a redirect) leaves no event, so it neither calls the provider nor
    logs. *)
Theorem dispatch_events_chat_only (templates : list string) (api_key : option string)
    (llm : list chat_message -> result string) (req : request) :
  (dispatch templates api_key llm req).2 <> [] ->
  req_method req = POST /\ req_path req = "/api/v1/chat".
Proof.
  rewrite dispatch_route. cbn [snd]. unfold route.
  destruct (find_rule (req_path req) url_map) as [r|] eqn:Hf.
  - apply find_rule_Some in Hf as [Hr Hp].
    apply url_map_cases in Hr as [-> | [-> | ->]]; unfold route_rule; cbn in Hp |- *;
      repeat case_bool_decide; try done.
    intros _. split; [|done]. destruct (req_method req); try done; mem_false H.
  - destruct (find_rule (merge_slashes (req_path req)) url_map); [case_bool_decide|]; done.
Qed.

(** C25: a request for a path that is not a route and has no [//] is
    answered 404, with the CORS header, whatever its method; no view
    runs. *)
Theorem dispatch_not_found (templates : list string) (api_key : option string)
    (llm : list chat_message -> result string) (req : request) :
  py_in "//" (req_path req) = false -> req_path req ∉ map rule_path url_map ->
  hstatus (dispatch templates api_key llm req).1 = 404%Z /\
  hacao (dispatch templates api_key llm req).1 = Some (cors_origin (req_origin req)) /\
  (dispatch templates api_key llm req).2 = [].
Proof.
  intros Hs Hn. rewrite dispatch_route. unfold route.
  rewrite find_rule_None, merge_slashes_id, find_rule_None by done.
  cbn. by case_bool_decide.
Qed.

(** C26: a request for a route with a method the route does not answer
    (e.g. GET on [/api/v1/chat], POST on [/]) is answered 405 with the
    [Allow] header listing the route's methods, HEAD and OPTIONS
    included, and the CORS header; no view runs. *)
Theorem dispatch_method_not_allowed (templates : list string) (api_key : option string)
    (llm : list chat_message -> result string) (req : request) (r : rule) :
  r ∈ url_map -> req_path req = rule_path r -> req_method req ∉ rule_allowed r ->
  hstatus (dispatch templates api_key llm req).1 = 405%Z /\
  hallow (dispatch templates api_key llm req).1 = rule_allowed r /\
  hacao (dispatch templates api_key llm req).1 = Some (cors_origin (req_origin req)) /\
  (dispatch templates api_key llm req).2 = [].
Proof.
  intros Hr Hp Hm. rewrite dispatch_route. unfold route. rewrite Hp, find_rule_url_map by done.
  unfold route_rule. rewrite (bool_decide_eq_false_2 (req_method req ∈ rule_allowed r)) by done.
  cbn. by case_bool_decide.
Qed.

(** HEAD is answered as GET, on every path: the same status,
    headers and events, without the body. *)
Lemma dispatch_head (templates : list string) (api_key : option string)
    (llm : list chat_message -> result string) (p : string) (o : option string)
    (j : result pyval) :
  dispatch templates api_key llm (mk_request HEAD p o j) =
  (drop_body (dispatch templates api_key llm (mk_request GET p o j)).1,
   (dispatch templates api_key llm (mk_request GET p o j)).2).
Proof.
  rewrite !dispatch_route. cbn [req_method req_path req_origin fst snd].
  rewrite bool_decide_eq_true_2, bool_decide_eq_false_2 by done.
  unfold route. cbn [req_path req_method].
  destruct (find_rule p url_map) as [r|] eqn:Hf.
  - apply find_rule_Some in Hf as [Hr _]. unfold route_rule. cbn [req_method].
    rewrite (rule_allowed_head_get r Hr). case_bool_decide; [|done].
    rewrite !bool_decide_eq_false_2 by done. by destruct (rule_endpoint r).
  - destruct (find_rule (merge_slashes p) url_map) as [r|] eqn:Hf'; [|done].
    apply find_rule_Some in Hf' as [Hr _]. rewrite (rule_allowed_head_get r Hr). by case_bool_decide.
Qed.

(** ** Witnesses *)

(** Decides a closed membership goal. *)
Ltac mem_decide := apply (bool_decide_unpack _); vm_compute; exact I.

Lemma dispatch_events_chat_only_witness :
  (dispatch [] (Some "key") (fun _ => Ok "Hello")
     (mk_request POST "/api/v1/chat" None
        (Ok (PDict [("messages", PList [client_message ("user", "hi")])])))).2 <> [] /\
  POST = POST /\ "/api/v1/chat" = "/api/v1/chat".
Proof.
  assert (H : (dispatch [] (Some "key") (fun _ => Ok "Hello")
     (mk_request POST "/api/v1/chat" None
        (Ok (PDict [("messages", PList [client_message ("user", "hi")])])))).2 <> [])
    by (vm_compute; intros Hc; discriminate Hc).
  split; [exact H | exact (dispatch_events_chat_only _ _ _ _ H)].
Defined.

Lemma dispatch_not_found_witness :
  hstatus (dispatch [] None (fun _ => Ok "ok") (mk_request GET "/about" None (Ok PNone))).1 = 404%Z.
Proof.
  refine (proj1 (dispatch_not_found [] None _ (mk_request GET "/about" None (Ok PNone)) _ _));
    [reflexivity | mem_decide].
Defined.

(** GET on the chat endpoint: 405, Allow: POST, OPTIONS. *)
Lemma dispatch_method_not_allowed_witness :
  hallow (dispatch [] None (fun _ => Ok "ok") (mk_request GET "/api/v1/chat" None (Ok PNone))).1 =
  [POST; OPTIONS].
Proof.
  refine (proj1 (proj2 (dispatch_method_not_allowed [] None _
            (mk_request GET "/api/v1/chat" None (Ok PNone)) (mk_rule "/api/v1/chat" [POST] EChat) _ _ _)));
    [mem_decide | reflexivity | mem_decide].
Defined.

End Routes.
