(* ===== verification/Env.v ===== *)
(** * The process environment and [load_dotenv()]

    [os.environ] is a map from names to str values ([environ], a stdpp
    [gmap]); [os.getenv(k)] is its lookup.  [load_dotenv()] (src/app.py
    line 9) is python-dotenv's [DotEnv.set_as_environment_variables]
    with [override=False]: the [.env] file gives a dict (a later line for
    the same name overrides an earlier one; a line without [=] gives the
    value [None]), then every name of the dict that the environment does
    not have yet is set to its value, unless the value is [None].  The
    parsing of the file and the expansion of [${VAR}] references are
    not modelled: the parsed lines are the input [entries].

    The lemma [load_dotenv_lookup]: [load_dotenv] never overrides a
    variable the process already has, and sets each other name to the
    last value the file gives it.  The theorem: loading twice is loading
    once. *)

From stdpp Require Import base list strings gmap.
From Stdlib Require Import String.
From S2P Require Import Prelude.

Module Env.

(** [os.environ]. *)
Abbreviation environ := (gmap string string) (only parsing).

(** [os.getenv(k)]. *)
Definition getenv (env : environ) (k : string) : option string := env !! k.

(** [DotEnv.dict()]: the parsed lines as a dict. *)
Definition dotenv_values (entries : list (string * option string)) : gmap string (option string) :=
  fold_left (fun m kv => <[kv.1 := kv.2]> m) entries ∅.

(** One iteration of [for k, v in self.dict().items()] with
    [override=False]. *)
Definition set_var (k : string) (v : option string) (env : environ) : environ :=
  if bool_decide (is_Some (env !! k)) then env
  else match v with Some s => <[k := s]> env | None => env end.

(** [load_dotenv()]. *)
Definition load_dotenv (entries : list (string * option string)) (env : environ) : environ :=
  map_fold set_var env (dotenv_values entries).

(** ** Lemmas *)

(** Inserting the lines into a dict: each name ends with its last value. *)
Lemma fold_insert_lookup (entries : list (string * option string)) (m : gmap string (option string))
    (k : string) :
  fold_left (fun m kv => <[kv.1 := kv.2]> m) entries m !! k =
  match list.last (omap (fun kv => if String.eqb kv.1 k then Some kv.2 else None) entries) with
  | Some v => Some v
  | None => m !! k
  end.
Proof.
  revert m; induction entries as [|[k' v] l IH]; intros m; [done|].
  cbn [fold_left fst snd]. rewrite IH. cbn [omap list_omap fst snd].
  destruct (String.eqb_spec k' k) as [<-|Hne].
  - rewrite list.last_cons. destruct (list.last (omap _ l)); [done|].
    by rewrite lookup_insert_eq.
  - by rewrite lookup_insert_ne by done.
Qed.

Lemma dotenv_values_lookup (entries : list (string * option string)) (k : string) :
  dotenv_values entries !! k = list.last (omap (fun kv => if String.eqb kv.1 k then Some kv.2 else None) entries).
Proof. unfold dotenv_values. rewrite fold_insert_lookup. by destruct (list.last _). Qed.

(** After [load_dotenv()], a variable the process had keeps its value,
    and a variable it did not have takes the last value the [.env] file
    gives it (none when the file does not give a value). *)
Lemma load_dotenv_lookup (entries : list (string * option string)) (env : environ) (k : string) :
  load_dotenv entries env !! k =
  match env !! k with
  | Some v => Some v
  | None => dotenv_values entries !! k ≫= id
  end.
Proof.
  unfold load_dotenv. generalize (dotenv_values entries) as D. intros D. revert k.
  apply (map_fold_weak_ind
           (fun r m => forall k, r !! k = match env !! k with Some v => Some v | None => m !! k ≫= id end)).
  - intros k. rewrite lookup_empty. by destruct (env !! k).
  - intros i x m r Hi IH k. unfold set_var.
    pose proof (IH i) as Hri. rewrite Hi in Hri.
    case_bool_decide as Hs.
    + destruct (env !! i) as [v0|] eqn:Ei; [|by rewrite Hri in Hs; inversion Hs].
      destruct (decide (k = i)) as [->|Hne]; [by rewrite Hri, Ei|].
      by rewrite IH, lookup_insert_ne.
    + destruct (env !! i) as [v0|] eqn:Ei; [by destruct Hs; rewrite Hri|].
      destruct (decide (k = i)) as [->|Hne].
      * rewrite Ei, lookup_insert_eq.
        destruct x as [s|]; [by rewrite lookup_insert_eq | by rewrite Hri].
      * rewrite lookup_insert_ne by done. rewrite <- IH.
        destruct x as [s|]; [by rewrite lookup_insert_ne|done].
Qed.

(** ** Theorems *)

(** [load_dotenv()] is idempotent: loading the same [.env] file
    into an environment that has already loaded it changes nothing (as
    in the child process of Flask's reloader, which inherits the
    environment and imports the module again). *)
Lemma load_dotenv_idempotent (entries : list (string * option string)) (env : environ) :
  load_dotenv entries (load_dotenv entries env) = load_dotenv entries env.
Proof.
  apply map_eq. intros k. rewrite !load_dotenv_lookup.
  destruct (env !! k); [done|]. by destruct (dotenv_values entries !! k ≫= id).
Qed.

End Env.
