(* ===== verification/PyInt.v ===== *)
(** * Python's [int(x)] and its round trip with [str(n)]

    [int(os.getenv('PORT', 3001))] (src/app.py:190) converts a str or an
    int.  CPython's [int(s)] on a str (base 10): surrounding whitespace is
    ignored (the Unicode whitespace of the Latin-1 range: 9-13, 28-32,
    133 and 160), then an optional sign, then decimal digits in which a
    single underscore may separate two digits; anything else raises
    [ValueError].  [int(n)] of an int is [n], of a bool 0 or 1, and any
    other value raises [TypeError].

    The theorem: [int] inverts [str] on every int, whatever whitespace
    surrounds the digits. *)

From stdpp Require Import base list strings.
From Stdlib Require Import String Ascii ZArith Lia DecimalString DecimalPos.
From S2P Require Import Prelude PyStr PyValue.

Module PyInt.
Import PyValue.

(** ** Operations *)

Definition is_space (c : ascii) : bool :=
  let n := nat_of_ascii c in
  ((9 <=? n) && (n <=? 13)) || ((28 <=? n) && (n <=? 32)) || (n =? 133) || (n =? 160).

Definition is_digit (c : ascii) : bool :=
  let n := nat_of_ascii c in (48 <=? n) && (n <=? 57).

Definition digit_value (c : ascii) : Z := Z.of_nat (nat_of_ascii c - 48).

(** Leading whitespace removed. *)
Fixpoint lstrip (l : list ascii) : list ascii :=
  match l with
  | c :: l' => if is_space c then lstrip l' else l
  | [] => []
  end.

Definition strip (l : list ascii) : list ascii := rev (lstrip (rev (lstrip l))).

(** The digits of a literal, left to right, into [acc]; [after_digit]
    records that the previous character was a digit, which an
    underscore needs, and that the literal may end here. *)
Fixpoint digits_value (l : list ascii) (acc : Z) (after_digit : bool) : option Z :=
  match l with
  | [] => if after_digit then Some acc else None
  | c :: l' =>
      if is_digit c then digits_value l' (10 * acc + digit_value c) true
      else if Ascii.eqb c "_"%char && after_digit then digits_value l' acc false
      else None
  end.

(** A stripped literal: an optional sign, then the digits. *)
Definition parse_stripped (l : list ascii) : option Z :=
  match l with
  | "-"%char :: r => option_map Z.opp (digits_value r 0 false)
  | "+"%char :: r => digits_value r 0 false
  | r => digits_value r 0 false
  end.

(** [PyLong_FromString] in base 10, after stripping. *)
Definition parse_int (l : list ascii) : option Z := parse_stripped (strip l).

(** [int(x)]. *)
Definition py_int (v : pyval) : result Z :=
  match v with
  | PInt z => Ok z
  | PBool b => Ok (Z.b2z b)
  | PStr s => match parse_int (str_chars s) with Some z => Ok z | None => Raise ValueError end
  | _ => Raise TypeError
  end.

(** The value of the decimal digits [d] after the digits already read
    into [acc]. *)
Fixpoint uint_value (d : Decimal.uint) (acc : Z) : Z :=
  match d with
  | Decimal.Nil => acc
  | Decimal.D0 d => uint_value d (10 * acc)
  | Decimal.D1 d => uint_value d (10 * acc + 1)
  | Decimal.D2 d => uint_value d (10 * acc + 2)
  | Decimal.D3 d => uint_value d (10 * acc + 3)
  | Decimal.D4 d => uint_value d (10 * acc + 4)
  | Decimal.D5 d => uint_value d (10 * acc + 5)
  | Decimal.D6 d => uint_value d (10 * acc + 6)
  | Decimal.D7 d => uint_value d (10 * acc + 7)
  | Decimal.D8 d => uint_value d (10 * acc + 8)
  | Decimal.D9 d => uint_value d (10 * acc + 9)
  end.

(** ** Lemmas *)

Lemma uint_value_of_uint_acc (d : Decimal.uint) (p : positive) :
  uint_value d (Z.pos p) = Z.pos (Pos.of_uint_acc d p).
Proof. revert p; induction d; intros p; simpl; try rewrite <- IHd; f_equal; try lia. Qed.

Lemma uint_value_of_uint (d : Decimal.uint) : uint_value d 0 = Z.of_N (Pos.of_uint d).
Proof.
  induction d; simpl; try done.
  all: rewrite <- uint_value_of_uint_acc; f_equal.
Qed.

Lemma digits_value_uint (d : Decimal.uint) (acc : Z) :
  digits_value (str_chars (NilEmpty.string_of_uint d)) acc true = Some (uint_value d acc).
Proof.
  unfold str_chars. revert acc; induction d; intros acc; simpl; try done;
    rewrite IHd; do 2 f_equal; unfold digit_value; simpl; lia.
Qed.

Lemma digits_value_uint_start (d : Decimal.uint) :
  d <> Decimal.Nil ->
  digits_value (str_chars (NilEmpty.string_of_uint d)) 0 false = Some (uint_value d 0).
Proof. destruct d; intros Hd; try done; unfold str_chars; simpl; by rewrite <- digits_value_uint. Qed.

Lemma uint_chars_no_space (d : Decimal.uint) :
  Forall (fun c => is_space c = false) (str_chars (NilEmpty.string_of_uint d)).
Proof. unfold str_chars. induction d; simpl; auto. Qed.

Lemma lstrip_no_space (l : list ascii) :
  Forall (fun c => is_space c = false) l -> lstrip l = l.
Proof. destruct l as [|c l]; simpl; [done|]. intros Hl. apply Forall_cons in Hl as [-> _]. done. Qed.

Lemma lstrip_spaces (ws l : list ascii) :
  Forall (fun c => is_space c = true) ws -> lstrip (ws ++ l) = lstrip l.
Proof. induction 1 as [|c ws Hc _ IH]; simpl; [done|]. by rewrite Hc. Qed.

(** Stripping whitespace around a literal without whitespace at its
    ends gives the literal back. *)
Lemma strip_around (ws1 ws2 l : list ascii) :
  Forall (fun c => is_space c = true) ws1 -> Forall (fun c => is_space c = true) ws2 ->
  Forall (fun c => is_space c = false) l ->
  strip (ws1 ++ l ++ ws2) = l.
Proof.
  intros H1 H2 Hl. unfold strip. rewrite lstrip_spaces by done.
  destruct l as [|c l'].
  - simpl. rewrite <- (app_nil_r ws2), lstrip_spaces by done. done.
  - assert (Hc : is_space c = false) by (by apply Forall_cons in Hl as [? _]).
    assert (Hl2 : lstrip ((c :: l') ++ ws2) = (c :: l') ++ ws2) by (simpl; by rewrite Hc).
    rewrite Hl2, rev_app_distr, lstrip_spaces by (by apply Forall_rev).
    rewrite lstrip_no_space by (by apply Forall_rev). apply rev_involutive.
Qed.

Lemma str_of_Z_no_space (z : Z) :
  Forall (fun c => is_space c = false) (str_chars (str_of_Z z)).
Proof.
  unfold str_of_Z. destruct z as [|p|p]; simpl; [by repeat constructor| |].
  all: pose proof (DecimalPos.Unsigned.to_uint_nonnil p) as Hp;
    destruct (Pos.to_uint p); try congruence; simpl;
    repeat (constructor; [done|]); apply uint_chars_no_space.
Qed.

Lemma string_of_uint_nonnil (d : Decimal.uint) :
  d <> Decimal.Nil -> NilZero.string_of_uint d = NilEmpty.string_of_uint d.
Proof. by destruct d. Qed.

Lemma parse_stripped_uint (d : Decimal.uint) :
  d <> Decimal.Nil ->
  parse_stripped (str_chars (NilEmpty.string_of_uint d)) = Some (uint_value d 0).
Proof. intros Hd. rewrite <- digits_value_uint_start by done. by destruct d. Qed.

(** The literal printed by [str(z)] parses back to [z]. *)
Lemma parse_stripped_str_of_Z (z : Z) : parse_stripped (str_chars (str_of_Z z)) = Some z.
Proof.
  unfold str_of_Z. destruct z as [|p|p]; [done| |]; simpl;
    pose proof (DecimalPos.Unsigned.to_uint_nonnil p) as Hp;
    rewrite string_of_uint_nonnil by done.
  - rewrite parse_stripped_uint, uint_value_of_uint, DecimalPos.Unsigned.of_to by done. done.
  - cbn [str_chars list_ascii_of_string parse_stripped String.append].
    rewrite digits_value_uint_start, uint_value_of_uint, DecimalPos.Unsigned.of_to by done. done.
Qed.

Lemma parse_int_str_of_Z (z : Z) (ws1 ws2 : list ascii) :
  Forall (fun c => is_space c = true) ws1 -> Forall (fun c => is_space c = true) ws2 ->
  parse_int (ws1 ++ str_chars (str_of_Z z) ++ ws2) = Some z.
Proof.
  intros H1 H2. unfold parse_int.
  rewrite strip_around by auto using str_of_Z_no_space. apply parse_stripped_str_of_Z.
Qed.

(** ** Theorems *)

(** [int] inverts [str] on ints: for every int [z], the text of
    [str(z)] with any whitespace before and after it converts back to
    [z] under [int()]. *)
Theorem py_int_str_roundtrip (z : Z) (ws1 ws2 : list ascii) :
  Forall (fun c => is_space c = true) ws1 -> Forall (fun c => is_space c = true) ws2 ->
  py_int (PStr (string_of_list_ascii (ws1 ++ str_chars (str_of_Z z) ++ ws2))) = Ok z.
Proof. intros H1 H2. cbn [py_int]. by rewrite str_chars_of_list, parse_int_str_of_Z. Qed.

(** ** Witnesses *)

Lemma py_int_str_roundtrip_witness :
  py_int (PStr (string_of_list_ascii ([" "%char] ++ str_chars (str_of_Z (-3001)%Z) ++ [ascii_of_nat 10])))
  = Ok (-3001)%Z.
Proof. apply py_int_str_roundtrip; repeat constructor. Defined.

End PyInt.
