(* ===== verification/Json.v ===== *)
(** * [jsonify]: the JSON text of a response, and its decoding

    Every answer of the chat view is [jsonify(obj)] (src/app.py lines
    131, 140, 169, 182).  Flask's [DefaultJSONProvider.response] writes
    [json.dumps(obj, ensure_ascii=True, sort_keys=True, ...)] followed by
    a newline; in debug mode ([app.run(..., debug=True)], line 193) the
    text is indented by two spaces with the separators [(',', ': ')],
    otherwise it is compact with [(',', ':')].  The encoder of the
    standard library ([json.encoder]) is modelled as it is written:
    - [py_encode_basestring_ascii]: every character outside space to
      tilde is escaped, the double quote and the backslash by a backslash, the five control
      characters with a short escape, the others as [\u00XX] in
      lower-case hex;
    - [_iterencode_list] and [_iterencode_dict]: an empty container is
      [[]] or [{}]; otherwise each item is on a line of its own, one
      indentation level deeper, and a dict's items are [sorted] by key.

    The text is a list of characters: the body's bytes, since the text
    is ASCII (the theorem [flask_json_text_ascii]).

    The reference decoder is [json.loads] ([JSONDecoder.decode] with
    [py_scanstring], [JSONArray], [JSONObject] and the [NUMBER_RE] of
    [json.scanner]) on the values this development represents: it
    answers [None] for a text that is not JSON and for one that denotes
    a float, [NaN], [Infinity] or a character beyond U+00FF (outside
    the model).  A decoded object keeps the first position and the last
    value of a repeated key, as [dict(pairs)] does.

    The theorems: the text of every well-formed value decodes to the
    value with its dicts sorted by key, which is equal to it under
    Python's [==] (a round trip), and the text is printable ASCII
    whatever the value holds. *)

From stdpp Require Import base list strings.
From Stdlib Require Import String Ascii ZArith Lia DecimalString DecimalPos.
From Stdlib Require DecimalFacts.
From S2P Require Import Prelude PyStr PyValue PyInt.

Module Json.
Import PyValue PyInt.

(** The characters of a JSON text. *)
Abbreviation text := (list ascii).

Definition nl : ascii := chr 10.

(** ** Python's [==] on values

    [True == 1] and [False == 0] (a bool is an int); two dicts are equal
    when they have the same length and every key of the first maps, in
    the second, to an equal value. *)
Definition num_of (v : pyval) : option Z :=
  match v with PBool b => Some (Z.b2z b) | PInt z => Some z | _ => None end.

(** [all(f(a, b) for a, b in zip(l, m))] for lists of the same length. *)
Fixpoint all2 {A B} (f : A -> B -> bool) (l : list A) (m : list B) : bool :=
  match l, m with
  | [], [] => true
  | a :: l', b :: m' => f a b && all2 f l' m'
  | _, _ => false
  end.

(** [x == y] ([PyObject_RichCompare]: [list_richcompare],
    [dict_equal], [long_richcompare], [unicode_compare_eq]). *)
Fixpoint py_eq (x y : pyval) : bool :=
  match x, y with
  | PNone, PNone => true
  | PStr s, PStr t => String.eqb s t
  | PList l, PList m => all2 py_eq l m
  | PDict d, PDict e =>
      (length d =? length e) &&
      forallb (fun kv => match dict_lookup kv.1 e with Some b => py_eq kv.2 b | None => false end) d
  | _, _ =>
      match num_of x, num_of y with Some m, Some n => Z.eqb m n | _, _ => false end
  end.

(** ** The encoder *)

(** One character of [py_encode_basestring_ascii] ([ESCAPE_ASCII],
    [ESCAPE_DCT]). *)
Definition escape_ascii_char (c : ascii) : text :=
  let n := nat_of_ascii c in
  if Ascii.eqb c dquote then [backslash; dquote]
  else if Ascii.eqb c backslash then [backslash; backslash]
  else if (32 <=? n) && (n <=? 126) then [c]
  else if n =? 8 then [backslash; "b"%char]
  else if n =? 12 then [backslash; "f"%char]
  else if n =? 10 then [backslash; "n"%char]
  else if n =? 13 then [backslash; "r"%char]
  else if n =? 9 then [backslash; "t"%char]
  else [backslash; "u"%char; "0"%char; "0"%char; hex_digit (n / 16); hex_digit (n mod 16)].

Definition encode_basestring_ascii (s : string) : text :=
  dquote :: flat_map escape_ascii_char (str_chars s) ++ [dquote].

(** [sorted(dct.items())]: an insertion sort on the keys (a dict's keys
    are distinct, so the order of the values never matters). *)
Fixpoint insert_item {A} (kv : string * A) (l : list (string * A)) : list (string * A) :=
  match l with
  | [] => [kv]
  | kv' :: l' => if String.ltb kv'.1 kv.1 then kv' :: insert_item kv l' else kv :: l
  end.

Fixpoint sort_items {A} (l : list (string * A)) : list (string * A) :=
  match l with
  | [] => []
  | kv :: l' => insert_item kv (sort_items l')
  end.

(** [indent]: [None] is compact ([separators=(',', ':')]), [Some k] is
    [indent=k] with the separators [(',', ': ')]. *)
Definition newline_indent (indent : option nat) (level : nat) : text :=
  match indent with None => [] | Some k => nl :: repeat " "%char (k * level) end.

Definition key_separator (indent : option nat) : text :=
  match indent with None => [":"%char] | Some _ => [":"%char; " "%char] end.

Definition join_items (sep : text) (items : list text) : text :=
  match items with [] => [] | x :: xs => x ++ flat_map (fun y => sep ++ y) xs end.

(** A list or dict of [level] with its encoded items. *)
Definition container (o c : ascii) (indent : option nat) (level : nat) (items : list text) : text :=
  match items with
  | [] => [o; c]
  | _ => o :: newline_indent indent (S level)
           ++ join_items (","%char :: newline_indent indent (S level)) items
           ++ newline_indent indent level ++ [c]
  end.

Definition encode_item (indent : option nat) (kv : string * text) : text :=
  encode_basestring_ascii kv.1 ++ key_separator indent ++ kv.2.

(** [_iterencode] at indentation [level]. *)
Fixpoint encode (indent : option nat) (level : nat) (v : pyval) : text :=
  match v with
  | PNone => str_chars "null"
  | PBool true => str_chars "true"
  | PBool false => str_chars "false"
  | PInt z => str_chars (str_of_Z z)
  | PStr s => encode_basestring_ascii s
  | PList l => container "[" "]" indent level (map (encode indent (S level)) l)
  | PDict d =>
      container "{" "}" indent level
        (map (encode_item indent) (sort_items (map (fun kv => (kv.1, encode indent (S level) kv.2)) d)))
  end.

(** [DefaultJSONProvider.response]: the body of [jsonify(v)]. *)
Definition flask_json_text (debug : bool) (v : pyval) : text :=
  encode (if debug then Some 2 else None) 0 v ++ [nl].

(** ** The decoder *)

Definition is_ws (c : ascii) : bool :=
  Ascii.eqb c " " || Ascii.eqb c (chr 9) || Ascii.eqb c nl || Ascii.eqb c (chr 13).

(** [WHITESPACE.match(s, end).end()]. *)
Fixpoint skip_ws (l : text) : text :=
  match l with
  | c :: r => if is_ws c then skip_ws r else l
  | [] => []
  end.

Definition hex_value (c : ascii) : option nat :=
  let n := nat_of_ascii c in
  if (48 <=? n) && (n <=? 57) then Some (n - 48)
  else if (97 <=? n) && (n <=? 102) then Some (n - 87)
  else if (65 <=? n) && (n <=? 70) then Some (n - 55)
  else None.

(** [BACKSLASH] of [json.decoder]. *)
Definition unescape (e : ascii) : option ascii :=
  if Ascii.eqb e dquote then Some dquote
  else if Ascii.eqb e backslash then Some backslash
  else if Ascii.eqb e "/" then Some "/"%char
  else if Ascii.eqb e "b" then Some (chr 8)
  else if Ascii.eqb e "f" then Some (chr 12)
  else if Ascii.eqb e "n" then Some nl
  else if Ascii.eqb e "r" then Some (chr 13)
  else if Ascii.eqb e "t" then Some (chr 9)
  else None.

(** [py_scanstring] with [strict=True], after the opening quote: the
    characters of the str and the text after the closing quote. *)
Fixpoint scanstring (l : text) : option (text * text) :=
  match l with
  | [] => None
  | c :: r =>
      if Ascii.eqb c dquote then Some ([], r)
      else if Ascii.eqb c backslash then
        match r with
        | "u"%char :: a :: b :: c' :: d :: r' =>
            match hex_value a, hex_value b, hex_value c', hex_value d with
            | Some x1, Some x2, Some x3, Some x4 =>
                let n := ((x1 * 16 + x2) * 16 + x3) * 16 + x4 in
                if n <? 256 then '(cs, r'') ← scanstring r'; Some (chr n :: cs, r'')
                else None
            | _, _, _, _ => None
            end
        | e :: r' =>
            match unescape e with
            | Some d => '(cs, r'') ← scanstring r'; Some (d :: cs, r'')
            | None => None
            end
        | [] => None
        end
      else if nat_of_ascii c <? 32 then None
      else '(cs, r') ← scanstring r; Some (c :: cs, r')
  end.

Fixpoint span_digits (l : text) : text * text :=
  match l with
  | c :: r => if is_digit c then let '(ds, r') := span_digits r in (c :: ds, r') else ([], l)
  | [] => ([], [])
  end.

Definition digits_to_Z (ds : text) : Z :=
  fold_left (fun acc c => 10 * acc + digit_value c)%Z ds 0%Z.

(** The integer part of [NUMBER_RE]: [0|[1-9]\d*]. *)
Definition scan_uint (l : text) : option (Z * text) :=
  match l with
  | "0"%char :: r => Some (0%Z, r)
  | c :: r => if is_digit c then let '(ds, r') := span_digits r in Some (digits_to_Z (c :: ds), r')
              else None
  | [] => None
  end.

(** [NUMBER_RE] without a fraction or an exponent, whose presence makes a
    float. *)
Definition scan_number (l : text) : option (Z * text) :=
  let '(neg, l') := match l with
                    | c :: r => if Ascii.eqb c "-" then (true, r) else (false, l)
                    | [] => (false, l)
                    end in
  '(n, r) ← scan_uint l';
  match r with
  | c :: _ => if Ascii.eqb c "." || Ascii.eqb c "e" || Ascii.eqb c "E" then None
              else Some (if neg then (- n)%Z else n, r)
  | [] => Some (if neg then (- n)%Z else n, r)
  end.

(** [s[end:end + 1] == c]. *)
Definition starts_with (c : ascii) (l : text) : bool :=
  match l with c' :: _ => Ascii.eqb c' c | [] => false end.

(** [d[k] = v] on a dict: a present key keeps its position. *)
Fixpoint dict_setitem (k : string) (v : pyval) (d : list (string * pyval)) : list (string * pyval) :=
  match d with
  | [] => [(k, v)]
  | (k', v') :: d' => if String.eqb k k' then (k', v) :: d' else (k', v') :: dict_setitem k v d'
  end.

(** [scan_once], [JSONArray] after its [[] and [JSONObject] after its
    [{]; [fuel] bounds the nesting and the number of items. *)
Fixpoint scan_value (fuel : nat) (l : text) : option (pyval * text) :=
  match fuel with
  | O => None
  | S f =>
      match l with
      | [] => None
      | c :: r =>
          if Ascii.eqb c dquote then
            '(cs, r') ← scanstring r; Some (PStr (string_of_list_ascii cs), r')
          else if Ascii.eqb c "[" then
            let r' := skip_ws r in
            if starts_with "]" r' then Some (PList [], tail r')
            else '(vs, r'') ← scan_elems f r'; Some (PList vs, r'')
          else if Ascii.eqb c "{" then
            let r' := skip_ws r in
            if starts_with "}" r' then Some (PDict [], tail r')
            else '(d, r'') ← scan_members f r' []; Some (PDict d, r'')
          else if Ascii.eqb c "n" then
            match r with "u"%char :: "l"%char :: "l"%char :: r' => Some (PNone, r') | _ => None end
          else if Ascii.eqb c "t" then
            match r with "r"%char :: "u"%char :: "e"%char :: r' => Some (PBool true, r') | _ => None end
          else if Ascii.eqb c "f" then
            match r with
            | "a"%char :: "l"%char :: "s"%char :: "e"%char :: r' => Some (PBool false, r')
            | _ => None
            end
          else '(z, r') ← scan_number l; Some (PInt z, r')
      end
  end
with scan_elems (fuel : nat) (l : text) : option (list pyval * text) :=
  match fuel with
  | O => None
  | S f =>
      '(v, r) ← scan_value f (skip_ws l);
      match skip_ws r with
      | ","%char :: r' => '(vs, r'') ← scan_elems f r'; Some (v :: vs, r'')
      | "]"%char :: r' => Some ([v], r')
      | _ => None
      end
  end
with scan_members (fuel : nat) (l : text) (acc : list (string * pyval))
    : option (list (string * pyval) * text) :=
  match fuel with
  | O => None
  | S f =>
      match skip_ws l with
      | c :: r =>
          if Ascii.eqb c dquote then
            '(k, r1) ← scanstring r;
            match skip_ws r1 with
            | ":"%char :: r2 =>
                '(v, r3) ← scan_value f (skip_ws r2);
                let acc' := dict_setitem (string_of_list_ascii k) v acc in
                match skip_ws r3 with
                | ","%char :: r4 => scan_members f r4 acc'
                | "}"%char :: r4 => Some (acc', r4)
                | _ => None
                end
            | _ => None
            end
          else None
      | [] => None
      end
  end.

(** [json.loads(s)]: one value, with only whitespace around it. *)
Definition json_loads (l : text) : option pyval :=
  '(v, r) ← scan_value (S (length l)) (skip_ws l);
  match skip_ws r with [] => Some v | _ => None end.

(** ** The value a text decodes to: its dicts sorted by key *)
Fixpoint json_sorted (v : pyval) : pyval :=
  match v with
  | PList l => PList (map json_sorted l)
  | PDict d => PDict (sort_items (map (fun kv => (kv.1, json_sorted kv.2)) d))
  | _ => v
  end.

(** The fuel the decoder needs for a value: one per value and per item. *)
Fixpoint json_size (v : pyval) : nat :=
  match v with
  | PList l => S (sum_list_with (fun x => S (json_size x)) l)
  | PDict d => S (sum_list_with (fun kv => S (json_size kv.2)) d)
  | _ => 1
  end.

(** ** Lemmas *)

(** The characters that may follow a value in an encoded text. *)
Definition value_end (r : text) : bool :=
  match r with
  | [] => true
  | c :: _ => Ascii.eqb c "," || Ascii.eqb c "]" || Ascii.eqb c "}" || Ascii.eqb c nl
  end.

(** Induction on values with a hypothesis for each item of a list or
    dict. *)
Lemma pyval_ind' (P : pyval -> Prop) :
  P PNone -> (forall b, P (PBool b)) -> (forall z, P (PInt z)) -> (forall s, P (PStr s)) ->
  (forall l, Forall P l -> P (PList l)) ->
  (forall d, Forall (fun kv => P kv.2) d -> P (PDict d)) ->
  forall v, P v.
Proof.
  intros H0 H1 H2 H3 H4 H5. fix IH 1. intros [| | | |l|d].
  - exact H0.
  - apply H1.
  - apply H2.
  - apply H3.
  - apply H4. induction l as [|x l IHl]; constructor; [apply IH | exact IHl].
  - apply H5. induction d as [|kv d IHd]; constructor; [apply IH | exact IHd].
Qed.

(** *** Whitespace *)

Lemma skip_ws_newline_indent (indent : option nat) (k : nat) (l : text) :
  skip_ws (newline_indent indent k ++ l) = skip_ws l.
Proof. destruct indent as [n|]; [|done]. simpl. by induction (n * k). Qed.

Lemma skip_ws_cons (c : ascii) (l : text) : is_ws c = false -> skip_ws (c :: l) = c :: l.
Proof. simpl. by intros ->. Qed.

(** *** Strings *)

(** The decoder reads back one escaped character.  Checked on each of
    the 256 characters. *)
Lemma scanstring_escape_char (c : ascii) (l : text) :
  scanstring (escape_ascii_char c ++ l) = '(cs, r) ← scanstring l; Some (c :: cs, r).
Proof. destruct c as [[] [] [] [] [] [] [] []]; reflexivity. Qed.

Lemma scanstring_escape (cs rest : text) :
  scanstring (flat_map escape_ascii_char cs ++ dquote :: rest) = Some (cs, rest).
Proof.
  induction cs as [|c cs IH]; [done|]. cbn [flat_map].
  by rewrite <- app_assoc, scanstring_escape_char, IH.
Qed.

Lemma scan_value_str (s : string) (fuel : nat) (rest : text) :
  scan_value (S fuel) (encode_basestring_ascii s ++ rest) = Some (PStr s, rest).
Proof.
  unfold encode_basestring_ascii. cbn [app scan_value Ascii.eqb dquote].
  rewrite <- app_assoc. cbn [app]. rewrite scanstring_escape. simpl.
  by rewrite string_of_list_ascii_of_string.
Qed.

Lemma scanstring_key (s : string) (rest : text) :
  scanstring (tail (encode_basestring_ascii s) ++ rest) = Some (str_chars s, rest).
Proof. unfold encode_basestring_ascii. cbn [tail]. rewrite <- app_assoc. apply scanstring_escape. Qed.

(** *** Integers *)

Lemma value_end_not_digit (c : ascii) (r : text) : value_end (c :: r) = true -> is_digit c = false.
Proof. destruct c as [[] [] [] [] [] [] [] []]; done. Qed.

Lemma value_end_no_fraction (c : ascii) (r : text) :
  value_end (c :: r) = true -> (Ascii.eqb c "." || Ascii.eqb c "e" || Ascii.eqb c "E") = false.
Proof. destruct c as [[] [] [] [] [] [] [] []]; done. Qed.

Lemma span_digits_end (r : text) : value_end r = true -> span_digits r = ([], r).
Proof. destruct r as [|c r]; [done|]. intros H. simpl. by rewrite (value_end_not_digit c r H). Qed.

Lemma span_digits_uint (d : Decimal.uint) (r : text) :
  value_end r = true ->
  span_digits (str_chars (NilEmpty.string_of_uint d) ++ r) = (str_chars (NilEmpty.string_of_uint d), r).
Proof.
  intros Hr. unfold str_chars. induction d; simpl; try (by rewrite span_digits_end); by rewrite IHd.
Qed.

Lemma fold_digits_uint (d : Decimal.uint) (acc : Z) :
  fold_left (fun acc c => 10 * acc + digit_value c)%Z (str_chars (NilEmpty.string_of_uint d)) acc
  = uint_value d acc.
Proof.
  unfold str_chars. revert acc; induction d; intros acc; simpl; try done;
    rewrite IHd; f_equal; unfold digit_value; simpl; lia.
Qed.

(** The decimal digits of a positive number do not start with 0. *)
Lemma to_uint_head (p : positive) :
  match Pos.to_uint p with Decimal.Nil | Decimal.D0 _ => False | _ => True end.
Proof.
  pose proof (DecimalPos.Unsigned.to_uint_nonzero p) as Hz.
  pose proof (DecimalPos.Unsigned.to_of (Pos.to_uint p)) as E.
  rewrite DecimalPos.Unsigned.of_to in E. cbn [N.to_uint] in E.
  destruct (Pos.to_uint p) as [|d|d|d|d|d|d|d|d|d|d]; try exact I.
  - by apply (DecimalPos.Unsigned.to_uint_nonnil p).
  - rewrite DecimalFacts.unorm_D0 in E.
    assert (Hd : d <> Decimal.Nil) by (intros ->; by apply Hz).
    pose proof (DecimalFacts.nb_digits_unorm d Hd) as Hn.
    apply (f_equal Decimal.nb_digits) in E. cbn [Decimal.nb_digits] in E. lia.
Qed.

Lemma scan_uint_pos (p : positive) (r : text) :
  value_end r = true ->
  scan_uint (str_chars (NilEmpty.string_of_uint (Pos.to_uint p)) ++ r) = Some (Z.pos p, r).
Proof.
  intros Hr. replace (Z.pos p) with (uint_value (Pos.to_uint p) 0)
    by (by rewrite uint_value_of_uint, DecimalPos.Unsigned.of_to).
  rewrite <- fold_digits_uint.
  pose proof (to_uint_head p) as Hh. destruct (Pos.to_uint p) as [|d|d|d|d|d|d|d|d|d|d];
    try contradiction; unfold str_chars; simpl; rewrite span_digits_uint by done; done.
Qed.

Lemma scan_number_tail (neg : bool) (n : Z) (r : text) :
  value_end r = true ->
  match r with
  | c :: _ => if Ascii.eqb c "." || Ascii.eqb c "e" || Ascii.eqb c "E" then None
              else Some (if neg then (- n)%Z else n, r)
  | [] => Some (if neg then (- n)%Z else n, r)
  end = Some (if neg then (- n)%Z else n, r).
Proof. destruct r as [|c r']; [done|]. intros Hr. by rewrite (value_end_no_fraction c r' Hr). Qed.

Lemma uint_chars_head (p : positive) :
  exists c t, str_chars (NilEmpty.string_of_uint (Pos.to_uint p)) = c :: t /\ Ascii.eqb c "-" = false.
Proof.
  pose proof (to_uint_head p) as Hh.
  destruct (Pos.to_uint p); try contradiction; by do 2 eexists.
Qed.

Lemma scan_number_str_of_Z (z : Z) (r : text) :
  value_end r = true -> scan_number (str_chars (str_of_Z z) ++ r) = Some (z, r).
Proof.
  intros Hr. unfold str_of_Z. destruct z as [|p|p].
  - exact (scan_number_tail false 0 r Hr).
  - change (Z.to_int (Z.pos p)) with (Decimal.Pos (Pos.to_uint p)). cbn [NilZero.string_of_int].
    rewrite string_of_uint_nonnil by apply DecimalPos.Unsigned.to_uint_nonnil.
    destruct (uint_chars_head p) as (c & t & E & Hc). unfold scan_number.
    rewrite E. cbn [app]. rewrite Hc. change (c :: t ++ r) with ((c :: t) ++ r).
    rewrite <- E, scan_uint_pos by done. exact (scan_number_tail false (Z.pos p) r Hr).
  - change (Z.to_int (Z.neg p)) with (Decimal.Neg (Pos.to_uint p)). cbn [NilZero.string_of_int].
    rewrite string_of_uint_nonnil by apply DecimalPos.Unsigned.to_uint_nonnil.
    unfold scan_number. cbn [str_chars list_ascii_of_string String.append app].
    change (Ascii.eqb "-" "-") with true. cbn iota beta.
    fold (str_chars (NilEmpty.string_of_uint (Pos.to_uint p))).
    rewrite scan_uint_pos by done. exact (scan_number_tail true (Z.pos p) r Hr).
Qed.

(** *** The first character of an encoded value *)

Definition number_head (c : ascii) : bool := is_digit c || Ascii.eqb c "-".

Lemma str_of_Z_head (z : Z) :
  exists c t, str_chars (str_of_Z z) = c :: t /\ number_head c = true.
Proof.
  unfold str_of_Z. destruct z as [|p|p]; [by do 2 eexists| |].
  all: change (Z.to_int (Z.pos p)) with (Decimal.Pos (Pos.to_uint p));
    change (Z.to_int (Z.neg p)) with (Decimal.Neg (Pos.to_uint p)); cbn [NilZero.string_of_int];
    pose proof (to_uint_head p) as Hh; destruct (Pos.to_uint p); try contradiction; by do 2 eexists.
Qed.

Lemma scan_value_number (c : ascii) (l : text) (f : nat) :
  number_head c = true -> scan_value (S f) (c :: l) = '(z, r) ← scan_number (c :: l); Some (PInt z, r).
Proof. destruct c as [[] [] [] [] [] [] [] []]; done. Qed.

(** An encoded value starts with a character that is not whitespace and
    does not close a container. *)
Definition value_head (c : ascii) : bool :=
  negb (is_ws c) && negb (Ascii.eqb c "]") && negb (Ascii.eqb c "}").

Lemma number_value_head (c : ascii) : number_head c = true -> value_head c = true.
Proof. destruct c as [[] [] [] [] [] [] [] []]; done. Qed.

Lemma container_head (o c : ascii) (indent : option nat) (level : nat) (items : list text) :
  exists t, container o c indent level items = o :: t.
Proof. destruct items; by eexists. Qed.

Lemma encode_head (indent : option nat) (level : nat) (v : pyval) :
  exists c t, encode indent level v = c :: t /\ value_head c = true.
Proof.
  destruct v as [| [] |z|s|l|d]; cbn [encode]; try by do 2 eexists.
  all: try (edestruct container_head as [t ->]; by do 2 eexists).
  destruct (str_of_Z_head z) as (c & t & -> & Hc). exists c, t. split; [done|].
  by apply number_value_head.
Qed.

Lemma skip_ws_encode (indent : option nat) (level : nat) (v : pyval) (r : text) :
  skip_ws (encode indent level v ++ r) = encode indent level v ++ r.
Proof.
  destruct (encode_head indent level v) as (c & t & -> & Hc). apply skip_ws_cons.
  unfold value_head in Hc. by destruct (is_ws c).
Qed.

Lemma starts_with_encode (indent : option nat) (level : nat) (v : pyval) (r : text) (c : ascii) :
  c = "]"%char \/ c = "}"%char -> starts_with c (encode indent level v ++ r) = false.
Proof.
  intros Hc. destruct (encode_head indent level v) as (c' & t & -> & Hh). simpl.
  unfold value_head in Hh. destruct Hc as [->| ->];
    destruct (Ascii.eqb c' "]"), (Ascii.eqb c' "}"); by rewrite ?andb_false_r in Hh.
Qed.

(** *** Sorting the items of a dict *)

Lemma insert_item_map {A B} (f : A -> B) (kv : string * A) (l : list (string * A)) :
  insert_item (kv.1, f kv.2) (map (fun kv => (kv.1, f kv.2)) l)
  = map (fun kv => (kv.1, f kv.2)) (insert_item kv l).
Proof. induction l as [|kv' l IH]; simpl; [done|]. destruct (String.ltb _ _); simpl; by rewrite ?IH. Qed.

Lemma sort_items_map {A B} (f : A -> B) (l : list (string * A)) :
  sort_items (map (fun kv => (kv.1, f kv.2)) l) = map (fun kv => (kv.1, f kv.2)) (sort_items l).
Proof. induction l as [|kv l IH]; simpl; [done|]. by rewrite IH, insert_item_map. Qed.

Lemma insert_item_perm {A} (kv : string * A) (l : list (string * A)) : insert_item kv l ≡ₚ kv :: l.
Proof.
  induction l as [|kv' l IH]; simpl; [done|]. destruct (String.ltb _ _); [|done].
  rewrite IH. apply perm_swap.
Qed.

Lemma sort_items_perm {A} (l : list (string * A)) : sort_items l ≡ₚ l.
Proof. induction l as [|kv l IH]; simpl; [done|]. by rewrite insert_item_perm, IH. Qed.

#[local] Hint Resolve sort_items_perm : pyx.

(** *** Containers *)

Lemma container_cons (o c : ascii) (indent : option nat) (level : nat) (items : list text) :
  items <> [] ->
  container o c indent level items
  = o :: newline_indent indent (S level)
      ++ join_items (","%char :: newline_indent indent (S level)) items
      ++ newline_indent indent level ++ [c].
Proof. by destruct items. Qed.

Lemma join_items_cons2 (sep x y : text) (l : list text) :
  join_items sep (x :: y :: l) = x ++ sep ++ join_items sep (y :: l).
Proof. simpl. by rewrite !app_assoc. Qed.

Lemma skip_ws_idem (l : text) : skip_ws (skip_ws l) = skip_ws l.
Proof. induction l as [|c l IH]; simpl; [done|]. destruct (is_ws c) eqn:E; [done|]. simpl. by rewrite E. Qed.

Lemma value_end_close (indent : option nat) (k : nat) (c : ascii) (r : text) :
  c = "]"%char \/ c = "}"%char -> value_end (newline_indent indent k ++ c :: r) = true.
Proof. by destruct indent; intros [-> | ->]. Qed.

Lemma skip_ws_close (indent : option nat) (k : nat) (c : ascii) (r : text) :
  c = "]"%char \/ c = "}"%char -> skip_ws (newline_indent indent k ++ c :: r) = c :: r.
Proof. intros Hc. rewrite skip_ws_newline_indent. by destruct Hc as [-> | ->]. Qed.

Lemma scan_elems_skip (fuel : nat) (l : text) : scan_elems fuel (skip_ws l) = scan_elems fuel l.
Proof. destruct fuel; simpl; by rewrite ?skip_ws_idem. Qed.

Lemma scan_members_skip (fuel : nat) (l : text) acc :
  scan_members fuel (skip_ws l) acc = scan_members fuel l acc.
Proof. destruct fuel; simpl; by rewrite ?skip_ws_idem. Qed.

Lemma dict_setitem_fresh (k : string) (v : pyval) (d : list (string * pyval)) :
  k ∉ map fst d -> dict_setitem k v d = d ++ [(k, v)].
Proof.
  induction d as [|[k' v'] d IH]; simpl; [done|]. rewrite not_elem_of_cons.
  intros [Hk Hd]. destruct (String.eqb_spec k k'); [done|]. by rewrite IH.
Qed.

(** The item of a dict, after its key: the separator and the value. *)
Lemma scan_item_key (indent : option nat) (t : text) :
  exists r2, skip_ws (key_separator indent ++ t) = ":"%char :: r2 /\ skip_ws r2 = skip_ws t.
Proof. destruct indent; by eexists. Qed.

(** *** Texts that start a value *)

Definition starts_value (t : text) : Prop := exists c t', t = c :: t' /\ value_head c = true.

Lemma starts_value_app (t r : text) : starts_value t -> starts_value (t ++ r).
Proof. intros (c & t' & -> & Hc). by exists c, (t' ++ r). Qed.

Lemma skip_ws_value (t : text) : starts_value t -> skip_ws t = t.
Proof.
  intros (c & t' & -> & Hc). apply skip_ws_cons. unfold value_head in Hc. by destruct (is_ws c).
Qed.

Lemma starts_with_value (t : text) (c : ascii) :
  c = "]"%char \/ c = "}"%char -> starts_value t -> starts_with c t = false.
Proof.
  intros Hc (c' & t' & -> & Hh). simpl. unfold value_head in Hh. destruct Hc as [-> | ->];
    destruct (Ascii.eqb c' "]"), (Ascii.eqb c' "}"); by rewrite ?andb_false_r in Hh.
Qed.

Lemma join_items_value (sep x : text) (xs : list text) :
  starts_value x -> starts_value (join_items sep (x :: xs)).
Proof. intros Hx. by apply starts_value_app. Qed.

Lemma encode_value (indent : option nat) (level : nat) (v : pyval) : starts_value (encode indent level v).
Proof. apply encode_head. Qed.

Lemma encode_item_value (indent : option nat) (kv : string * text) : starts_value (encode_item indent kv).
Proof. by eexists _, _. Qed.

Lemma join_map_value {A} (f : A -> text) (sep : text) (x : A) (l : list A) :
  starts_value (f x) -> starts_value (join_items sep (map f (x :: l))).
Proof. apply join_items_value. Qed.

#[local] Hint Resolve starts_value_app join_map_value encode_value encode_item_value : pyx.

Lemma encode_list (indent : option nat) (level : nat) (l : list pyval) :
  encode indent level (PList l) = container "[" "]" indent level (map (encode indent (S level)) l).
Proof. reflexivity. Qed.

Lemma encode_dict (indent : option nat) (level : nat) (d : list (string * pyval)) :
  encode indent level (PDict d) =
  container "{" "}" indent level
    (map (encode_item indent) (sort_items (map (fun kv => (kv.1, encode indent (S level) kv.2)) d))).
Proof. reflexivity. Qed.

Lemma scan_value_open_list (f : nat) (r : text) :
  scan_value (S f) ("["%char :: r) =
  if starts_with "]" (skip_ws r) then Some (PList [], tail (skip_ws r))
  else '(vs, r'') ← scan_elems f (skip_ws r); Some (PList vs, r'').
Proof. reflexivity. Qed.

Lemma scan_value_open_dict (f : nat) (r : text) :
  scan_value (S f) ("{"%char :: r) =
  if starts_with "}" (skip_ws r) then Some (PDict [], tail (skip_ws r))
  else '(d, r'') ← scan_members f (skip_ws r) []; Some (PDict d, r'').
Proof. reflexivity. Qed.

(** *** The round trip, item by item *)

(** *** The fuel of [json_loads] is enough *)

Lemma sum_list_with_mono {A} (f g : A -> nat) (l : list A) :
  Forall (fun x => f x <= g x) l -> sum_list_with f l <= sum_list_with g l.
Proof. induction 1; simpl; lia. Qed.

Lemma sum_list_with_map {A B} (f : B -> nat) (g : A -> B) (l : list A) :
  sum_list_with f (map g l) = sum_list_with (fun x => f (g x)) l.
Proof. induction l; simpl; lia. Qed.

Lemma length_join_items (sep : text) (items : list text) :
  items <> [] ->
  length (join_items sep items) + length sep = sum_list_with (fun t => length t + length sep) items.
Proof.
  destruct items as [|x xs]; [done|]. intros _. simpl. rewrite length_app.
  induction xs as [|y xs IH]; simpl; rewrite ?length_app in *; lia.
Qed.

Lemma length_container (o c : ascii) (indent : option nat) (level : nat) (items : list text) :
  S (sum_list_with (fun t => S (length t)) items) <= length (container o c indent level items).
Proof.
  destruct items as [|x xs] eqn:E; [simpl; lia|]. rewrite <- E, container_cons by (by subst).
  pose proof (length_join_items (","%char :: newline_indent indent (S level)) items ltac:(by subst)).
  assert (sum_list_with (fun t => S (length t)) items
          <= sum_list_with (fun t => length t + length (","%char :: newline_indent indent (S level))) items)
    by (apply sum_list_with_mono, Forall_forall; simpl; lia).
  cbn [length] in *. rewrite !length_app. simpl. lia.
Qed.

Lemma json_size_encode (indent : option nat) (v : pyval) :
  forall level, json_size v <= length (encode indent level v).
Proof.
  induction v as [| b | z | s | l IH | d IH] using pyval_ind'; intros level.
  1-4: match goal with |- json_size ?v <= _ =>
         destruct (encode_head indent level v) as (c & t & E & _); rewrite E; simpl; lia end.
  - rewrite encode_list. etransitivity; [|apply length_container].
    cbn [json_size]. rewrite sum_list_with_map. apply le_n_S, sum_list_with_mono.
    eapply Forall_impl; [done|]. intros x Hx. specialize (Hx (S level)). lia.
  - rewrite encode_dict, sort_items_map. etransitivity; [|apply length_container].
    cbn [json_size]. rewrite !sum_list_with_map, <- (sort_items_perm d) at 1.
    apply le_n_S, sum_list_with_mono. rewrite sort_items_perm.
    eapply Forall_impl; [done|]. intros [k x] Hx. specialize (Hx (S level)).
    unfold encode_item. cbn [fst snd] in *. rewrite !length_app. lia.
Qed.

(** *** Python's [==] *)

Lemma dict_lookup_NoDup (d : list (string * pyval)) (k : string) (v : pyval) :
  NoDup (map fst d) -> (k, v) ∈ d -> dict_lookup k d = Some v.
Proof.
  induction d as [|[k' v'] d IH]; simpl; [by rewrite elem_of_nil|].
  rewrite NoDup_cons, elem_of_cons. intros [Hk Hnd] [[= -> ->] | Hin].
  - by rewrite String.eqb_refl.
  - destruct (String.eqb_spec k k') as [->|]; [|by apply IH].
    exfalso. apply Hk. apply list_elem_of_fmap_2 with (f := fst) in Hin. done.
Qed.

Lemma py_eq_json_sorted (v : pyval) : wf_pyval v = true -> py_eq (json_sorted v) v = true.
Proof.
  induction v as [| b | z | s | l IH | d IH] using pyval_ind'; intros Hwf; cbn [json_sorted py_eq].
  - done.
  - simpl. apply Z.eqb_refl.
  - apply Z.eqb_refl.
  - apply String.eqb_refl.
  - cbn [wf_pyval] in Hwf. induction l as [|x l IHl]; [done|]. simpl in Hwf |- *.
    apply andb_true_iff in Hwf as [Hx Hl]. apply Forall_cons in IH as [IHx IH].
    rewrite IHx, IHl; done.
  - cbn [wf_pyval] in Hwf. apply andb_true_iff in Hwf as [Hnd Hwf]. apply bool_decide_eq_true in Hnd.
    rewrite sort_items_map, length_map, (Permutation_length (sort_items_perm d)), Nat.eqb_refl.
    cbn [andb].
    apply forallb_forall. intros [k a] Hin. apply list_elem_of_In, list_elem_of_fmap in Hin
      as ([k' v'] & [= -> ->] & Hin). rewrite sort_items_perm in Hin.
    cbn [fst snd]. rewrite (dict_lookup_NoDup d k' v') by done.
    eapply Forall_forall in IH; [|done]. apply IH.
    eapply forallb_forall in Hwf; [done|]. by apply list_elem_of_In.
Qed.

(** [x == 'k'] of the view (lines 157-159) is Python's [==] with a
    str. *)
Lemma eq_str_py_eq (x : pyval) (k : string) : eq_str x k = py_eq x (PStr k).
Proof. by destruct x. Qed.

(** *** The characters of the text *)

Definition json_char (c : ascii) : bool :=
  ((32 <=? nat_of_ascii c) && (nat_of_ascii c <=? 126)) || Ascii.eqb c nl.

Lemma uint_chars_json (d : Decimal.uint) :
  Forall (fun c => json_char c = true) (str_chars (NilEmpty.string_of_uint d)).
Proof. unfold str_chars. induction d; simpl; constructor; done. Qed.

Lemma str_of_Z_json (z : Z) : Forall (fun c => json_char c = true) (str_chars (str_of_Z z)).
Proof.
  unfold str_of_Z. destruct z as [|p|p]; simpl; [by repeat constructor| |].
  all: pose proof (DecimalPos.Unsigned.to_uint_nonnil p) as Hp;
    destruct (Pos.to_uint p); try congruence; simpl;
    repeat first [apply uint_chars_json | constructor; [done|]].
Qed.

Lemma escape_ascii_char_json (c : ascii) : Forall (fun c => json_char c = true) (escape_ascii_char c).
Proof. destruct c as [[] [] [] [] [] [] [] []]; repeat constructor. Qed.

Lemma newline_indent_json (indent : option nat) (k : nat) :
  Forall (fun c => json_char c = true) (newline_indent indent k).
Proof. destruct indent as [n|]; simpl; [|done]. constructor; [done|]. induction (n * k); by constructor. Qed.

Lemma flat_map_json {A} (f : A -> text) (l : list A) :
  Forall (fun x => Forall (fun c => json_char c = true) (f x)) l ->
  Forall (fun c => json_char c = true) (flat_map f l).
Proof. induction 1; simpl; [done|]. by apply Forall_app. Qed.

Lemma encode_basestring_ascii_json (s : string) :
  Forall (fun c => json_char c = true) (encode_basestring_ascii s).
Proof.
  constructor; [done|]. apply Forall_app. split; [|by repeat constructor].
  apply flat_map_json, Forall_forall. intros c _. apply escape_ascii_char_json.
Qed.

Lemma container_json (o c : ascii) (indent : option nat) (level : nat) (items : list text) :
  json_char o = true -> json_char c = true -> Forall (fun t => Forall (fun c => json_char c = true) t) items ->
  Forall (fun c => json_char c = true) (container o c indent level items).
Proof.
  intros Ho Hc Hi. destruct items as [|x xs]; [by repeat constructor|].
  apply Forall_cons in Hi as [Hx Hxs]. cbn [container join_items].
  constructor; [done|]. repeat (apply Forall_app; split); auto using newline_indent_json.
  apply flat_map_json. eapply Forall_impl; [done|]. intros y Hy. apply Forall_app. split; [|done].
  constructor; [done|]. apply newline_indent_json.
Qed.

Lemma encode_json (indent : option nat) (v : pyval) :
  forall level, Forall (fun c => json_char c = true) (encode indent level v).
Proof.
  induction v as [| [] | z | s | l IH | d IH] using pyval_ind'; intros level.
  1-3: cbn [encode str_chars list_ascii_of_string]; by repeat constructor.
  - apply str_of_Z_json.
  - apply encode_basestring_ascii_json.
  - rewrite encode_list. apply container_json; [done..|]. apply Forall_forall.
    intros t (x & -> & Hx)%list_elem_of_fmap. eapply Forall_forall in IH; [apply IH|done].
  - rewrite encode_dict, sort_items_map. apply container_json; [done..|]. apply Forall_forall.
    intros t (kv & -> & Hkv)%list_elem_of_fmap. apply list_elem_of_fmap in Hkv as ([k x] & -> & Hin).
    rewrite sort_items_perm in Hin. eapply Forall_forall in IH; [|done].
    unfold encode_item. cbn [fst snd] in *. apply Forall_app; split; [apply encode_basestring_ascii_json|].
    apply Forall_app; split; [destruct indent; by repeat constructor | apply IH].
Qed.

Section RoundTrip.
Variable indent : option nat.

(** A value whose text, followed by any end of a value, decodes to the
    value with its dicts sorted. *)
Definition decodes (v : pyval) : Prop :=
  forall level fuel rest, json_size v <= fuel -> value_end rest = true ->
  scan_value fuel (encode indent level v ++ rest) = Some (json_sorted v, rest).

Lemma scan_elems_encode (level : nat) (l : list pyval) (fuel : nat) (rest : text) :
  Forall decodes l -> l <> [] -> sum_list_with (fun x => S (json_size x)) l <= fuel ->
  scan_elems fuel (join_items (","%char :: newline_indent indent (S level)) (map (encode indent (S level)) l)
                   ++ newline_indent indent level ++ "]"%char :: rest)
  = Some (map json_sorted l, rest).
Proof.
  revert fuel. induction l as [|x [|y l] IH]; intros fuel Hl Hne Hf; [done| |];
    apply Forall_cons in Hl as [Hx Hl]; destruct fuel as [|f]; cbn [sum_list_with] in Hf; try lia.
  - cbn [map join_items flat_map]. rewrite app_nil_r. cbn [scan_elems].
    rewrite skip_ws_encode, Hx by (lia || by apply value_end_close; left). cbn [mbind option_bind].
    by rewrite skip_ws_close by (by left).
  - cbn [map]. rewrite join_items_cons2, <- !app_assoc. cbn [scan_elems].
    rewrite skip_ws_encode, Hx by (lia || done). cbn [mbind option_bind app].
    rewrite skip_ws_cons by done. cbn iota.
    rewrite <- scan_elems_skip, skip_ws_newline_indent, scan_elems_skip.
    pose proof (IH f Hl) as E. cbn [map] in E. rewrite E by (done || cbn [sum_list_with] in *; lia).
    done.
Qed.

(** The key of an item and its separator are read back. *)
Lemma scan_members_item (f level : nat) (k : string) (v : pyval) (r : text) acc :
  scan_members (S f) (encode_item indent (k, encode indent (S level) v) ++ r) acc =
  '(v', r3) ← scan_value f (encode indent (S level) v ++ r);
  match skip_ws r3 with
  | ","%char :: r4 => scan_members f r4 (dict_setitem k v' acc)
  | "}"%char :: r4 => Some (dict_setitem k v' acc, r4)
  | _ => None
  end.
Proof.
  unfold encode_item, encode_basestring_ascii. cbn [fst snd app scan_members].
  rewrite skip_ws_cons by done. cbn iota. rewrite Ascii.eqb_refl, <- !app_assoc. cbn [app].
  rewrite scanstring_escape. cbn [mbind option_bind].
  destruct (scan_item_key indent (encode indent (S level) v ++ r)) as (r2 & Hk & Hr2).
  rewrite Hk, Hr2, skip_ws_encode, string_of_list_ascii_of_string.
  destruct (scan_value f _) as [[v' r3]|]; cbn [mbind option_bind]; [|done].
  by destruct (skip_ws r3) as [|[[] [] [] [] [] [] [] []] r4].
Qed.

Lemma scan_members_encode (level : nat) (l : list (string * pyval)) (fuel : nat) (rest : text)
    (acc : list (string * pyval)) :
  Forall (fun kv => decodes kv.2) l -> l <> [] -> NoDup (map fst (acc ++ l)) ->
  sum_list_with (fun kv => S (json_size kv.2)) l <= fuel ->
  scan_members fuel
    (join_items (","%char :: newline_indent indent (S level))
       (map (encode_item indent) (map (fun kv => (kv.1, encode indent (S level) kv.2)) l))
     ++ newline_indent indent level ++ "}"%char :: rest) acc
  = Some (acc ++ map (fun kv => (kv.1, json_sorted kv.2)) l, rest).
Proof.
  revert fuel acc. induction l as [|[k v] [|kv' l] IH]; intros fuel acc Hl Hne Hnd Hf; [done| |];
    apply Forall_cons in Hl as [Hv Hl]; destruct fuel as [|f]; cbn [sum_list_with] in Hf; try lia;
    rewrite map_app in Hnd; cbn [map fst] in Hnd; pose proof Hnd as Hnd0;
    apply NoDup_app in Hnd as (_ & Hk & Hnd');
    (assert (Hfresh : k ∉ map fst acc) by (intros Hin; by apply (Hk k Hin), elem_of_cons; left));
    cbn [snd] in Hv, Hf.
  - cbn [map join_items flat_map]. rewrite app_nil_r, scan_members_item.
    rewrite Hv by (lia || by apply value_end_close; right). cbn [mbind option_bind].
    rewrite skip_ws_close by (by right). cbn iota. by rewrite dict_setitem_fresh.
  - cbn [map]. rewrite join_items_cons2, <- !app_assoc, scan_members_item.
    rewrite Hv by (lia || done). cbn [mbind option_bind app].
    rewrite skip_ws_cons by done. cbn iota.
    rewrite <- scan_members_skip, skip_ws_newline_indent, scan_members_skip.
    rewrite dict_setitem_fresh by done. cbn [fst snd].
    pose proof (IH f (acc ++ [(k, json_sorted v)]) Hl) as E. cbn [map] in E.
    rewrite E; [by rewrite <- app_assoc | done | | cbn [sum_list_with] in *; lia].
    by rewrite <- app_assoc, map_app.
Qed.

Lemma encode_decodes (v : pyval) : wf_pyval v = true -> decodes v.
Proof.
  induction v as [| b | z | s | l IH | d IH] using pyval_ind'; intros Hwf level fuel rest Hf Hr;
    destruct fuel as [|f]; cbn [json_size] in Hf; try lia.
  - done.
  - by destruct b.
  - cbn [encode]. destruct (str_of_Z_head z) as (c & t & E & Hc). rewrite E. cbn [app].
    rewrite scan_value_number by done. change (c :: t ++ rest) with ((c :: t) ++ rest).
    by rewrite <- E, scan_number_str_of_Z.
  - apply scan_value_str.
  - destruct l as [|x l]; [done|]. cbn [wf_pyval] in Hwf.
    rewrite encode_list, container_cons by done. cbn [app]. rewrite <- !app_assoc. cbn [app].
    rewrite scan_value_open_list, skip_ws_newline_indent, skip_ws_value, starts_with_value
      by (auto with pyx). cbn iota.
    rewrite scan_elems_encode; [done | | done | lia].
    apply Forall_forall. intros y Hy. eapply Forall_forall in IH; [|done]. apply IH.
    by eapply forallb_forall in Hwf; [|apply list_elem_of_In].
  - destruct d as [|kv0 d0]; [done|]. set (d := kv0 :: d0) in *.
    cbn [wf_pyval] in Hwf. apply andb_true_iff in Hwf as [Hnd Hwf]. apply bool_decide_eq_true in Hnd.
    rewrite encode_dict, (sort_items_map (encode indent (S level))).
    pose proof (sort_items_perm d) as Hp.
    destruct (sort_items d) as [|kv L] eqn:Es; [by apply Permutation_nil in Hp|].
    rewrite container_cons by done. cbn [app]. rewrite <- !app_assoc. cbn [app].
    rewrite scan_value_open_dict, skip_ws_newline_indent, skip_ws_value, starts_with_value
      by (auto || apply starts_value_app, join_items_value, encode_item_value). cbn iota.
    rewrite scan_members_encode; cbn [app mbind option_bind].
    + cbn [json_sorted]. by rewrite sort_items_map, Es.
    + rewrite Hp. apply Forall_forall. intros kv' Hkv. eapply Forall_forall in IH; [|done]. apply IH.
      by eapply forallb_forall in Hwf; [|apply list_elem_of_In].
    + done.
    + by rewrite (Permutation_map fst Hp).
    + rewrite Hp. lia.
Qed.

End RoundTrip.

(** The decoder reads the body of [jsonify(v)] back. *)
Lemma json_loads_flask_json_text (debug : bool) (v : pyval) :
  wf_pyval v = true -> json_loads (flask_json_text debug v) = Some (json_sorted v).
Proof.
  intros Hwf. unfold json_loads, flask_json_text. rewrite skip_ws_value by auto with pyx.
  pose proof (json_size_encode (if debug then Some 2 else None) v 0).
  rewrite (encode_decodes _ v Hwf); [done | rewrite length_app; lia | done].
Qed.

(** ** Theorems *)

(** The body Flask sends for [jsonify(v)], in debug mode or not,
    decodes under [json.loads] to [v] with the items of each dict sorted
    by key, and that value is equal to [v] under Python's [==]: a client
    reads back exactly the object the view passed to [jsonify], for
    every value whose dicts have distinct keys. *)
Theorem flask_json_roundtrip (debug : bool) (v : pyval) :
  wf_pyval v = true ->
  json_loads (flask_json_text debug v) = Some (json_sorted v) /\ py_eq (json_sorted v) v = true.
Proof. intros Hwf. split; [by apply json_loads_flask_json_text | by apply py_eq_json_sorted]. Qed.

(** Every character of a [jsonify] body is printable ASCII (space
    to tilde) or the newline, whatever the strings of the value hold:
    [ensure_ascii] escapes the rest. *)
Theorem flask_json_text_ascii (debug : bool) (v : pyval) :
  Forall (fun c => (32 <= nat_of_ascii c <= 126)%nat \/ c = nl) (flask_json_text debug v).
Proof.
  eapply Forall_impl; [apply Forall_app; split; [apply encode_json | by repeat constructor]|].
  intros c Hc. unfold json_char in Hc. apply orb_true_iff in Hc as [Hc | Hc]; [left | right].
  - apply andb_true_iff in Hc as [H1 H2]. apply Nat.leb_le in H1, H2. lia.
  - by apply Ascii.eqb_eq.
Qed.

(** ** Witnesses *)

Lemma flask_json_roundtrip_witness :
  wf_pyval (PDict [("success", PBool true); ("message", PStr (String (chr 233) "t")); ("items", PList [PInt (-12); PNone; PDict []])]) = true /\
  (json_loads (flask_json_text true (PDict [("success", PBool true); ("message", PStr (String (chr 233) "t")); ("items", PList [PInt (-12); PNone; PDict []])])) = Some (json_sorted (PDict [("success", PBool true); ("message", PStr (String (chr 233) "t")); ("items", PList [PInt (-12); PNone; PDict []])])) /\
   py_eq (json_sorted (PDict [("success", PBool true); ("message", PStr (String (chr 233) "t")); ("items", PList [PInt (-12); PNone; PDict []])])) (PDict [("success", PBool true); ("message", PStr (String (chr 233) "t")); ("items", PList [PInt (-12); PNone; PDict []])]) = true).
Proof. split; [reflexivity|]. apply flask_json_roundtrip. reflexivity. Defined.

End Json.
