(* ===== verification/Wire.v ===== *)
(** * The bytes of the chat endpoint's answers

    The composition of the application ([Routes.dispatch], which runs
    [ChatHandler.handle_chat] for [POST /api/v1/chat]) with Flask's
    [jsonify] ([Json.flask_json_text]): what a client of the endpoint
    reads from the body of an answer with [json.loads].  The three
    bodies the view builds (lines 131, 140-145, 169-173 and 182-187)
    are dict literals; on the wire their keys are sorted ([sort_keys])
    and the text is ASCII.

    The theorem: every JSON body the application sends decodes to one of
    three objects, the error object, the provider's reply or the
    fallback, with its fields in sorted order, and equal under [==] to
    the dict the view passed to [jsonify]. *)

From stdpp Require Import base list strings.
From Stdlib Require Import String Ascii ZArith Lia.
From S2P Require Import Prelude PyStr PyValue Fallback Prompt Log ChatHandler Routes PyInt Json.

Module Wire.
Import PyValue Prompt Log ChatHandler Routes Json.

(** ** Lemmas *)

(** The three JSON bodies of the view. *)
Lemma handle_chat_json_cases (api_key : option string)
    (llm : list chat_message -> result string) (json : result pyval) (v : pyval) :
  body_of (handle_chat api_key llm json).1 = JsonBody v ->
  v = error_reply \/ (exists c, v = success_reply c) \/ (exists m, v = fallback_reply m).
Proof.
  rewrite handle_chat_unfold.
  destruct (chat_try api_key llm json []) as [[r|e] tr] eqn:Ht.
  - apply chat_try_reply in Ht as [-> | [[c ->] | [m ->]]]; cbn; intros [= <-]; eauto.
  - destruct (chat_except json e tr) as [[r'|e'] tr'] eqn:Hx; [|by destruct e'; intros ?].
    apply chat_except_reply in Hx as [m ->]. cbn. intros [= <-]. eauto.
Qed.

(** A JSON body of the application is one of the chat view's. *)
Lemma dispatch_json (templates : list string) (api_key : option string)
    (llm : list chat_message -> result string) (req : request) (v : pyval) :
  hbody (dispatch templates api_key llm req).1 = RJson v ->
  body_of (handle_chat api_key llm (req_json req)).1 = JsonBody v.
Proof.
  rewrite dispatch_route. cbn [fst]. case_bool_decide; [done|]. cbn [add_cors hbody]. unfold route.
  destruct (find_rule (req_path req) url_map) as [r|].
  - unfold route_rule. repeat case_bool_decide; try done.
    destruct (rule_endpoint r); cbn -[handle_chat].
    1,2: unfold index_view, demo_view, render_template; by case_bool_decide.
    destruct (handle_chat api_key llm (req_json req)) as [[s b] tr]. cbn.
    by destruct b; intros [= ->].
  - destruct (find_rule (merge_slashes (req_path req)) url_map); [case_bool_decide|]; done.
Qed.

(** ** Theorems *)

(** C27: every JSON body the application sends, compact or indented,
    decodes under [json.loads] to one of three objects, with its fields
    in sorted order: [{"error": "Messages are required"}], the provider's
    reply [{"message": c, "success": true, "timestamp": ...}], or the
    fallback [{"fallback": true, "message": m, "success": true,
    "timestamp": ...}]; the decoded object is equal under [==] to the
    dict the view built. *)
Theorem dispatch_json_wire (templates : list string) (api_key : option string)
    (llm : list chat_message -> result string) (req : request) (debug : bool) (v : pyval) :
  hbody (dispatch templates api_key llm req).1 = RJson v ->
  exists w, json_loads (flask_json_text debug v) = Some w /\ py_eq w v = true /\
  (w = PDict [("error", PStr "Messages are required")] \/
   (exists c, w = PDict [("message", PStr c); ("success", PBool true); ("timestamp", PStr TIMESTAMP)]) \/
   (exists m, w = PDict [("fallback", PBool true); ("message", PStr m); ("success", PBool true);
                         ("timestamp", PStr TIMESTAMP)])).
Proof.
  intros Hv. apply dispatch_json, handle_chat_json_cases in Hv.
  assert (Hwf : wf_pyval v = true) by (by destruct Hv as [-> | [[c ->] | [m ->]]]).
  exists (json_sorted v). rewrite json_loads_flask_json_text by done.
  split; [done|]. split; [by apply py_eq_json_sorted|].
  destruct Hv as [-> | [[c ->] | [m ->]]]; [left | right; left | right; right]; eauto.
Qed.

(** ** Witnesses *)

Lemma dispatch_json_wire_witness :
  hbody (dispatch [] None (fun _ => Raise ProviderError)
           (mk_request POST "/api/v1/chat" None (Ok (PDict [("messages", PList [])])))).1
  = RJson error_reply /\
  exists w, json_loads (flask_json_text true error_reply) = Some w /\ py_eq w error_reply = true /\
  (w = PDict [("error", PStr "Messages are required")] \/
   (exists c, w = PDict [("message", PStr c); ("success", PBool true); ("timestamp", PStr TIMESTAMP)]) \/
   (exists m, w = PDict [("fallback", PBool true); ("message", PStr m); ("success", PBool true);
                         ("timestamp", PStr TIMESTAMP)])).
Proof.
  split; [reflexivity|].
  apply (dispatch_json_wire [] None (fun _ => Raise ProviderError)
           (mk_request POST "/api/v1/chat" None (Ok (PDict [("messages", PList [])])))).
  reflexivity.
Defined.

End Wire.
