(* ===== verification/Startup.v ===== *)
(** * Start-up: the port the server listens on

    The [__main__] block of src/app.py (lines 189-193): the port is
    [int(os.getenv('PORT', 3001))], then [app.run(host='0.0.0.0',
    port=port, debug=True)] starts the server.  [os.getenv] gives the
    environment's str when [PORT] is set and the int default 3001 when it
    is not; [int] is [PyInt.py_int].  Before [app.run], the two banner
    lines are printed ([Log.banner_running], [Log.banner_chat]) to the
    console in scope.

    [app.run] is werkzeug's [BaseWSGIServer]: [get_sockaddr] asks
    [socket.getaddrinfo] for the address ([getaddrinfo_port]): CPython
    raises [OverflowError] for a port beyond a C [long], glibc reads the
    decimal text into a C [int] ([c_int_of]), refuses a negative one
    (a [gaierror], after which [socket.bind] raises [OverflowError] on
    the raw port) and keeps the low 16 bits of the rest ([htons]).  The
    bind then succeeds or fails with an [OSError] as the operating
    system decides ([bindable]); on failure werkzeug calls
    [sys.exit(1)].  A started server is the [Listen] event.

    The theorems: a [PORT] that is the decimal text of an int [z] of the
    C [int] range is refused when negative and otherwise serves on
    [z mod 65536] or exits with status 1; on the UTF-8 console the
    server listens only on a bindable port in 0-65535, and start-up
    fails only with [ValueError], [OverflowError] or [SystemExit 1]; on
    a console that cannot print the banner's emoji, start-up always
    fails. *)

From stdpp Require Import base list strings.
From Stdlib Require Import String Ascii ZArith Lia.
From S2P Require Import Prelude PyStr PyValue Prompt Log PyInt.

Module Startup.
Import PyValue Log PyInt.
#[local] Open Scope Z_scope.

(** ** Data and operations *)

(** The server started by [app.run]. *)
Inductive server := Listen (host : string) (port : Z) (debug : bool).

Definition DEFAULT_PORT : Z := 3001.

(** [os.getenv('PORT', 3001)]. *)
Definition getenv_port (env : option string) : pyval :=
  match env with Some s => PStr s | None => PInt DEFAULT_PORT end.

(** The C [int] of glibc's [getaddrinfo] service number: the decimal
    text is read by [strtoul] and stored in an [int] field, so the value
    is taken mod 2^32 and read back signed. *)
Definition c_int_of (z : Z) : Z :=
  let u := z mod 2 ^ 32 in if u <? 2 ^ 31 then u else u - 2 ^ 32.

(** [socket.getaddrinfo(host, port)] with an int [port]: CPython converts
    it to a C [long] ([OverflowError] when it does not fit) and passes
    its decimal text to glibc, which stores it as a C [int]; a negative
    [int] is looked up as a service name and fails ([None], a
    [socket.gaierror]); otherwise the address carries [htons] of it,
    i.e. its low 16 bits. *)
Definition getaddrinfo_port (z : Z) : result (option Z) :=
  if (z <? - 2 ^ 63) || (2 ^ 63 - 1 <? z) then Raise OverflowError
  else let n := c_int_of z in
       if n <? 0 then Ok None else Ok (Some (n mod 65536)).

(** [app.run(host, port, debug)]: werkzeug's [get_sockaddr] binds the
    address [getaddrinfo] returns; on a [gaierror] it passes the raw
    [(host, port)] to [socket.bind], which raises [OverflowError] for a
    port outside 0-65535 (here: negative).  [bindable p] says whether
    the operating system lets the process bind port [p] (free, and
    allowed); when it does not, [BaseWSGIServer] prints the error and
    calls [sys.exit(1)]. *)
Definition app_run (bindable : Z -> bool) (host : string) (port : Z) (debug : bool)
    : result server :=
  a <-? getaddrinfo_port port ;;
  match a with
  | None => Raise OverflowError
  | Some p => if bindable p then Ok (Listen host p debug) else Raise (SystemExit 1)
  end.

(** Lines 190-193. *)
Definition main `{Console} (bindable : Z -> bool) (env : option string) : result server :=
  port <-? py_int (getenv_port env) ;;
  _ <-? console_print (banner_running port) ;;
  _ <-? console_print (banner_chat port) ;;
  app_run bindable "0.0.0.0" port true.

(** ** Lemmas *)

Lemma c_int_of_small z : (- 2 ^ 31 <= z < 2 ^ 31)%Z -> c_int_of z = z.
Proof.
  intros Hz. unfold c_int_of. destruct (Z_le_gt_dec 0 z).
  - rewrite Z.mod_small by lia.
    destruct (_ <? _)%Z eqn:E; [apply Z.ltb_lt in E | apply Z.ltb_ge in E]; lia.
  - rewrite (Z.mod_eq z (2 ^ 32)) by lia.
    replace (z / 2 ^ 32)%Z with (-1)%Z by (apply Z.div_unique with (z + 2 ^ 32); lia).
    destruct (_ <? _)%Z eqn:E; [apply Z.ltb_lt in E | apply Z.ltb_ge in E]; lia.
Qed.

Lemma getaddrinfo_port_range z p : getaddrinfo_port z = Ok (Some p) -> (0 <= p <= 65535)%Z.
Proof.
  unfold getaddrinfo_port. repeat case_match; intros; simplify_eq.
  pose proof (Z.mod_pos_bound (c_int_of z) 65536). lia.
Qed.

Lemma getaddrinfo_port_small z :
  (- 2 ^ 31 <= z < 2 ^ 31)%Z ->
  getaddrinfo_port z = if (z <? 0)%Z then Ok None else Ok (Some (z mod 65536)%Z).
Proof.
  intros Hz. unfold getaddrinfo_port. rewrite c_int_of_small by done.
  replace ((z <? - 2 ^ 63) || (2 ^ 63 - 1 <? z))%Z with false; [done|].
  symmetry. apply orb_false_iff. split; apply Z.ltb_ge; lia.
Qed.

Lemma app_run_Ok b h z d s :
  app_run b h z d = Ok s -> exists p, s = Listen h p d /\ (0 <= p <= 65535)%Z /\ b p = true.
Proof.
  unfold app_run. destruct (getaddrinfo_port z) as [[p|]|] eqn:E; cbn [rbind]; try done.
  apply getaddrinfo_port_range in E. destruct (b p) eqn:Hb; intros; simplify_eq; eauto.
Qed.

Lemma app_run_Raise b h z d e :
  app_run b h z d = Raise e -> e = OverflowError \/ e = SystemExit 1.
Proof.
  unfold app_run. destruct (getaddrinfo_port z) as [[p|]|e'] eqn:E; cbn [rbind].
  - case_match; intros; simplify_eq; auto.
  - intros; simplify_eq; auto.
  - unfold getaddrinfo_port in E. repeat case_match; intros; simplify_eq; auto.
Qed.

Lemma py_int_getenv_exc env e :
  py_int (getenv_port env) = Raise e -> e = ValueError.
Proof. destruct env; simpl; [case_match|]; by intros; simplify_eq. Qed.

(** ** Theorems *)

(** C21: with [PORT] set to the decimal text of an int [z] of the C
    [int] range, surrounded by any whitespace, start-up raises
    [OverflowError] when [z] is negative; otherwise the server listens on
    0.0.0.0 with debug on, on port [z mod 65536] (so [PORT=70000] serves
    on 4464 and [PORT=65536] on 0), or exits with status 1 when that
    port cannot be bound. *)
Theorem main_port_literal (bindable : Z -> bool) (z : Z) (ws1 ws2 : list ascii) :
  - 2 ^ 31 <= z < 2 ^ 31 ->
  Forall (fun c => is_space c = true) ws1 -> Forall (fun c => is_space c = true) ws2 ->
  main bindable (Some (string_of_list_ascii (ws1 ++ str_chars (str_of_Z z) ++ ws2))) =
  if z <? 0 then Raise OverflowError
  else if bindable (z mod 65536) then Ok (Listen "0.0.0.0" (z mod 65536) true)
  else Raise (SystemExit 1).
Proof.
  intros Hz H1 H2. unfold main; cbn [getenv_port py_int].
  rewrite str_chars_of_list, parse_int_str_of_Z by done. cbn [rbind].
  rewrite !console_print_utf8. cbn [rbind]. unfold app_run.
  rewrite getaddrinfo_port_small by done. by destruct (z <? 0).
Qed.

(** C22: with [PORT] unset the server listens on 0.0.0.0 port 3001 with
    debug on, or exits with status 1 when 3001 cannot be bound; whatever
    [PORT] is, start-up listens only on 0.0.0.0 with debug on, on a port
    in 0-65535 that can be bound, and fails only with [ValueError] (a
    [PORT] that is not an int literal), [OverflowError] (a negative or
    out-of-range port) or [SystemExit 1] (a port that cannot be bound). *)
Theorem main_bounds (bindable : Z -> bool) (env : option string) :
  main bindable None =
    (if bindable DEFAULT_PORT then Ok (Listen "0.0.0.0" DEFAULT_PORT true)
     else Raise (SystemExit 1)) /\
  match main bindable env with
  | Ok (Listen h p d) => h = "0.0.0.0" /\ d = true /\ 0 <= p <= 65535 /\ bindable p = true
  | Raise e => e = ValueError \/ e = OverflowError \/ e = SystemExit 1
  end.
Proof.
  split.
  { unfold main. cbn [getenv_port py_int rbind]. rewrite !console_print_utf8. cbn [rbind].
    unfold app_run. by rewrite getaddrinfo_port_small. }
  unfold main. destruct (py_int (getenv_port env)) as [p|e] eqn:E; cbn [rbind].
  - rewrite !console_print_utf8. cbn [rbind]. destruct (app_run _ _ _ _) as [[h p' d]|e] eqn:R.
    + apply app_run_Ok in R as (q & R & ? & ?). by simplify_eq.
    + right. by eapply app_run_Raise.
  - left. by eapply py_int_getenv_exc.
Qed.

(** C9: [python app.py] on a console that cannot encode U+1F680 (the
    emoji opening the banner of line 191; an ASCII or Latin-1 stdout)
    never serves: once [PORT] is parsed, the banner's [print] raises
    [UnicodeEncodeError] before [app.run]; a [PORT] that is not an int
    literal raises [ValueError] first. *)
Theorem main_unencodable_console (C : Console) (bindable : Z -> bool) (env : option string) :
  @encodable C 0x1F680 = false ->
  @main C bindable env = match py_int (getenv_port env) with
                | Ok _ => Raise UnicodeEncodeError
                | Raise e => Raise e
                end.
Proof.
  intros Hc. unfold main. destruct (py_int (getenv_port env)); cbn [rbind]; [|done].
  unfold banner_running. cbn [app]. by rewrite console_print_head.
Qed.

(** ** Witnesses *)

Lemma main_port_literal_witness :
  main (fun _ => true) (Some (string_of_list_ascii ([" "%char] ++ str_chars (str_of_Z 70000) ++ [])))
  = Ok (Listen "0.0.0.0" 4464 true).
Proof. apply (main_port_literal (fun _ => true) 70000); [lia | repeat constructor ..]. Defined.

Lemma main_unencodable_console_witness :
  @main latin1_console (fun _ => true) None = Raise UnicodeEncodeError.
Proof. rewrite main_unencodable_console; reflexivity. Defined.

End Startup.
