(* ===== verification/App.v ===== *)
(** * The application as a process: import, requests and start-up

    Importing src/app.py first runs its imports (lines 1-7) against the
    modules the interpreter can find ([site], a parameter: the standard
    library and the installed packages); a missing module raises
    [ModuleNotFoundError], a missing name [ImportError].  Then it loads
    the [.env] file into the environment ([Env.load_dotenv]) and builds
    the LLM client [llm = ChatOpenAI(model="deepseek-chat",
    openai_api_key=os.getenv("DEEPSEEK_API_KEY"),
    openai_api_base="https://api.deepseek.com")] (lines 9-19).  With
    langchain-openai and openai 1.x the client is built at once: a falsy
    key is replaced by the [OPENAI_API_KEY] of the environment, and
    openai's client raises [OpenAIError] when neither gives a key, so
    the import fails.  A running application ([app]) answers each
    request with [Routes.dispatch]: the view reads
    [os.getenv("DEEPSEEK_API_KEY")] from the environment the import
    left, and the client calls the provider with its configuration (the
    provider is a parameter, a function of the configuration and the
    prompt).  [python app.py] ([run]) imports the module and then runs
    the [__main__] block ([Startup.main]) with the [PORT] of the same
    environment; its [debug=True] puts werkzeug's debugger in front of
    the application ([debugged], [serve_debug]).

    The theorems: without any credential the module cannot be imported;
    without the [langchain.prompts] module (whose one import is unused)
    it cannot be imported either; the view's missing-key branch is
    reached only when [OPENAI_API_KEY] is set, and the client then holds
    that key; a provider call is made with the DeepSeek key the view
    checked; under [python app.py] a chat request whose body is not an
    object is answered with the debugger's traceback page. *)

From stdpp Require Import base list strings gmap.
From Stdlib Require Import String Ascii ZArith Lia.
From S2P Require Import Prelude PyStr PyValue Fallback Prompt Log ChatHandler Routes Env PyInt Startup.

Module App.
Import PyValue Prompt Log ChatHandler Routes Env PyInt Startup.

(** ** The LLM client *)

(** The configuration of [ChatOpenAI(...)]. *)
Record llm_config : Type := mk_llm_config {
  cfg_model : string;
  cfg_api_key : string;
  cfg_api_base : string
}.

(** [ChatOpenAI(model=..., openai_api_key=..., openai_api_base=...)]. *)
Definition chat_openai (env : environ) (model : string) (api_key : option string)
    (api_base : string) : result llm_config :=
  match (if env_truthy api_key then api_key else getenv env "OPENAI_API_KEY") with
  | Some k => Ok (mk_llm_config model k api_base)
  | None => Raise OpenAIError
  end.

(** ** The imports (lines 1-7) *)

(** The modules the interpreter can import (the standard library and
    the installed packages), each with the names it defines. *)
Abbreviation site := (list (string * list string)).

Fixpoint find_module (m : string) (s : site) : option (list string) :=
  match s with
  | [] => None
  | (m', defs) :: s' => if String.eqb m m' then Some defs else find_module m s'
  end.

(** [import m]. *)
Definition import_module (s : site) (m : string) : result unit :=
  match find_module m s with Some _ => Ok tt | None => Raise ModuleNotFoundError end.

(** [from m import n1, n2, ...]. *)
Definition import_from (s : site) (m : string) (names : list string) : result unit :=
  match find_module m s with
  | Some defs => if forallb (fun n => bool_decide (n ∈ defs)) names then Ok tt else Raise ImportError
  | None => Raise ModuleNotFoundError
  end.

(** Lines 1-7. *)
Definition app_imports (s : site) : result unit :=
  _ <-? import_from s "flask" ["Flask"; "render_template"; "request"; "jsonify"] ;;
  _ <-? import_from s "flask_cors" ["CORS"] ;;
  _ <-? import_from s "langchain_openai" ["ChatOpenAI"] ;;
  _ <-? import_from s "langchain.prompts" ["ChatPromptTemplate"] ;;
  _ <-? import_from s "langchain.schema" ["HumanMessage"; "SystemMessage"] ;;
  _ <-? import_module s "os" ;;
  import_from s "dotenv" ["load_dotenv"].

(** ** The module and the process *)

(** The state of an imported module: the environment and [llm]. *)
Record app : Type := mk_app { app_env : environ; app_llm : llm_config }.

(** [import app]: lines 1-19. *)
Definition import_app (s : site) (entries : list (string * option string)) (env : environ)
    : result app :=
  _ <-? app_imports s ;;
  let env' := load_dotenv entries env in
  llm <-? chat_openai env' "deepseek-chat" (getenv env' "DEEPSEEK_API_KEY") "https://api.deepseek.com" ;;
  Ok (mk_app env' llm).

Section Serve.

(** The remote provider: the reply to a prompt sent with a configuration. *)
Variable provider : llm_config -> list chat_message -> result string.
Variable templates : list string.

(** One request to the running application. *)
Definition serve (a : app) (req : request) : http_response * list event :=
  dispatch templates (getenv (app_env a) "DEEPSEEK_API_KEY") (provider (app_llm a)) req.

End Serve.

(** ** Debug mode (line 193) *)

(** [app.run(..., debug=True)] sets [app.debug], so Flask re-raises an
    exception that escaped a view ([PROPAGATE_EXCEPTIONS]) before its
    [after_request] handlers (the CORS header) run, and werkzeug's
    [DebuggedApplication], installed by [run_simple(use_debugger=True)],
    answers it with the traceback page of its debugger (without a body
    for HEAD).  Every 500 of [Routes.dispatch] is such an exception
    ([Routes.page], [ChatHandler.handle_exception]). *)
Definition debugged (req : request) (r : http_response) : http_response :=
  if bool_decide (hstatus r = 500%Z) then
    mk_http 500 (if bool_decide (req_method req = HEAD) then REmpty else RDebugger) [] None
  else r.

Section ServeDebug.
Variable provider : llm_config -> list chat_message -> result string.
Variable templates : list string.

(** One request to the application served by [python app.py]. *)
Definition serve_debug (a : app) (req : request) : http_response * list event :=
  let '(r, tr) := serve provider templates a req in (debugged req r, tr).

End ServeDebug.

(** [python app.py]: the import, then lines 189-193. *)
Definition run (bindable : Z -> bool) (s : site) (entries : list (string * option string))
    (env : environ) : result (app * server) :=
  a <-? import_app s entries env ;;
  s <-? main bindable (getenv (app_env a) "PORT") ;;
  Ok (a, s).

(** ** Lemmas *)

Lemma import_app_Ok (s : site) (entries : list (string * option string)) (env : environ) (a : app) :
  import_app s entries env = Ok a ->
  app_env a = load_dotenv entries env /\
  chat_openai (app_env a) "deepseek-chat" (getenv (app_env a) "DEEPSEEK_API_KEY")
    "https://api.deepseek.com" = Ok (app_llm a).
Proof.
  unfold import_app. destruct (app_imports s) as [[]|]; cbn [rbind]; [|done].
  destruct (chat_openai _ _ _ _) as [c|] eqn:E; cbn [rbind]; [|done].
  by intros [= <-].
Qed.

Lemma import_from_cases (s : site) (m : string) (names : list string) :
  import_from s m names = Ok tt \/ import_from s m names = Raise ModuleNotFoundError \/
  import_from s m names = Raise ImportError.
Proof. unfold import_from. repeat case_match; auto. Qed.

Lemma chat_openai_key (env : environ) (m b : string) (k : option string) (c : llm_config) :
  chat_openai env m k b = Ok c ->
  Some (cfg_api_key c) = (if env_truthy k then k else getenv env "OPENAI_API_KEY").
Proof. unfold chat_openai. case_match; [by intros [= <-] | done]. Qed.

(** ** Theorems *)

(** C28: a process whose environment and [.env] file give neither
    [DEEPSEEK_API_KEY] nor [OPENAI_API_KEY] cannot import the module:
    building [llm] raises [OpenAIError], so the "no credential, answer
    with the fallback" behaviour of the spec is never reached. *)
Theorem import_app_no_credentials (s : site) (entries : list (string * option string)) (env : environ) :
  app_imports s = Ok tt ->
  env !! "DEEPSEEK_API_KEY" = None -> dotenv_values entries !! "DEEPSEEK_API_KEY" ≫= id = None ->
  env !! "OPENAI_API_KEY" = None -> dotenv_values entries !! "OPENAI_API_KEY" ≫= id = None ->
  import_app s entries env = Raise OpenAIError.
Proof.
  intros Hs Hd Hd' Ho Ho'. unfold import_app, chat_openai, getenv. rewrite Hs. cbn [rbind].
  by rewrite !load_dotenv_lookup, Hd, Hd', Ho, Ho'.
Qed.

(** C29: in a running application whose [DEEPSEEK_API_KEY] is unset or
    empty (the view's missing-key branch, line 137), [OPENAI_API_KEY]
    is set and the client holds it. *)
Theorem app_unconfigured_openai_key (s : site) (entries : list (string * option string))
    (env : environ) (a : app) :
  import_app s entries env = Ok a ->
  env_truthy (getenv (app_env a) "DEEPSEEK_API_KEY") = false ->
  getenv (app_env a) "OPENAI_API_KEY" = Some (cfg_api_key (app_llm a)).
Proof.
  intros Ha Hk. apply import_app_Ok in Ha as [_ Hc].
  apply chat_openai_key in Hc. by rewrite Hk in Hc.
Qed.

(** C31: whenever a request to a running application calls the
    provider, the DeepSeek key that the view checked at line 137 is set
    and the client built at import (line 17) holds that same key: the
    client never sends the [OPENAI_API_KEY] fallback to the provider. *)
Theorem serve_call_uses_checked_key (provider : llm_config -> list chat_message -> result string)
    (templates : list string) (s : site) (entries : list (string * option string)) (env : environ)
    (a : app) (req : request) :
  import_app s entries env = Ok a ->
  invocations (serve provider templates a req).2 <> [] ->
  env_truthy (getenv (app_env a) "DEEPSEEK_API_KEY") = true /\
  getenv (app_env a) "DEEPSEEK_API_KEY" = Some (cfg_api_key (app_llm a)).
Proof.
  intros Ha Hinv. unfold serve in Hinv.
  destruct (dispatch_trace templates (getenv (app_env a) "DEEPSEEK_API_KEY")
              (provider (app_llm a)) req) as [He|He]; rewrite He in Hinv; [done|].
  destruct (env_truthy (getenv (app_env a) "DEEPSEEK_API_KEY")) eqn:Hk.
  - split; [done|]. apply import_app_Ok in Ha as [_ Hc].
    apply chat_openai_key in Hc. by rewrite Hk in Hc.
  - destruct Hinv. by apply (handle_chat_request_trace _ _ (req_json req)).
Qed.

(** [python app.py] in a process without [PORT], whose [.env] file
    gives [PORT] the text of a port [z] that can be bound, listens on
    [z]. *)
Lemma run_port_from_dotenv (bindable : Z -> bool) (s : site)
    (entries : list (string * option string)) (env : environ) (a : app) (z : Z) :
  import_app s entries env = Ok a ->
  env !! "PORT" = None -> dotenv_values entries !! "PORT" = Some (Some (str_of_Z z)) ->
  (0 <= z <= 65535)%Z -> bindable z = true ->
  run bindable s entries env = Ok (a, Listen "0.0.0.0" z true).
Proof.
  intros Ha Hp Hp' Hz Hb. unfold run. rewrite Ha. cbn [rbind].
  destruct (import_app_Ok _ _ _ _ Ha) as [He _].
  unfold getenv. rewrite He, load_dotenv_lookup, Hp, Hp'. cbn [mbind option_bind id].
  unfold main. cbn [getenv_port py_int].
  rewrite <- (app_nil_r (str_chars (str_of_Z z))), <- (app_nil_l (str_chars (str_of_Z z) ++ [])).
  rewrite parse_int_str_of_Z by constructor. cbn [rbind].
  rewrite !console_print_utf8. cbn [rbind]. unfold app_run.
  rewrite getaddrinfo_port_small by lia.
  destruct (Z.ltb_spec z 0); [lia|]. cbn [rbind]. by rewrite Z.mod_small, Hb by lia.
Qed.

(** C32: the module imports [ChatPromptTemplate] from
    [langchain.prompts] (line 4) and never uses it; where that module
    cannot be found (the [langchain] package is not installed, which
    [langchain_openai] does not require, or a release of it without
    [langchain.prompts]), importing the application fails with
    [ModuleNotFoundError], or with [ImportError] if an earlier import
    fails, before [.env] is loaded or the client is built. *)
Theorem import_app_needs_langchain_prompts (s : site) (entries : list (string * option string))
    (env : environ) :
  find_module "langchain.prompts" s = None ->
  import_app s entries env = Raise ModuleNotFoundError \/ import_app s entries env = Raise ImportError.
Proof.
  intros Hm. unfold import_app, app_imports.
  destruct (import_from_cases s "flask" ["Flask"; "render_template"; "request"; "jsonify"])
    as [-> | [-> | ->]]; cbn [rbind]; auto.
  destruct (import_from_cases s "flask_cors" ["CORS"]) as [-> | [-> | ->]]; cbn [rbind]; auto.
  destruct (import_from_cases s "langchain_openai" ["ChatOpenAI"]) as [-> | [-> | ->]]; cbn [rbind]; auto.
  left. unfold import_from at 1. by rewrite Hm.
Qed.

(** C30: the server started by [python app.py] listens on every
    interface with the debugger on: a POST to [/api/v1/chat] whose JSON
    body is not an object (e.g. [[]] or [null]), from any origin, is
    answered with the traceback page of werkzeug's debugger (status 500,
    no CORS header) after the error log, instead of Flask's error page. *)
Theorem serve_debug_traceback (provider : llm_config -> list chat_message -> result string)
    (templates : list string) (a : app) (o : option string) (data : pyval) :
  (forall d, data <> PDict d) ->
  serve_debug provider templates a (mk_request POST "/api/v1/chat" o (Ok data)) =
  (mk_http 500 RDebugger [] None, [LogError AttributeError]).
Proof.
  intros Hnd. unfold serve_debug, serve. rewrite dispatch_chat_view.
  by rewrite handle_chat_not_object.
Qed.

(** ** Witnesses *)

(** A site with the packages the module imports, langchain 0.x
    included. *)
Definition installed_site : site :=
  [("flask", ["Flask"; "render_template"; "request"; "jsonify"; "Response"]);
   ("flask_cors", ["CORS"; "cross_origin"]);
   ("langchain_openai", ["ChatOpenAI"; "OpenAIEmbeddings"]);
   ("langchain.prompts", ["ChatPromptTemplate"; "PromptTemplate"]);
   ("langchain.schema", ["HumanMessage"; "SystemMessage"; "AIMessage"]);
   ("os", ["getenv"; "environ"]);
   ("dotenv", ["load_dotenv"; "dotenv_values"])].

(** The same site without the [langchain] package. *)
Definition langchain_openai_site : site :=
  filter (fun md => negb (String.prefix "langchain." md.1)) installed_site.

Lemma import_app_needs_langchain_prompts_witness :
  import_app langchain_openai_site [] ∅ = Raise ModuleNotFoundError \/
  import_app langchain_openai_site [] ∅ = Raise ImportError.
Proof. apply import_app_needs_langchain_prompts. reflexivity. Defined.


Lemma import_app_no_credentials_witness :
  import_app installed_site [("PORT", Some "8080")] ∅ = Raise OpenAIError.
Proof. apply import_app_no_credentials; reflexivity. Defined.

Definition openai_only_env : environ := {[ "OPENAI_API_KEY" := "sk-openai" ]}.

Definition openai_only_app : app :=
  mk_app (load_dotenv [] openai_only_env)
    (mk_llm_config "deepseek-chat" "sk-openai" "https://api.deepseek.com").

Lemma app_unconfigured_openai_key_witness :
  getenv (app_env openai_only_app) "OPENAI_API_KEY" = Some (cfg_api_key (app_llm openai_only_app)).
Proof. apply (app_unconfigured_openai_key installed_site [] openai_only_env); reflexivity. Defined.

Definition deepseek_entries : list (string * option string) :=
  [("DEEPSEEK_API_KEY", Some "sk-deepseek"); ("PORT", Some "8080")].

Definition deepseek_app : app :=
  mk_app (load_dotenv deepseek_entries ∅)
    (mk_llm_config "deepseek-chat" "sk-deepseek" "https://api.deepseek.com").

Lemma serve_call_uses_checked_key_witness :
  getenv (app_env deepseek_app) "DEEPSEEK_API_KEY" = Some (cfg_api_key (app_llm deepseek_app)).
Proof.
  refine (proj2 (serve_call_uses_checked_key (fun _ _ => Ok "Hello") [] installed_site deepseek_entries ∅
            deepseek_app
            (mk_request POST "/api/v1/chat" None
               (Ok (PDict [("messages", PList [client_message ("user", "hi")])]))) _ _));
    [reflexivity | vm_compute; intros Hc; discriminate Hc].
Defined.

Lemma run_port_from_dotenv_witness :
  run (fun _ => true) installed_site deepseek_entries ∅ = Ok (deepseek_app, Listen "0.0.0.0" 8080 true).
Proof. apply run_port_from_dotenv; [reflexivity | reflexivity | reflexivity | lia | reflexivity]. Defined.

Lemma serve_debug_traceback_witness :
  serve_debug (fun _ _ => Ok "ok") [] deepseek_app
    (mk_request POST "/api/v1/chat" (Some "http://evil.example") (Ok (PList []))) =
  (mk_http 500 RDebugger [] None, [LogError AttributeError]).
Proof. apply serve_debug_traceback. by intros d. Defined.

End App.
