(* ===== verification/Server.v ===== *)
(** * The threaded development server

    [app.run(host='0.0.0.0', port=port, debug=True)] (src/app.py line
    193) serves with werkzeug's threaded server (the default of Flask
    since 1.0): each request is handled in a thread of its own, and the
    threads' observable events (the diagnostic lines on stdout and the
    calls of the provider) interleave.  The handler of one request is a
    parameter [handle] (the running application's [App.serve]): what it
    answers and the events it emits when run alone.  The view shares no
    mutable state between requests (it only reads [os.environ] and the
    module's [llm]), so a thread runs its request's events in order and
    then answers.

    The state ([state]) holds the running threads with the events each
    has still to emit, the interleaved log of events tagged with their
    request, and the answers sent.  [step] is the scheduler's relation:
    some thread emits its next event, or a thread with no event left
    sends its answer.  [spawn] starts one thread per request.

    The theorems: interleaving changes no request's answer and no
    request's own sequence of events (an invariant of the reachable
    states, by rule induction); every run of the scheduler terminates
    (the step relation is well founded); and every request is answered,
    its events logged in full. *)

From stdpp Require Import base list sets strings.
From Stdlib Require Import String ZArith Lia Wf_nat.
From S2P Require Import Prelude PyValue Prompt Log ChatHandler Routes.

Module Server.
Import PyValue Prompt Log ChatHandler Routes.

(** ** States and steps *)

Record thread : Type := mk_thread {
  th_id : nat;                         (** the request's position *)
  th_todo : list event;                (** the events still to emit *)
  th_resp : http_response              (** the answer it will send *)
}.

Record state : Type := mk_state {
  threads : list thread;
  log : list (nat * event);
  answered : list (nat * http_response)
}.

Section Scheduler.

(** One request handled alone: its answer and its events. *)
Variable handle : request -> http_response * list event.

(** The threads started for the requests, in order. *)
Definition spawn (reqs : list request) : state :=
  mk_state (imap (fun i r => mk_thread i (handle r).2 (handle r).1) reqs) [] [].

Inductive step : state -> state -> Prop :=
| step_event ts1 t e rest ts2 lg ans :
    th_todo t = e :: rest ->
    step (mk_state (ts1 ++ t :: ts2) lg ans)
         (mk_state (ts1 ++ mk_thread (th_id t) rest (th_resp t) :: ts2) (lg ++ [(th_id t, e)]) ans)
| step_answer ts1 t ts2 lg ans :
    th_todo t = [] ->
    step (mk_state (ts1 ++ t :: ts2) lg ans)
         (mk_state (ts1 ++ ts2) lg (ans ++ [(th_id t, th_resp t)])).

Inductive star : state -> state -> Prop :=
| star_refl s : star s s
| star_step s1 s2 s3 : step s1 s2 -> star s2 s3 -> star s1 s3.

End Scheduler.

(** The events of request [i] in a log, in order. *)
Definition proj (i : nat) (lg : list (nat * event)) : list event :=
  omap (fun je => if decide (je.1 = i) then Some je.2 else None) lg.

(** What remains to do: each thread's events and its answer. *)
Definition weight (s : state) : nat :=
  sum_list (map (fun t => S (length (th_todo t))) (threads s)).

(** The invariant of the states reached from [spawn handle reqs]: the
    threads and the answers are tagged with distinct requests; a
    running thread's logged events followed by those it has still to
    emit are its request's events, and it will send its request's
    answer; an answered request has sent its answer and logged all its
    events; and every request has a thread or an answer. *)
Definition inv (handle : request -> http_response * list event) (reqs : list request)
    (s : state) : Prop :=
  NoDup ((th_id <$> threads s) ++ (fst <$> answered s)) /\
  (forall t, t ∈ threads s -> exists r, reqs !! th_id t = Some r /\
     proj (th_id t) (log s) ++ th_todo t = (handle r).2 /\ th_resp t = (handle r).1) /\
  (forall i resp, (i, resp) ∈ answered s -> exists r, reqs !! i = Some r /\
     proj i (log s) = (handle r).2 /\ resp = (handle r).1) /\
  (forall i, i < length reqs -> i ∈ (th_id <$> threads s) ++ (fst <$> answered s)).

(** ** Lemmas *)

Lemma proj_snoc (i j : nat) (lg : list (nat * event)) (e : event) :
  proj i (lg ++ [(j, e)]) = proj i lg ++ (if decide (j = i) then [e] else []).
Proof. unfold proj. rewrite omap_app. simpl. by case_decide. Qed.

Lemma weight_app (ts1 ts2 : list thread) lg ans :
  weight (mk_state (ts1 ++ ts2) lg ans) =
  weight (mk_state ts1 lg ans) + weight (mk_state ts2 lg ans).
Proof. unfold weight. cbn [threads]. by rewrite map_app, sum_list_with_app. Qed.

Lemma step_weight (s s' : state) :
  step s s' -> weight s' < weight s.
Proof.
  destruct 1 as [ts1 t e rest ts2 lg ans Ht | ts1 t ts2 lg ans Ht];
    rewrite !weight_app; unfold weight; cbn [threads map sum_list th_todo]; rewrite ?Ht; simpl; lia.
Qed.

(** The request of a thread is tagged nowhere else. *)
Lemma nodup_fresh (ts1 ts2 : list thread) (t : thread) (ans : list (nat * http_response)) :
  NoDup ((th_id <$> ts1 ++ t :: ts2) ++ (fst <$> ans)) ->
  th_id t ∉ (th_id <$> ts1 ++ ts2) ++ (fst <$> ans).
Proof.
  intros Hnd.
  assert (Hp : (th_id <$> ts1 ++ t :: ts2) ++ (fst <$> ans) ≡ₚ
               th_id t :: ((th_id <$> ts1 ++ ts2) ++ (fst <$> ans)))
    by (rewrite !fmap_app; simpl; solve_Permutation).
  rewrite Hp in Hnd. by apply NoDup_cons in Hnd as [? _].
Qed.

Lemma proj_other (i j : nat) (lg : list (nat * event)) (e : event) :
  j <> i -> proj i (lg ++ [(j, e)]) = proj i lg.
Proof. intros Hne. rewrite proj_snoc. case_decide; [done | apply app_nil_r]. Qed.

Lemma inv_spawn (handle : request -> http_response * list event) (reqs : list request) :
  inv handle reqs (spawn handle reqs).
Proof.
  unfold inv, spawn; cbn [threads log answered].
  assert (Hids : th_id <$> imap (fun i r => mk_thread i (handle r).2 (handle r).1) reqs =
                 seq 0 (length reqs)).
  { rewrite fmap_imap, (imap_ext _ (fun j _ => j)) by done. by rewrite imap_seq_0, list_fmap_id. }
  rewrite Hids, app_nil_r. split; [apply NoDup_seq|]. split; [|split].
  - intros t [i [r [-> Hr]]]%elem_of_lookup_imap. by exists r.
  - intros i resp Hin. by apply elem_of_nil in Hin.
  - intros i Hi. apply elem_of_seq. lia.
Qed.

Lemma star_trans (s1 s2 s3 : state) : star s1 s2 -> star s2 s3 -> star s1 s3.
Proof. induction 1; eauto using star. Qed.

(** A step keeps the invariant. *)
Lemma inv_step (handle : request -> http_response * list event) (reqs : list request)
    (s s' : state) :
  step s s' -> inv handle reqs s -> inv handle reqs s'.
Proof.
  unfold inv. destruct 1 as [ts1 t e rest ts2 lg ans Ht | ts1 t ts2 lg ans Ht];
    intros (Hnd & Hth & Hans & Hcov); cbn [threads log answered] in *;
    pose proof (nodup_fresh _ _ _ _ Hnd) as Hfr.
  - assert (Hids : th_id <$> ts1 ++ mk_thread (th_id t) rest (th_resp t) :: ts2 =
                   th_id <$> ts1 ++ t :: ts2) by (by rewrite !fmap_app).
    rewrite Hids. split; [done|]. split; [|split; [|done]].
    + intros u Hu. apply elem_of_app in Hu as [Hu|Hu]; [|apply elem_of_cons in Hu as [->|Hu]].
      * rewrite proj_other; [apply Hth; set_solver|].
        intros Heq. apply Hfr. rewrite Heq, fmap_app. apply elem_of_app; left.
        apply elem_of_app; left. by apply list_elem_of_fmap_2.
      * destruct (Hth t) as (r & Hr & Htr & Hresp); [set_solver|].
        exists r. cbn [th_id th_todo th_resp]. rewrite proj_snoc, decide_True by done.
        rewrite <- app_assoc. by rewrite Ht in Htr.
      * rewrite proj_other; [apply Hth; set_solver|].
        intros Heq. apply Hfr. rewrite Heq, fmap_app. apply elem_of_app; left.
        apply elem_of_app; right. by apply list_elem_of_fmap_2.
    + intros i resp Hin. rewrite proj_other; [by apply Hans|].
      intros <-. apply Hfr. apply elem_of_app; right.
      by apply (list_elem_of_fmap_2 fst _ (th_id t, resp)).
  - assert (Hp : (th_id <$> ts1 ++ t :: ts2) ++ (fst <$> ans) ≡ₚ
                 (th_id <$> ts1 ++ ts2) ++ (fst <$> ans ++ [(th_id t, th_resp t)]))
      by (rewrite !fmap_app; simpl; solve_Permutation).
    split; [by rewrite <- Hp|]. split; [|split].
    + intros u Hu. apply Hth. set_solver.
    + intros i resp Hin. apply elem_of_app in Hin as [Hin|Hin]; [by apply Hans|].
      apply list_elem_of_singleton in Hin. simplify_eq.
      destruct (Hth t) as (r & Hr & Htr & Hresp); [set_solver|].
      exists r. rewrite Ht, app_nil_r in Htr. done.
    + intros i Hi. rewrite <- Hp. by apply Hcov.
Qed.

Lemma inv_star (handle : request -> http_response * list event) (reqs : list request)
    (s s' : state) :
  star s s' -> inv handle reqs s -> inv handle reqs s'.
Proof. induction 1; eauto using inv_step. Qed.

(** From every state the scheduler can run every thread to its end. *)
Lemma star_to_final (s : state) : exists s', star s s' /\ threads s' = [].
Proof.
  induction s as [s IH] using (well_founded_induction (well_founded_ltof state weight)).
  destruct s as [[|t ts] lg ans]; [by eexists; split; [apply star_refl|]|].
  destruct (th_todo t) as [|e rest] eqn:Ht.
  - pose proof (step_answer [] t ts lg ans Ht) as Hs.
    destruct (IH _ (step_weight _ _ Hs)) as (s' & Hst & Hf).
    exists s'. split; [eapply star_step; eauto | done].
  - pose proof (step_event [] t e rest ts lg ans Ht) as Hs.
    destruct (IH _ (step_weight _ _ Hs)) as (s' & Hst & Hf).
    exists s'. split; [eapply star_step; eauto | done].
Qed.

(** ** Theorems *)

(** Interleaving the requests' threads is sound: in every state
    the scheduler reaches, each answer sent is the answer its request
    gets when handled alone, after all of that request's events, and
    the events logged so far for each request are a prefix of its own
    events, in their order. *)
Theorem server_interleaving_sound (handle : request -> http_response * list event)
    (reqs : list request) (s : state) :
  star (spawn handle reqs) s ->
  (forall i resp, (i, resp) ∈ answered s ->
     exists r, reqs !! i = Some r /\ resp = (handle r).1 /\ proj i (log s) = (handle r).2) /\
  (forall i r, reqs !! i = Some r -> proj i (log s) `prefix_of` (handle r).2).
Proof.
  intros Hst. destruct (inv_star handle reqs _ _ Hst (inv_spawn handle reqs))
    as (Hnd & Hth & Hans & Hcov).
  split.
  - intros i resp Hin. destruct (Hans i resp Hin) as (r & Hr & Hp & Hresp). by exists r.
  - intros i r Hr. pose proof (Hcov i (lookup_lt_Some _ _ _ Hr)) as Hi.
    apply elem_of_app in Hi as [Hi|Hi]; apply list_elem_of_fmap in Hi as [x [-> Hx]].
    + destruct (Hth x Hx) as (r' & Hr' & Htr & _). rewrite Hr in Hr'. simplify_eq.
      rewrite <- Htr. by exists (th_todo x).
    + destruct x as [j resp]. cbn in *. destruct (Hans j resp Hx) as (r' & Hr' & Hp & _).
      rewrite Hr in Hr'. simplify_eq. by rewrite Hp.
Qed.

(** The scheduler terminates: there is no infinite sequence of
    steps from any state (each step emits an event or sends an answer,
    and a state has finitely many left). *)
Theorem step_terminates (s : state) : Acc (fun s2 s1 => step s1 s2) s.
Proof.
  induction s as [s IH] using (well_founded_induction (well_founded_ltof state weight)).
  constructor. intros s' Hs. apply IH. by apply step_weight.
Qed.

(** Every request is answered: from every state the scheduler
    reaches, it can run to a state with no thread left, where each
    request has sent the answer it gets when handled alone and logged
    all its events, in order. *)
Theorem server_answers_all (handle : request -> http_response * list event)
    (reqs : list request) (s : state) :
  star (spawn handle reqs) s ->
  exists s', star s s' /\ threads s' = [] /\
    forall i r, reqs !! i = Some r ->
      (i, (handle r).1) ∈ answered s' /\ proj i (log s') = (handle r).2.
Proof.
  intros Hst. destruct (star_to_final s) as (s' & Hs' & Hf). exists s'. split; [done|]. split; [done|].
  destruct (inv_star handle reqs _ _ (star_trans _ _ _ Hst Hs') (inv_spawn handle reqs))
    as (_ & _ & Hans & Hcov).
  intros i r Hr. pose proof (Hcov i (lookup_lt_Some _ _ _ Hr)) as Hi.
  rewrite Hf in Hi. cbn in Hi. apply list_elem_of_fmap in Hi as [[j resp] [Hj Hx]]. cbn in Hj. subst j.
  destruct (Hans i resp Hx) as (r' & Hr' & Hp & ->). rewrite Hr in Hr'. simplify_eq. done.
Qed.

(** ** Witnesses *)

(** Two requests to the application: a page and an unknown path. *)
Definition sample_handle : request -> http_response * list event :=
  dispatch ["index.html"] None (fun _ => Ok "ok").

Definition sample_reqs : list request :=
  [mk_request GET "/" None (Ok PNone); mk_request GET "/about" None (Ok PNone)].

(** A chat request without a key: the thread logs the missing-key
    warning, then answers. *)
Definition chat_req : request :=
  mk_request POST "/api/v1/chat" None (Ok (PDict [("messages", PList [client_message ("user", "hi")])])).

Definition chat_handle : request -> http_response * list event :=
  dispatch [] None (fun _ => Ok "ok").

Lemma server_interleaving_sound_witness :
  exists r, [chat_req] !! 0 = Some r /\ (chat_handle chat_req).1 = (chat_handle r).1 /\
    proj 0 [(0, LogUnconfigured)] = (chat_handle r).2.
Proof.
  assert (Hst : star (spawn chat_handle [chat_req])
                  (mk_state [] [(0, LogUnconfigured)] [(0, (chat_handle chat_req).1)])).
  { eapply star_step.
    { apply (step_event [] (mk_thread 0 (chat_handle chat_req).2 (chat_handle chat_req).1)
               LogUnconfigured [] [] [] []).
      vm_compute. reflexivity. }
    eapply star_step; [|apply star_refl].
    by apply (step_answer [] (mk_thread 0 [] (chat_handle chat_req).1) [] [(0, LogUnconfigured)] []). }
  apply (proj1 (server_interleaving_sound chat_handle [chat_req] _ Hst) 0 (chat_handle chat_req).1).
  apply list_elem_of_singleton. reflexivity.
Defined.

Lemma server_answers_all_witness :
  exists s', star (spawn sample_handle sample_reqs) s' /\ threads s' = [] /\
    forall i r, sample_reqs !! i = Some r ->
      (i, (sample_handle r).1) ∈ answered s' /\ proj i (log s') = (sample_handle r).2.
Proof. exact (server_answers_all sample_handle sample_reqs _ (star_refl _)). Defined.

End Server.
